(** * CommonLight crisis portal: the filter-extraction and search pipeline

    A shallow embedding of the TypeScript sources
      - lib/api/transform.ts            (schema transformer)
      - lib/api/backend-client.ts       (HTTP client with retry)
      - lib/api/llm-fallback.ts         (provider fallback)
      - app/api/llm/extract-filters/route.ts (validator, keyword fallback, POST)
      - app/api/resources/[id]/route.ts (resource detail endpoint)
      - types/search.ts                 (FilterUtils URL serialization)
    together with the properties the specification states about them.

    Conventions.  A JavaScript string is a Rocq [string]: a sequence of code
    units, each below 256.  A JavaScript number is a [JsNumber].  A function
    that can throw returns a [Result].  Objects used as dictionaries are
    [gmap]s; [URLSearchParams], whose order and duplicates matter, is a list
    of pairs. *)

From Stdlib Require Import String Ascii ZArith List Bool Lia DecimalString.
From stdpp Require Import base option list gmap strings.

Set Warnings "-register-all".

Local Open Scope string_scope.
Local Open Scope Z_scope.

(** ** JavaScript values *)

Module Js.

(** A number.  [JDec m e] is the finite number whose shortest decimal
    representation that reads back as the same double is [m * 10^e];
    this is the representation [Number::toString] is defined on. *)
Inductive JsNumber : Type :=
| JNaN
| JInfinity (negative : bool)
| JDec (m : Z) (e : Z).

Inductive JsValue : Type :=
| JUndefined
| JNull
| JBool (b : bool)
| JNum (n : JsNumber)
| JStr (s : string)
| JArr (items : list JsValue)
| JObj (props : list (string * JsValue)).

(** What a [throw] carries. *)
Inductive JsError : Type :=
| Error (message : string)
| TypeError (message : string)
| SyntaxError (message : string)
| BackendAPIError (message : string) (statusCode : option Z)
                  (originalError : JsError).

Inductive Result (A : Type) : Type :=
| Ok (a : A)
| Throw (e : JsError).
Arguments Ok {A} a.
Arguments Throw {A} e.

Definition isThrow {A} (r : Result A) : bool :=
  match r with Ok _ => false | Throw _ => true end.

(** *** Strings *)

Definition dquote : string := String (ascii_of_nat 34) EmptyString.

Fixpoint startsWith (s prefix : string) : bool :=
  match prefix, s with
  | EmptyString, _ => true
  | String p prefix', String c s' => Ascii.eqb p c && startsWith s' prefix'
  | String _ _, EmptyString => false
  end.

(** [s.includes(t)] *)
Fixpoint includes (s t : string) : bool :=
  startsWith s t ||
  match s with
  | EmptyString => false
  | String _ s' => includes s' t
  end.

(** [parts.join(sep)] on strings. *)
Fixpoint join (sep : string) (parts : list string) : string :=
  match parts with
  | [] => EmptyString
  | [p] => p
  | p :: rest => p ++ sep ++ join sep rest
  end.

Definition lowerUnit (c : ascii) : ascii :=
  let n := nat_of_ascii c in
  if ((65 <=? n) && (n <=? 90))%nat then ascii_of_nat (n + 32)
  else if ((192 <=? n) && (n <=? 222) && negb (n =? 215))%nat
       then ascii_of_nat (n + 32)
  else c.

(** [s.toLowerCase()] on code units below 256. *)
Fixpoint toLowerCase (s : string) : string :=
  match s with
  | EmptyString => EmptyString
  | String c s' => String (lowerUnit c) (toLowerCase s')
  end.

(** White space and line terminators below 256: TAB, LF, VT, FF, CR, SP,
    NBSP. *)
Definition isWhiteSpace (c : ascii) : bool :=
  let n := nat_of_ascii c in
  ((9 <=? n) && (n <=? 13) || (n =? 32) || (n =? 160))%nat.

Fixpoint trimStart (s : string) : string :=
  match s with
  | EmptyString => EmptyString
  | String c s' => if isWhiteSpace c then trimStart s' else s
  end.

Definition reverse (s : string) : string :=
  string_of_list_ascii (rev (list_ascii_of_string s)).

(** [s.trim()] *)
Definition trim (s : string) : string :=
  reverse (trimStart (reverse (trimStart s))).

(** *** Numbers *)

Definition digitsOfPos (p : positive) : string :=
  NilEmpty.string_of_uint (Pos.to_uint p).

Definition digitsOfNat (n : nat) : string :=
  NilEmpty.string_of_uint (Nat.to_uint n).

Definition zeros (n : nat) : string :=
  string_of_list_ascii (repeat "0"%char n).

Fixpoint dropZeros (rev_digits : list ascii) : list ascii * nat :=
  match rev_digits with
  | c :: rest =>
      if Ascii.eqb c "0"%char
      then let '(ds, z) := dropZeros rest in (ds, S z)
      else (rev_digits, O)
  | [] => ([], O)
  end.

(** The digits [s] (without trailing zeros), their count [k], and [n] such
    that the number is [0.s * 10^n]: the triple of [Number::toString]. *)
Definition decimalTriple (p : positive) (e : Z) : string * Z * Z :=
  let '(rds, z) := dropZeros (rev (list_ascii_of_string (digitsOfPos p))) in
  let s := string_of_list_ascii (rev rds) in
  let k := Z.of_nat (String.length s) in
  (s, k, e + Z.of_nat z + k).

Definition formatDecimal (s : string) (k n : Z) : string :=
  if (-5 <=? n) && (n <=? 21) then
    if k <=? n then s ++ zeros (Z.to_nat (n - k))
    else if 0 <? n then
      substring 0 (Z.to_nat n) s ++ "." ++
      substring (Z.to_nat n) (Z.to_nat (k - n)) s
    else "0." ++ zeros (Z.to_nat (- n)) ++ s
  else
    let ex := n - 1 in
    let sign := if 0 <=? ex then "+" else "-" in
    let mant :=
      if k =? 1 then s
      else substring 0 1 s ++ "." ++ substring 1 (Z.to_nat (k - 1)) s in
    mant ++ "e" ++ sign ++ digitsOfNat (Z.to_nat (Z.abs ex)).

(** [Number::toString(x)], radix 10. *)
Definition Number_toString (x : JsNumber) : string :=
  match x with
  | JNaN => "NaN"
  | JInfinity false => "Infinity"
  | JInfinity true => "-Infinity"
  | JDec Z0 _ => "0"
  | JDec (Zpos p) e =>
      let '(s, k, n) := decimalTriple p e in formatDecimal s k n
  | JDec (Zneg p) e =>
      let '(s, k, n) := decimalTriple p e in "-" ++ formatDecimal s k n
  end.

Definition isNaN (x : JsNumber) : bool :=
  match x with JNaN => true | _ => false end.

(** [Number.isFinite]-style classification, used only in statements. *)
Definition isFiniteNumber (v : JsValue) : bool :=
  match v with JNum (JDec _ _) => true | _ => false end.

(** *** Dynamic operations *)

Definition typeof (v : JsValue) : string :=
  match v with
  | JUndefined => "undefined"
  | JNull => "object"
  | JBool _ => "boolean"
  | JNum _ => "number"
  | JStr _ => "string"
  | JArr _ => "object"
  | JObj _ => "object"
  end.

Definition numberTruthy (x : JsNumber) : bool :=
  match x with
  | JNaN => false
  | JDec Z0 _ => false
  | _ => true
  end.

Definition stringTruthy (s : string) : bool :=
  match s with EmptyString => false | _ => true end.

(** [ToBoolean] *)
Definition truthy (v : JsValue) : bool :=
  match v with
  | JUndefined | JNull => false
  | JBool b => b
  | JNum x => numberTruthy x
  | JStr s => stringTruthy s
  | JArr _ | JObj _ => true
  end.

Definition hasOwn (k : string) (props : list (string * JsValue)) : bool :=
  existsb (fun kv => String.eqb (fst kv) k) props.

Definition Boolean_toString (b : bool) : string :=
  if b then "true" else "false".

(** [ToString].  [None] stands for the [TypeError] raised when an object
    cannot be converted to a primitive: a data object that has an own
    (non-callable) [toString] property.  Every other object prints as
    [[object Object]]; an array prints as its elements joined by commas,
    [null] and [undefined] elements printing as nothing. *)
Fixpoint ToString (v : JsValue) : option string :=
  match v with
  | JUndefined => Some "undefined"
  | JNull => Some "null"
  | JBool b => Some (Boolean_toString b)
  | JNum x => Some (Number_toString x)
  | JStr s => Some s
  | JArr items =>
      let element v :=
        match v with
        | JUndefined | JNull => Some EmptyString
        | _ => ToString v
        end in
      (fix go (l : list JsValue) : option (list string) :=
         match l with
         | [] => Some []
         | x :: l' =>
             match element x, go l' with
             | Some s, Some ss => Some (s :: ss)
             | _, _ => None
             end
         end) items ≫= fun parts => Some (join "," parts)
  | JObj props =>
      if hasOwn "toString" props then None else Some "[object Object]"
  end.

End Js.
Export Js.

(** ** The canonical filter schema (types/search.ts)

    The fields of [CanonicalSearchFilters] that the modelled functions read
    or write; an absent (or [undefined]) field is [None]. *)

Inductive CarePhase : Type :=
| immediate_crisis | acute_support | recovery_support | maintenance.

Definition CarePhase_code (p : CarePhase) : string :=
  match p with
  | immediate_crisis => "immediate_crisis"
  | acute_support => "acute_support"
  | recovery_support => "recovery_support"
  | maintenance => "maintenance"
  end.

Inductive Gender : Type := male | female.

Definition Gender_code (g : Gender) : string :=
  match g with male => "male" | female => "female" end.

(** The coordinates reach the transformer from a parsed query string, and
    the transformer inspects their run-time type: they are dynamic values. *)
Record LocationCoordinate : Type := {
  lat : JsValue;
  lon : JsValue;
}.

Record SearchLocation : Type := {
  address : string;
  coordinates : option LocationCoordinate;
}.

(** An element of [service_types].  Its declared type is [string];
    [Inherited name] is the value of [Object.prototype[name]], which is what
    the alias lookup of the validator evaluates to for a key that the alias
    table does not own but inherits. *)
Inductive ServiceType : Type :=
| Code (code : string)
| Inherited (name : string).

#[global] Instance ServiceType_eq_dec : EqDecision ServiceType.
Proof. solve_decision. Defined.

Record CanonicalSearchFilters : Type := {
  keywords : option string;
  service_types : option (list ServiceType);
  care_phase : option CarePhase;
  location : option SearchLocation;
  max_distance_km : option JsNumber;
  insurance : option (list string);
  languages : option (list string);
  lgbtq_affirming : option bool;
  age_groups : option (list string);
  gender_specific : option Gender;
  wheelchair_accessible : option bool;
  telehealth_available : option bool;
  acceptingNewPatients : option bool;
  urgentAccessOnly : option bool;
  has_crisis_services : option bool;
  min_rcs : option JsNumber;
  verified_only : option bool;
  walk_ins_accepted : option bool;
  referral_required : option bool;
  limit : option JsNumber;
  offset : option JsNumber;
}.

(** The object literal [{}]. *)
Definition noFilters : CanonicalSearchFilters :=
  {| keywords := None; service_types := None; care_phase := None;
     location := None; max_distance_km := None; insurance := None;
     languages := None; lgbtq_affirming := None; age_groups := None;
     gender_specific := None; wheelchair_accessible := None;
     telehealth_available := None; acceptingNewPatients := None;
     urgentAccessOnly := None; has_crisis_services := None; min_rcs := None;
     verified_only := None; walk_ins_accepted := None;
     referral_required := None; limit := None; offset := None |}.

(** The string a [service_types] element converts to: a code is itself; an
    inherited built-in function prints as its native source text (the
    [constructor] property is the function named [Object]) and the
    inherited [__proto__] object as a plain object. *)
Definition ServiceType_toString (t : ServiceType) : string :=
  match t with
  | Code s => s
  | Inherited name =>
      if String.eqb name "__proto__" then "[object Object]"
      else if String.eqb name "constructor"
           then "function Object() { [native code] }"
      else "function " ++ name ++ "() { [native code] }"
  end.

(** ** Schema transformer (lib/api/transform.ts) *)

Module Transform.

(** [params[k] = v] when the guard of field [k] produced a value. *)
Definition setOpt (k : string) (v : option string)
    (params : gmap string string) : gmap string string :=
  match v with
  | Some s => <[k := s]> params
  | None => params
  end.

Definition whenTruthyString (v : option string) : option string :=
  s ← v; if stringTruthy s then Some s else None.

Definition whenTruthyNumber (v : option JsNumber) : option string :=
  x ← v; if numberTruthy x then Some (Number_toString x) else None.

(** [xs?.length] is truthy, then [xs.join(',')]. *)
Definition whenNonEmpty {A} (show : A -> string) (v : option (list A))
    : option string :=
  xs ← v; match xs with [] => None | _ => Some (join "," (show <$> xs)) end.

Definition invalidCoordinatesMessage (slat tlat slon tlon : string) : string :=
  "Invalid location coordinates: lat=" ++ slat ++ " (" ++ tlat ++ "), lon="
  ++ slon ++ " (" ++ tlon ++ ")".

(** The location block: [None] when there is nothing to set.  The
    conversions of [lat] and [lon] to strings are those of the template
    literals. *)
Definition locationParam (filters : CanonicalSearchFilters)
    : Result (option string) :=
  match location filters ≫= coordinates with
  | None => Ok None
  | Some c =>
      let lat := lat c in
      let lon := lon c in
      match ToString lat, ToString lon with
      | Some slat, Some slon =>
          if String.eqb (typeof lat) "number"
             && String.eqb (typeof lon) "number"
          then Ok (Some (slat ++ "," ++ slon))
          else Throw (Error (invalidCoordinatesMessage
                               slat (typeof lat) slon (typeof lon)))
      | _, _ => Throw (TypeError "Cannot convert object to primitive value")
      end
  end.

(** Everything after the location block, in source order. *)
Definition restParams (filters : CanonicalSearchFilters)
    (params : gmap string string) : gmap string string :=
  let params := setOpt "radius_km"
                  (whenTruthyNumber (max_distance_km filters)) params in
  let params := setOpt "service_types"
                  (whenNonEmpty ServiceType_toString (service_types filters))
                  params in
  let params := setOpt "insurance_types"
                  (whenNonEmpty id (insurance filters)) params in
  let params := setOpt "languages"
                  (whenNonEmpty id (languages filters)) params in
  let params := setOpt "age_groups"
                  (whenNonEmpty id (age_groups filters)) params in
  let params := setOpt "has_crisis_services"
                  (Boolean_toString <$> has_crisis_services filters) params in
  let params := setOpt "walk_ins_accepted"
                  (Boolean_toString <$> walk_ins_accepted filters) params in
  let params := setOpt "referral_required"
                  (Boolean_toString <$> referral_required filters) params in
  let params := setOpt "gender_specific"
                  (Gender_code <$> gender_specific filters) params in
  let params := setOpt "lgbtq_affirming"
                  (Boolean_toString <$> lgbtq_affirming filters) params in
  let params := setOpt "wheelchair_accessible"
                  (Boolean_toString <$> wheelchair_accessible filters)
                  params in
  let params := setOpt "telehealth_available"
                  (Boolean_toString <$> telehealth_available filters)
                  params in
  let params := setOpt "urgent_access_only"
                  (Boolean_toString <$> urgentAccessOnly filters) params in
  let params := setOpt "accepting_new_patients"
                  (Boolean_toString <$> acceptingNewPatients filters)
                  params in
  let params := setOpt "care_phase"
                  (CarePhase_code <$> care_phase filters) params in
  let params := setOpt "verified_only"
                  (Boolean_toString <$> verified_only filters) params in
  let params := setOpt "min_confidence"
                  (Number_toString <$> min_rcs filters) params in
  let params := setOpt "limit" (whenTruthyNumber (limit filters)) params in
  let params := setOpt "offset" (whenTruthyNumber (offset filters)) params in
  params.

Definition transformFiltersToBackendParams (filters : CanonicalSearchFilters)
    : Result (gmap string string) :=
  let params : gmap string string := ∅ in
  let params := setOpt "query" (whenTruthyString (keywords filters)) params in
  match locationParam filters with
  | Throw e => Throw e
  | Ok loc =>
      let params := setOpt "location" loc params in
      Ok (restParams filters params)
  end.

(** The [location] entry of the result, when the call returns. *)
Definition locationOf (r : Result (gmap string string)) : option string :=
  match r with
  | Ok params => params !! "location"
  | Throw _ => None
  end.

Definition withCoordinates (vlat vlon : JsValue) : CanonicalSearchFilters :=
  {| keywords := None; service_types := None; care_phase := None;
     location := Some {| address := EmptyString;
                         coordinates := Some {| lat := vlat; lon := vlon |} |};
     max_distance_km := None; insurance := None;
     languages := None; lgbtq_affirming := None; age_groups := None;
     gender_specific := None; wheelchair_accessible := None;
     telehealth_available := None; acceptingNewPatients := None;
     urgentAccessOnly := None; has_crisis_services := None; min_rcs := None;
     verified_only := None; walk_ins_accepted := None;
     referral_required := None; limit := None; offset := None |}.

End Transform.

(** ** Backend client (lib/api/backend-client.ts) *)

Module BackendClient.

Record RetryOptions : Type := {
  maxRetries : nat;
  backoffMs : Z;
  retryableStatuses : list Z;
}.

Definition DEFAULT_RETRY_OPTIONS : RetryOptions :=
  {| maxRetries := 3;
     backoffMs := 1000;
     retryableStatuses := [408; 429; 500; 502; 503; 504] |}.

(** What the server sends back.  [json] is what [response.json()] resolves
    to, [None] when the body is not JSON (the call then rejects). *)
Record Response : Type := {
  status : Z;
  statusText : string;
  json : option JsValue;
}.

(** [response.ok] *)
Definition ok (r : Response) : bool :=
  (200 <=? status r) && (status r <=? 299).

(** One call of [fetch]: it rejects (a network failure) or resolves. *)
Inductive FetchOutcome : Type :=
| Rejects (e : JsError)
| Resolves (r : Response).

(** The outside world during one client call: the outcome of the request
    made at each attempt (attempts count from 0). *)
Definition Backend : Type := nat -> FetchOutcome.

(** What a client call does to the outside world, in order. *)
Inductive Event : Type :=
| Fetch (url method : string) (authorization : option string)
| Sleep (ms : Z).

Definition isFetch (ev : Event) : bool :=
  match ev with Fetch _ _ _ => true | Sleep _ => false end.

(** The number of requests sent. *)
Definition attempts (trace : list Event) : nat :=
  length (filter (fun ev => isFetch ev = true) trace).

(** The delays waited, in order. *)
Definition delays (trace : list Event) : list Z :=
  omap (fun ev => match ev with Sleep ms => Some ms | _ => None end) trace.

Definition httpError (r : Response) : JsError :=
  Error ("HTTP " ++ Number_toString (JDec (status r) 0) ++ ": "
         ++ statusText r).

(** How the [try] block of one iteration ends: with the [return], by
    falling out of its end (with [lastError] assigned), or with a [throw],
    which the [catch] of the same statement receives. *)
Inductive TryOutcome : Type :=
| Returned (r : Response)
| FellThrough (lastError : JsError)
| Thrown (e : JsError).

Definition tryBlock (opts : RetryOptions) (o : FetchOutcome) : TryOutcome :=
  match o with
  | Rejects e => Thrown e
  | Resolves r =>
      if ok r then Returned r
      else if negb (bool_decide (status r ∈ retryableStatuses opts))
           then Thrown (httpError r)
           else FellThrough (httpError r)
  end.

Section Client.

(** [process.env.FASTAPI_URL || ...] and [process.env.FASTAPI_API_KEY || '']. *)
Variable FASTAPI_URL : string.
Variable FASTAPI_API_KEY : string.

(** [new URLSearchParams(params).toString()] *)
Variable queryStringOf : gmap string string -> string.

Variable backend : Backend.

Definition authorizationHeader : option string :=
  if stringTruthy FASTAPI_API_KEY
  then Some ("Bearer " ++ FASTAPI_API_KEY) else None.

(** The wait at the end of an iteration. *)
Definition backoff (opts : RetryOptions) (attempt : nat) : list Event :=
  if (attempt <? maxRetries opts)%nat
  then [Sleep (backoffMs opts * 2 ^ Z.of_nat attempt)] else [].

(** The [for] loop of [fetchWithRetry], from iteration [attempt] on, with
    [remaining] iterations left before [attempt <= maxRetries] fails. *)
Fixpoint retryLoop (opts : RetryOptions) (url method : string)
    (remaining attempt : nat) (lastError : option JsError)
    : Result Response * list Event :=
  match remaining with
  | O => (Throw (default (Error "Max retries exceeded") lastError), [])
  | S remaining' =>
      let request := Fetch url method authorizationHeader in
      let continue e :=
        let '(res, trace) :=
          retryLoop opts url method remaining' (S attempt) (Some e) in
        (res, (request :: backoff opts attempt ++ trace)%list) in
      match tryBlock opts (backend attempt) with
      | Returned r => (Ok r, [request])
      | FellThrough e => continue e
      | Thrown e =>
          if (attempt =? maxRetries opts)%nat
          then (Throw e, [request])
          else continue e
      end
  end.

Definition fetchWithRetry (url method : string) (opts : RetryOptions)
    : Result Response * list Event :=
  retryLoop opts url method (S (maxRetries opts)) 0 None.

(** The body shared by the client methods ([extractFilters],
    [searchResources], [getResourceById]), which differ in the URL, the
    method and the message:
    [try { r = await fetchWithRetry(..); return await r.json() }
     catch (error) { throw new BackendAPIError(message, undefined, ..) }]. *)
Definition clientCall (url method message : string)
    : Result JsValue * list Event :=
  let '(res, trace) := fetchWithRetry url method DEFAULT_RETRY_OPTIONS in
  let wrap (error : JsError) := Throw (BackendAPIError message None error) in
  match res with
  | Ok r =>
      match json r with
      | Some v => (Ok v, trace)
      | None => (wrap (SyntaxError "Unexpected token in JSON"), trace)
      end
  | Throw error => (wrap error, trace)
  end.

Definition searchResources (params : gmap string string)
    : Result JsValue * list Event :=
  clientCall (FASTAPI_URL ++ "/v2/resources/search?" ++ queryStringOf params)
             "GET" "Failed to search resources".

Definition getResourceById (resourceId : string)
    : Result JsValue * list Event :=
  clientCall (FASTAPI_URL ++ "/v2/resources/" ++ resourceId)
             "GET" "Failed to get resource details".

End Client.

(** A server that answers every request with the same status. *)
Definition always (code : Z) (text : string) : Backend :=
  fun _ => Resolves {| status := code; statusText := text; json := None |}.

(** No attempt of the call returns a response: each one ends with an
    error, thrown or recorded. *)
Definition neverReturns (opts : RetryOptions) (backend : Backend) : Prop :=
  ∀ i, ∃ e, tryBlock opts (backend i) = FellThrough e
            ∨ tryBlock opts (backend i) = Thrown e.

(** The status code an error carries, as a handler reads it. *)
Definition statusCodeOf (e : JsError) : option Z :=
  match e with
  | BackendAPIError _ code _ => code
  | _ => None
  end.

End BackendClient.

(** ** Resource detail endpoint (app/api/resources/[id]/route.ts) *)

Module ResourceRoute.
Import BackendClient.

(** [NextResponse.json(body, { status })] *)
Record RouteResponse : Type := {
  code : Z;
  body : JsValue;
}.

Definition isHexDigit (c : ascii) : bool :=
  let n := nat_of_ascii c in
  ((48 <=? n) && (n <=? 57) || (97 <=? n) && (n <=? 102)
   || (65 <=? n) && (n <=? 70))%nat.

(** [[0-9a-f]{n}] under the [i] flag: the rest of [s] after [n] hex digits. *)
Fixpoint hexRun (n : nat) (s : string) : option string :=
  match n, s with
  | O, _ => Some s
  | S n', String c s' => if isHexDigit c then hexRun n' s' else None
  | S _, EmptyString => None
  end.

Definition dash (s : string) : option string :=
  match s with
  | String c s' => if Ascii.eqb c "-"%char then Some s' else None
  | EmptyString => None
  end.

(** [/^[0-9a-f]{8}-[0-9a-f]{4}-[0-9a-f]{4}-[0-9a-f]{4}-[0-9a-f]{12}$/i.test(id)] *)
Definition uuidRegex_test (id : string) : bool :=
  match
    s ← hexRun 8 id; s ← dash s;
    s ← hexRun 4 s; s ← dash s;
    s ← hexRun 4 s; s ← dash s;
    s ← hexRun 4 s; s ← dash s;
    hexRun 12 s
  with
  | Some EmptyString => true
  | _ => false
  end.

Definition errorMessage (e : JsError) : string :=
  match e with
  | Error m | TypeError m | SyntaxError m | BackendAPIError m _ _ => m
  end.

Definition fatal (e : JsError) : RouteResponse :=
  {| code := 500;
     body := JObj [("error", JStr "Failed to fetch resource details");
                   ("details", JStr (errorMessage e))] |}.

(** [backendError.statusCode || 500] *)
Definition statusOr500 (statusCode : option Z) : Z :=
  match statusCode with
  | Some c => if c =? 0 then 500 else c
  | None => 500
  end.

Section Route.

Variable FASTAPI_URL : string.
Variable FASTAPI_API_KEY : string.
Variable backend : Backend.

Definition GET (id : string) : RouteResponse * list Event :=
  if negb (uuidRegex_test id) then
    ({| code := 400;
        body := JObj [("error",
                       JStr "Invalid resource ID format (expected UUID)")] |},
     [])
  else
    let '(res, trace) :=
      getResourceById FASTAPI_URL FASTAPI_API_KEY backend id in
    match res with
    | Ok JNull =>
        (* the log line reads [resource.name] *)
        (fatal (TypeError "Cannot read properties of null (reading 'name')"),
         trace)
    | Ok resource => ({| code := 200; body := resource |}, trace)
    | Throw (BackendAPIError message statusCode _) =>
        if bool_decide (statusCode = Some 404) then
          ({| code := 404;
              body := JObj [("error", JStr "Resource not found")] |}, trace)
        else
          ({| code := statusOr500 statusCode;
              body := JObj [("error", JStr "Failed to fetch resource");
                            ("details", JStr message)] |}, trace)
    | Throw e => (fatal e, trace)
    end.

End Route.

End ResourceRoute.

(** ** Filter extraction (app/api/llm/extract-filters/route.ts) *)

Record Metadata : Type := {
  provider : string;
  model : string;
  tokens_input : Z;
  tokens_output : Z;
}.

Record LLMFilterExtractionResponse : Type := {
  originalQuery : string;
  filters : CanonicalSearchFilters;
  explanation : string;
  confidence : JsNumber;
  metadata : Metadata;
}.

Definition set_service_types (v : option (list ServiceType))
    (f : CanonicalSearchFilters) : CanonicalSearchFilters :=
  {| keywords := keywords f; service_types := v;
     care_phase := care_phase f; location := location f;
     max_distance_km := max_distance_km f; insurance := insurance f;
     languages := languages f; lgbtq_affirming := lgbtq_affirming f;
     age_groups := age_groups f; gender_specific := gender_specific f;
     wheelchair_accessible := wheelchair_accessible f;
     telehealth_available := telehealth_available f;
     acceptingNewPatients := acceptingNewPatients f;
     urgentAccessOnly := urgentAccessOnly f;
     has_crisis_services := has_crisis_services f; min_rcs := min_rcs f;
     verified_only := verified_only f;
     walk_ins_accepted := walk_ins_accepted f;
     referral_required := referral_required f;
     limit := limit f; offset := offset f |}.

Definition set_keywords (v : option string)
    (f : CanonicalSearchFilters) : CanonicalSearchFilters :=
  {| keywords := v; service_types := service_types f;
     care_phase := care_phase f; location := location f;
     max_distance_km := max_distance_km f; insurance := insurance f;
     languages := languages f; lgbtq_affirming := lgbtq_affirming f;
     age_groups := age_groups f; gender_specific := gender_specific f;
     wheelchair_accessible := wheelchair_accessible f;
     telehealth_available := telehealth_available f;
     acceptingNewPatients := acceptingNewPatients f;
     urgentAccessOnly := urgentAccessOnly f;
     has_crisis_services := has_crisis_services f; min_rcs := min_rcs f;
     verified_only := verified_only f;
     walk_ins_accepted := walk_ins_accepted f;
     referral_required := referral_required f;
     limit := limit f; offset := offset f |}.

Definition set_filters (f : CanonicalSearchFilters)
    (r : LLMFilterExtractionResponse) : LLMFilterExtractionResponse :=
  {| originalQuery := originalQuery r; filters := f;
     explanation := explanation r; confidence := confidence r;
     metadata := metadata r |}.

Module Validator.

Definition VALID_SERVICE_TYPES : gset string :=
  list_to_set
    [ "crisis_line"; "crisis_text"; "crisis_chat"; "crisis_mobile";
      "crisis_walk_in"; "crisis_stabilization"; "suicide_prevention";
      "inpatient_psychiatric"; "inpatient_dual_diagnosis";
      "residential_long_term"; "residential_short_term";
      "partial_hospitalization";
      "outpatient_therapy"; "intensive_outpatient"; "medication_management";
      "telehealth_therapy"; "case_management"; "peer_support";
      "detox"; "detox_social"; "sud_inpatient"; "sud_outpatient";
      "mat"; "recovery_support"; "harm_reduction";
      "support_group_general"; "support_group_aa"; "support_group_na";
      "support_group_smart"; "support_group_family"; "support_group_grief";
      "housing"; "food"; "transportation"; "legal"; "employment";
      "healthcare"; "education"; "financial" ].

(** The entries of the object literal [SERVICE_TYPE_ALIASES]. *)
Definition aliasEntries : list (string * string) :=
  [ ("crisis_hotline", "crisis_line");
    ("hotline", "crisis_line");
    ("emergency_services", "crisis_line");
    ("emergency", "crisis_line");
    ("988", "crisis_line");
    ("suicide_hotline", "suicide_prevention");
    ("mental_health", "outpatient_therapy");
    ("therapy", "outpatient_therapy");
    ("counseling", "outpatient_therapy");
    ("inpatient", "inpatient_psychiatric");
    ("residential", "residential_short_term");
    ("rehab", "sud_inpatient");
    ("detoxification", "detox") ].

(** The own properties of [SERVICE_TYPE_ALIASES]. *)
Definition SERVICE_TYPE_ALIASES : gmap string string :=
  list_to_map aliasEntries.

(** The properties an object literal inherits from [Object.prototype]. *)
Definition Object_prototype_names : list string :=
  [ "constructor"; "__defineGetter__"; "__defineSetter__"; "hasOwnProperty";
    "__lookupGetter__"; "__lookupSetter__"; "isPrototypeOf";
    "propertyIsEnumerable"; "toString"; "valueOf"; "__proto__";
    "toLocaleString" ].

(** [VALID_SERVICE_TYPES.has(type)]: only a string can be a member. *)
Definition isValid (type : ServiceType) : bool :=
  match type with
  | Code s => bool_decide (s ∈ VALID_SERVICE_TYPES)
  | Inherited _ => false
  end.

(** [SERVICE_TYPE_ALIASES[type]]: the property named by the string [type]
    converts to, own first, then along the prototype chain; [None] is
    [undefined]. *)
Definition aliasOf (type : ServiceType) : option ServiceType :=
  let key := ServiceType_toString type in
  match SERVICE_TYPE_ALIASES !! key with
  | Some canonical => Some (Code canonical)
  | None =>
      if bool_decide (key ∈ Object_prototype_names)
      then Some (Inherited key) else None
  end.

Definition serviceTypeTruthy (v : ServiceType) : bool :=
  match v with
  | Code s => stringTruthy s
  | Inherited _ => true
  end.

(** The body of the [forEach] callback: what is pushed on [mappedTypes]
    ([None]: the value goes to [invalidTypes]). *)
Definition correct (type : ServiceType) : option ServiceType :=
  if isValid type then Some type
  else match aliasOf type with
       | Some mapped => if serviceTypeTruthy mapped then Some mapped else None
       | None => None
       end.

(** [[...new Set(values)]]: the distinct values, in order of first
    occurrence. *)
Fixpoint setAddAll (seen : list ServiceType) (values : list ServiceType)
    : list ServiceType :=
  match values with
  | [] => seen
  | v :: values' =>
      setAddAll (if bool_decide (v ∈ seen) then seen else seen ++ [v]) values'
  end.

Definition distinct (values : list ServiceType) : list ServiceType :=
  setAddAll [] values.

(** An extraction leaks when correcting one of its service types yields an
    inherited built-in instead of a code. *)
Definition leaks (types : list ServiceType) : bool :=
  existsb (fun type => match correct type with
                       | Some (Inherited _) => true
                       | _ => false
                       end) types.

(** The source updates [response.filters] in place and returns [response];
    the model returns the updated record. *)
Definition validateExtractedFilters (response : LLMFilterExtractionResponse)
    (originalQuery : string) : LLMFilterExtractionResponse :=
  match service_types (filters response) with
  | None => response
  | Some types =>
      let mappedTypes := omap correct types in
      let kept := distinct mappedTypes in
      let f := set_service_types (Some kept) (filters response) in
      let f :=
        if bool_decide (length kept = 0%nat) && stringTruthy originalQuery
        then set_keywords (Some originalQuery) f
        else f in
      set_filters f response
  end.

(** The correction as the specification words it: keep a member of the
    vocabulary, substitute a known alias, discard anything else. *)
Definition correctedBySpec (s : string) : option string :=
  if bool_decide (s ∈ VALID_SERVICE_TYPES) then Some s
  else SERVICE_TYPE_ALIASES !! s.

(** An extraction result with the given filters, as a provider returns it. *)
Definition responseWith (query : string) (f : CanonicalSearchFilters)
    : LLMFilterExtractionResponse :=
  {| originalQuery := query; filters := f;
     explanation := "Extracted filters from: " ++ dquote ++ query ++ dquote;
     confidence := JDec 7 (-1);
     metadata := {| provider := "openai"; model := "gpt-4-turbo-preview";
                    tokens_input := 0; tokens_output := 0 |} |}.

(** The filters [{ service_types: codes }]. *)
Definition withServiceTypes (codes : list string) : CanonicalSearchFilters :=
  set_service_types (Some (Code <$> codes)) noFilters.

End Validator.

Module KeywordFallback.

Definition anyIncluded (s : string) (terms : list string) : bool :=
  existsb (includes s) terms.

(** [flag || undefined] *)
Definition orUndefined (flag : bool) : option bool :=
  if flag then Some true else None.

Definition createBasicFilters (query : string) : LLMFilterExtractionResponse :=
  let queryLower := toLowerCase query in
  let care_phase :=
    if anyIncluded queryLower ["emergency"; "suicide"; "immediate"; "crisis"]
    then Some immediate_crisis
    else if anyIncluded queryLower ["acute"; "urgent"; "recent"]
    then Some acute_support
    else if anyIncluded queryLower ["recovery"; "rehabilitation"; "ongoing"]
    then Some recovery_support
    else if anyIncluded queryLower ["maintenance"; "preventive"; "wellness"]
    then Some maintenance
    else None in
  let gender_specific :=
    if anyIncluded queryLower ["women"; "female"; "girls"] then Some female
    else if anyIncluded queryLower ["men"; "male"; "boys"] then Some male
    else None in
  let has_crisis_services :=
    anyIncluded queryLower ["crisis"; "emergency"; "hotline"] in
  let walk_ins_accepted :=
    anyIncluded queryLower ["walk-in"; "walk in"; "drop-in"; "drop in";
                            "no appointment"; "without appointment"] in
  let referral_required :=
    anyIncluded queryLower ["referral"; "referred"; "recommendation";
                            "by referral"] in
  let opening :=
    "Searching for resources related to: " ++ dquote ++ query ++ dquote
    ++ "." in
  let phaseClause :=
    match care_phase with
    | Some p => ["Identified care phase: " ++ CarePhase_code p ++ "."]
    | None => []
    end in
  let genderClause :=
    match gender_specific with
    | Some g => ["Filtering for " ++ Gender_code g ++ "-specific services."]
    | None => []
    end in
  let explanationParts :=
    (opening :: phaseClause ++ genderClause
     ++ (if has_crisis_services then ["Prioritizing crisis services."] else [])
     ++ (if walk_ins_accepted
         then ["Showing walk-in accessible facilities."] else [])
     ++ (if referral_required then ["Showing referral-based services."] else [])
     ++ ["(Using basic keyword matching - LLM services unavailable)"])%list in
  {| originalQuery := query;
     filters :=
       {| keywords := Some query;
          service_types := None;
          care_phase := care_phase;
          location := None;
          max_distance_km := Some (JDec 25 0);
          insurance := None;
          languages := None;
          lgbtq_affirming := None;
          age_groups := None;
          gender_specific := gender_specific;
          wheelchair_accessible := None;
          telehealth_available := None;
          acceptingNewPatients := None;
          urgentAccessOnly :=
            Some (anyIncluded queryLower
                    ["urgent"; "crisis"; "emergency"; "now"; "immediate"]);
          has_crisis_services := orUndefined has_crisis_services;
          min_rcs := None;
          verified_only := None;
          walk_ins_accepted := orUndefined walk_ins_accepted;
          referral_required := orUndefined referral_required;
          limit := None;
          offset := None |};
     explanation := join " " explanationParts;
     confidence := JDec 3 (-1);
     metadata :=
       {| provider := "fallback";
          model := "keyword-matching";
          tokens_input := Z.of_nat (String.length query);
          tokens_output := 50 |} |}.

End KeywordFallback.

(** ** Provider fallback (lib/api/llm-fallback.ts) *)

Module LlmFallback.

Record Context : Type := {
  current_location : option (JsNumber * JsNumber);
  user_type : option string;
}.

(** The fields the adapters read from the parsed model output. *)
Record ParsedOutput : Type := {
  parsed_filters : option CanonicalSearchFilters;
  parsed_explanation : option string;
  parsed_confidence : option JsNumber;
}.

(** What [openai.chat.completions.create] resolves to: the [content] of
    each choice ([None] is [null]) and the optional [usage]. *)
Record ChatCompletion : Type := {
  choices : list (option string);
  usage : option (Z * Z);
}.

(** What [anthropic.messages.create] resolves to: the [type] and [text] of
    each content block and the token usage. *)
Record Message : Type := {
  content : list (string * string);
  input_tokens : Z;
  output_tokens : Z;
}.

Record LLMProvider : Type := {
  name : string;
  extract : string -> option Context -> Result LLMFilterExtractionResponse;
}.

Definition newline : string := String (ascii_of_nat 10) EmptyString.

Definition buildUserPrompt (query : string) (context : option Context)
    : string :=
  let prompt :=
    "Extract filters from this query: " ++ dquote ++ query ++ dquote in
  let prompt :=
    match context ≫= current_location with
    | Some (lat, lon) =>
        prompt ++ newline ++ newline ++ "User location: "
        ++ Number_toString lat ++ ", " ++ Number_toString lon
    | None => prompt
    end in
  match context ≫= user_type with
  | Some u =>
      if stringTruthy u then prompt ++ newline ++ "User type: " ++ u
      else prompt
  | None => prompt
  end.

(** A [process.env] value is truthy. *)
Definition configured (key : option string) : bool :=
  match key with
  | Some k => stringTruthy k
  | None => false
  end.

Definition orDefault {A} (isTruthy : A -> bool) (v : option A) (d : A) : A :=
  match v with
  | Some a => if isTruthy a then a else d
  | None => d
  end.

Definition defaultExplanation (query : string) : string :=
  "Extracted filters from: " ++ dquote ++ query ++ dquote.

Section Providers.

(** [process.env.OPENAI_API_KEY] and [process.env.ANTHROPIC_API_KEY]. *)
Variable OPENAI_API_KEY : option string.
Variable ANTHROPIC_API_KEY : option string.

(** The two services, as functions of the user prompt (the system prompt is
    a constant), and [JSON.parse] followed by the reads of [filters],
    [explanation] and [confidence]; each can throw. *)
Variable openai_create : string -> Result ChatCompletion.
Variable anthropic_create : string -> Result Message.
Variable JSON_parse : string -> Result ParsedOutput.

Definition OpenAIProvider : LLMProvider :=
  {| name := "openai";
     extract query context :=
       if negb (configured OPENAI_API_KEY)
       then Throw (Error "OPENAI_API_KEY not configured")
       else
         match openai_create (buildUserPrompt query context) with
         | Throw e => Throw e
         | Ok response =>
             match choices response with
             | [] => Throw (TypeError
                 "Cannot read properties of undefined (reading 'message')")
             | content :: _ =>
                 if negb (configured content)
                 then Throw (Error "OpenAI returned empty response")
                 else
                   match JSON_parse (default EmptyString content) with
                   | Throw e => Throw e
                   | Ok parsed =>
                       Ok {| originalQuery := query;
                             filters :=
                               default noFilters (parsed_filters parsed);
                             explanation :=
                               orDefault stringTruthy
                                 (parsed_explanation parsed)
                                 (defaultExplanation query);
                             confidence :=
                               orDefault numberTruthy
                                 (parsed_confidence parsed) (JDec 7 (-1));
                             metadata :=
                               {| provider := "openai";
                                  model := "gpt-4-turbo-preview";
                                  tokens_input :=
                                    default 0 (fst <$> usage response);
                                  tokens_output :=
                                    default 0 (snd <$> usage response) |} |}
                   end
             end
         end |}.

Definition AnthropicProvider : LLMProvider :=
  {| name := "anthropic";
     extract query context :=
       if negb (configured ANTHROPIC_API_KEY)
       then Throw (Error "ANTHROPIC_API_KEY not configured")
       else
         match anthropic_create (buildUserPrompt query context) with
         | Throw e => Throw e
         | Ok response =>
             match content response with
             | [] => Throw (TypeError
                 "Cannot read properties of undefined (reading 'type')")
             | (type, text) :: _ =>
                 if negb (String.eqb type "text")
                 then Throw (Error "Anthropic returned non-text response")
                 else
                   match JSON_parse text with
                   | Throw e => Throw e
                   | Ok parsed =>
                       Ok {| originalQuery := query;
                             filters :=
                               default noFilters (parsed_filters parsed);
                             explanation :=
                               orDefault stringTruthy
                                 (parsed_explanation parsed)
                                 (defaultExplanation query);
                             confidence :=
                               orDefault numberTruthy
                                 (parsed_confidence parsed) (JDec 7 (-1));
                             metadata :=
                               {| provider := "anthropic";
                                  model := "claude-3-5-sonnet-20241022";
                                  tokens_input := input_tokens response;
                                  tokens_output := output_tokens response |} |}
                   end
             end
         end |}.

(** The [for (const provider of providers)] loop. *)
Fixpoint tryProviders (providers : list LLMProvider) (query : string)
    (context : option Context) (lastError : option JsError)
    : Result LLMFilterExtractionResponse :=
  match providers with
  | [] => Throw (default (Error "All LLM providers failed") lastError)
  | provider :: rest =>
      match extract provider query context with
      | Ok result => Ok result
      | Throw error => tryProviders rest query context (Some error)
      end
  end.

(** The providers that pass the filter on their API key. *)
Definition configuredProviders : list LLMProvider :=
  List.filter
    (fun p => String.eqb (name p) "openai" && configured OPENAI_API_KEY
              || String.eqb (name p) "anthropic"
                 && configured ANTHROPIC_API_KEY)
    [OpenAIProvider; AnthropicProvider].

Definition extractFiltersWithFallback (query : string)
    (context : option Context) : Result LLMFilterExtractionResponse :=
  let providers := configuredProviders in
  match providers with
  | [] => Throw (Error "No LLM providers configured (missing API keys)")
  | _ => tryProviders providers query context None
  end.

End Providers.

End LlmFallback.

(** ** The extraction endpoint (POST /api/llm/extract-filters) *)

Module ExtractRoute.
Import LlmFallback Validator KeywordFallback.

Inductive Payload : Type :=
| ErrorBody (error : string)
| ResultBody (result : LLMFilterExtractionResponse).

Record RouteResponse : Type := {
  code : Z;
  body : Payload;
}.

Section Route.

Variable OPENAI_API_KEY : option string.
Variable ANTHROPIC_API_KEY : option string.
Variable openai_create : string -> Result ChatCompletion.
Variable anthropic_create : string -> Result Message.
Variable JSON_parse : string -> Result ParsedOutput.

(** The inner [try]/[catch] of [POST]: the providers first, the keyword
    fallback when they fail.  Provider results are taken at their declared
    type, on which validation cannot throw; were it to throw, the same
    [catch] would take the keyword fallback too. *)
Definition extractOrFallback (query : string) (context : option Context)
    : LLMFilterExtractionResponse :=
  match
    extractFiltersWithFallback OPENAI_API_KEY ANTHROPIC_API_KEY
      openai_create anthropic_create JSON_parse query context
  with
  | Ok fallbackResponse => validateExtractedFilters fallbackResponse query
  | Throw llmError =>
      let basicFilters := createBasicFilters query in
      validateExtractedFilters basicFilters query
  end.

Definition POST (query : string) (context : option Context) : RouteResponse :=
  if negb (stringTruthy query) || (String.length (trim query) =? 0)%nat
  then {| code := 400; body := ErrorBody "Query is required" |}
  else {| code := 200; body := ResultBody (extractOrFallback query context) |}.

End Route.

End ExtractRoute.

(** ** URL serialization of filters (FilterUtils, types/search.ts) *)

Module FilterUtils.

(** *** [Number(value)] on a string *)

Fixpoint span (p : ascii -> bool) (s : string) : string * string :=
  match s with
  | String c s' =>
      if p c then let '(taken, rest) := span p s' in (String c taken, rest)
      else (EmptyString, s)
  | EmptyString => (EmptyString, EmptyString)
  end.

Definition isDigit (c : ascii) : bool :=
  let n := nat_of_ascii c in ((48 <=? n) && (n <=? 57))%nat.

(** The value of a digit in a base up to 16, if it is one. *)
Definition digitIn (base : nat) (c : ascii) : option nat :=
  let n := nat_of_ascii c in
  let d :=
    if ((48 <=? n) && (n <=? 57))%nat then Some (n - 48)%nat
    else if ((97 <=? n) && (n <=? 102))%nat then Some (n - 87)%nat
    else if ((65 <=? n) && (n <=? 70))%nat then Some (n - 55)%nat
    else None in
  d ≫= fun d => if (d <? base)%nat then Some d else None.

Fixpoint valueIn (base : nat) (acc : Z) (s : string) : option Z :=
  match s with
  | EmptyString => Some acc
  | String c s' =>
      d ← digitIn base c;
      valueIn base (acc * Z.of_nat base + Z.of_nat d) s'
  end.

Definition decimalValue (digits : string) : Z :=
  default 0 (valueIn 10 0 digits).

(** [ExponentPart], optional, up to the end of the literal. *)
Definition parseExponent (s : string) : option Z :=
  match s with
  | EmptyString => Some 0
  | String c s' =>
      if Ascii.eqb c "e"%char || Ascii.eqb c "E"%char then
        let '(sign, s'') :=
          match s' with
          | String d r =>
              if Ascii.eqb d "+"%char then (1, r)
              else if Ascii.eqb d "-"%char then (-1, r)
              else (1, s')
          | EmptyString => (1, s')
          end in
        let '(ds, rest) := span isDigit s'' in
        match ds, rest with
        | String _ _, EmptyString => Some (sign * decimalValue ds)
        | _, _ => None
        end
      else None
  end.

(** *** The Number value of a decimal

    [Number(value)] yields a double: the mathematical value of the literal
    rounded to the nearest double, ties to the even significand, [Infinity]
    from [2^1024 - 2^970] on and zero below half the least subnormal.  A
    finite double is [f * 2^q] with [f < 2^53] and [-1074 <= q <= 971]; the
    [JDec] that stands for it holds its shortest decimal, the digits
    [Number::toString] prints.  The literal is rounded at its exact value,
    however many digits it has, as V8 does. *)

(** [n / d] rounded to an integer, ties to even; [d] is positive. *)
Definition roundHalfEven (n d : Z) : Z :=
  let q := n / d in
  match 2 * (n mod d) ?= d with
  | Lt => q
  | Gt => q + 1
  | Eq => if Z.even q then q else q + 1
  end.

(** The fraction [(n / d) / 2^k]. *)
Definition scaled (n d k : Z) : Z * Z :=
  if 0 <=? k then (n, d * 2 ^ k) else (n * 2 ^ (- k), d).

(** The fraction [m * 10^e]. *)
Definition fraction (m e : Z) : Z * Z :=
  if 0 <=? e then (m * 10 ^ e, 1) else (m, 10 ^ (- e)).

(** The largest [l] with [2^l <= n / d], for positive [n] and [d]. *)
Definition floorLog2 (n d : Z) : Z :=
  let l := Z.log2 n - Z.log2 d in
  let '(n', d') := scaled n d l in
  if d' <=? n' then l else l - 1.

(** The double nearest to the positive [n / d], as its significand and
    exponent ([2^52 <= f < 2^53], or [f < 2^52] and [q = -1074]); [None]
    when it rounds to [2^1024], that is to [Infinity]. *)
Definition nearestDouble (n d : Z) : option (Z * Z) :=
  let q := Z.max (floorLog2 n d - 52) (-1074) in
  let '(n', d') := scaled n d q in
  let f := roundHalfEven n' d' in
  if f =? 2 ^ 53 then (if 971 <=? q then None else Some (2 ^ 52, q + 1))
  else if 971 <? q then None else Some (f, q).

(** [s * 10^e] rounds to the double [f * 2^q]. *)
Definition roundsTo (f q s e : Z) : bool :=
  let '(n, d) := fraction s e in
  match nearestDouble n d with
  | Some (f', q') => (f' =? f) && (q' =? q)
  | None => false
  end.

(** [10^g <= n / d] *)
Definition atLeastPow10 (n d g : Z) : bool :=
  let '(pn, pd) := fraction 1 g in pn * d <=? n * pd.

Fixpoint raise (fuel : nat) (n d g : Z) : Z :=
  match fuel with
  | O => g
  | S fuel' => if atLeastPow10 n d (g + 1) then raise fuel' n d (g + 1) else g
  end.

Fixpoint lower (fuel : nat) (n d g : Z) : Z :=
  match fuel with
  | O => g
  | S fuel' => if atLeastPow10 n d g then g else lower fuel' n d (g - 1)
  end.

(** The largest [g] with [10^g <= n / d]: an estimate from the binary
    logarithm, off by one at most, then corrected. *)
Definition floorLog10 (n d : Z) : Z :=
  raise 4 n d (lower 4 n d (floorLog2 n d * 1233 / 4096)).

Fixpoint stripZeros (fuel : nat) (s e : Z) : Z * Z :=
  match fuel with
  | O => (s, e)
  | S fuel' =>
      if (s mod 10 =? 0) && negb (s =? 0)
      then stripZeros fuel' (s / 10) (e + 1)
      else (s, e)
  end.

(** The decimal of [k] digits that rounds to [f * 2^q], if there is one:
    of the two multiples of [10^(g - k + 1)] around [n / d = f * 2^q], the
    one that rounds back, the nearer one when both do (the even one at
    equal distance). *)
Definition candidate (f q n d g k : Z) : option (Z * Z) :=
  let e := g - (k - 1) in
  let '(pn, pd) := fraction 1 e in
  let num := n * pd in
  let den := d * pn in
  let lo := num / den in
  let hi := lo + 1 in
  let nearer :=
    match 2 * (num mod den) ?= den with
    | Lt => lo
    | Gt => hi
    | Eq => if Z.even lo then lo else hi
    end in
  match roundsTo f q lo e, roundsTo f q hi e with
  | true, true => Some (nearer, e)
  | true, false => Some (lo, e)
  | false, true => Some (hi, e)
  | false, false => None
  end.

Fixpoint search (fuel : nat) (f q n d g k : Z) : Z * Z :=
  match fuel with
  | O => (0, 0)
  | S fuel' =>
      match candidate f q n d g k with
      | Some se => se
      | None => search fuel' f q n d g (k + 1)
      end
  end.

(** The shortest decimal [s * 10^e] that rounds to the double [f * 2^q]
    ([f] positive): the fewest digits, from one to seventeen, and among
    those the nearest. *)
Definition shortest (f q : Z) : Z * Z :=
  let '(n, d) := scaled f 1 (- q) in
  let '(s, e) := search 17 f q n d (floorLog10 n d) 1 in
  stripZeros 400 s e.

(** The Number value of [p * 10^e].  A value of [10^309] or more is
    [Infinity] and one below [10^-324] is zero, whatever its digits. *)
Definition toNumberPos (p : positive) (e : Z) : JsNumber :=
  let k := Z.of_nat (String.length (digitsOfPos p)) in
  if 310 <=? k + e then JInfinity false
  else if k + e <=? -324 then JDec 0 0
  else
    let '(n, d) := fraction (Zpos p) e in
    match nearestDouble n d with
    | None => JInfinity false
    | Some (f, q) =>
        if f =? 0 then JDec 0 0
        else let '(s, e') := shortest f q in JDec s e'
    end.

(** The Number value of [m * 10^e]; zero stands for both zeros. *)
Definition toNumber (m e : Z) : JsNumber :=
  match m with
  | Z0 => JDec 0 0
  | Zpos p => toNumberPos p e
  | Zneg p =>
      match toNumberPos p e with
      | JDec s e' => JDec (- s) e'
      | JInfinity b => JInfinity (negb b)
      | JNaN => JNaN
      end
  end.

(** [StrUnsignedDecimalLiteral] *)
Definition parseUnsignedDecimal (s : string) : option JsNumber :=
  if String.eqb s "Infinity" then Some (JInfinity false)
  else
    let '(ip, r1) := span isDigit s in
    match r1 with
    | String c r2 =>
        if Ascii.eqb c "."%char then
          let '(fp, r3) := span isDigit r2 in
          match ip, fp with
          | EmptyString, EmptyString => None
          | _, _ =>
              ex ← parseExponent r3;
              Some (toNumber (decimalValue (ip ++ fp))
                             (ex - Z.of_nat (String.length fp)))
          end
        else
          match ip with
          | EmptyString => None
          | _ => ex ← parseExponent r1; Some (toNumber (decimalValue ip) ex)
          end
    | EmptyString =>
        match ip with
        | EmptyString => None
        | _ => Some (toNumber (decimalValue ip) 0)
        end
    end.

Definition negate (x : JsNumber) : JsNumber :=
  match x with
  | JNaN => JNaN
  | JInfinity b => JInfinity (negb b)
  | JDec m e => JDec (- m) e
  end.

(** [NonDecimalIntegerLiteral]: [0x], [0o] and [0b] literals. *)
Definition parseNonDecimal (s : string) : option JsNumber :=
  match s with
  | String z (String x digits) =>
      if Ascii.eqb z "0"%char then
        let base :=
          if Ascii.eqb x "x"%char || Ascii.eqb x "X"%char then Some 16%nat
          else if Ascii.eqb x "o"%char || Ascii.eqb x "O"%char then Some 8%nat
          else if Ascii.eqb x "b"%char || Ascii.eqb x "B"%char then Some 2%nat
          else None in
        b ← base;
        match digits with
        | EmptyString => None
        | _ => v ← valueIn b 0 digits; Some (toNumber v 0)
        end
      else None
  | _ => None
  end.

(** [StringToNumber]: the number a string converts to, [JNaN] when it is
    not a numeric literal; the value of a literal is rounded to a double. *)
Definition Number (value : string) : JsNumber :=
  let s := trim value in
  match s with
  | EmptyString => JDec 0 0
  | String c s' =>
      match parseNonDecimal s with
      | Some x => x
      | None =>
          let parsed :=
            if Ascii.eqb c "+"%char then parseUnsignedDecimal s'
            else if Ascii.eqb c "-"%char
                 then negate <$> parseUnsignedDecimal s'
            else parseUnsignedDecimal s in
          default JNaN parsed
      end
  end.

(** *** [URLSearchParams] *)

Definition URLSearchParams : Type := list (string * string).

Definition append (key value : string) (params : URLSearchParams)
    : URLSearchParams :=
  (params ++ [(key, value)])%list.

Definition getAll (key : string) (params : URLSearchParams) : list string :=
  snd <$> List.filter (fun kv => String.eqb (fst kv) key) params.

(** [params.set(key, value)]: the first pair named [key] takes the value and
    the others go; without such a pair, the pair is appended. *)
Fixpoint set (key value : string) (params : URLSearchParams)
    : URLSearchParams :=
  match params with
  | [] => [(key, value)]
  | (k, v) :: rest =>
      if String.eqb k key
      then (key, value)
           :: List.filter (fun kv => negb (String.eqb (fst kv) key)) rest
      else (k, v) :: set key value rest
  end.

Section Codec.

(** [JSON.stringify] on a data object and [JSON.parse] ([None]: it throws). *)
Variable JSON_stringify : JsValue -> string.
Variable JSON_parse : string -> option JsValue.

(** [value.forEach(v => params.append(key, String(v)))] *)
Fixpoint appendAll (key : string) (items : list JsValue)
    (params : URLSearchParams) : Result URLSearchParams :=
  match items with
  | [] => Ok params
  | v :: items' =>
      match ToString v with
      | Some s => appendAll key items' (append key s params)
      | None => Throw (TypeError "Cannot convert object to primitive value")
      end
  end.

(** The callback of [Object.entries(filters).forEach]. *)
Definition serializeEntry (entry : string * JsValue)
    (params : URLSearchParams) : Result URLSearchParams :=
  let '(key, value) := entry in
  match value with
  | JUndefined | JNull => Ok params
  | JArr items => appendAll key items params
  | JObj _ => Ok (set key (JSON_stringify value) params)
  | JBool _ | JNum _ | JStr _ =>
      Ok (set key (default EmptyString (ToString value)) params)
  end.

Fixpoint serializeEntries (entries : list (string * JsValue))
    (params : URLSearchParams) : Result URLSearchParams :=
  match entries with
  | [] => Ok params
  | entry :: entries' =>
      match serializeEntry entry params with
      | Ok params' => serializeEntries entries' params'
      | Throw e => Throw e
      end
  end.

(** [FilterUtils.toURLParams(filters)], on the own enumerable properties of
    [filters] in the order [Object.entries] lists them. *)
Definition toURLParams (filters : list (string * JsValue))
    : Result URLSearchParams :=
  serializeEntries filters [].

(** What a value that is the only one of its key parses back to. *)
Definition parseScalar (value : string) : JsValue :=
  if startsWith value "{" || startsWith value "[" then
    match JSON_parse value with
    | Some v => v
    | None => JStr value
    end
  else if String.eqb value "true" || String.eqb value "false" then
    JBool (String.eqb value "true")
  else if negb (isNaN (Number value)) then JNum (Number value)
  else JStr value.

(** A string that looks like neither JSON text, a boolean nor a number:
    the strings [parseScalar] leaves as they are. *)
Definition isPlainString (value : string) : bool :=
  negb (startsWith value "{") && negb (startsWith value "[")
  && negb (String.eqb value "true") && negb (String.eqb value "false")
  && isNaN (Number value).

(** The callback of [params.forEach] in [fromURLParams]. *)
Definition parseEntry (params : URLSearchParams)
    (filters : gmap string JsValue) (entry : string * string)
    : gmap string JsValue :=
  let '(key, value) := entry in
  if (1 <? length (getAll key params))%nat
  then <[key := JArr (JStr <$> getAll key params)]> filters
  else <[key := parseScalar value]> filters.

Definition fromURLParams (params : URLSearchParams) : gmap string JsValue :=
  fold_left (parseEntry params) params ∅.

End Codec.

End FilterUtils.

(** ** Statement vocabulary for the properties below *)

Module TransformFields.

(** The parameter names of the backend search endpoint that the transformer
    assigns. *)
Definition backendFields : list string :=
  [ "query"; "location"; "radius_km"; "service_types"; "insurance_types";
    "languages"; "age_groups"; "has_crisis_services"; "walk_ins_accepted";
    "referral_required"; "gender_specific"; "lgbtq_affirming";
    "wheelchair_accessible"; "telehealth_available"; "urgent_access_only";
    "accepting_new_patients"; "care_phase"; "verified_only";
    "min_confidence"; "limit"; "offset" ].

(** [typeof lat === 'number' && typeof lon === 'number'] *)
Definition bothNumbers (c : LocationCoordinate) : bool :=
  String.eqb (typeof (lat c)) "number" && String.eqb (typeof (lon c)) "number".

(** The parameter [key] carries the elements of [values] joined by commas
    when there are some, and is absent otherwise. *)
Definition sentJoined (params : gmap string string) (key : string)
    (values : option (list string)) : Prop :=
  params !! key
  = match values with
    | Some (x :: xs) => Some (join "," (x :: xs))
    | _ => None
    end.

End TransformFields.

Module ClientTrace.
Import BackendClient.

(** The waits before [n] retries: [backoffMs * 2^0], ..., [backoffMs * 2^(n-1)]. *)
Definition schedule (opts : RetryOptions) (n : nat) : list Z :=
  (fun i => backoffMs opts * 2 ^ Z.of_nat i) <$> seq 0 n.

(** The error an attempt ends with, [None] when it returns a response. *)
Definition failsWith (opts : RetryOptions) (o : FetchOutcome)
    : option JsError :=
  match tryBlock opts o with
  | Returned _ => None
  | FellThrough e | Thrown e => Some e
  end.

Definition total (ms : list Z) : Z := foldr Z.add 0 ms.

(** A request to [url] with [method], authorized as [key] demands: with a
    bearer token when the key is non-empty, without the header otherwise. *)
Definition wellAddressed (key url method : string) (ev : Event) : Prop :=
  match ev with
  | Fetch u m auth =>
      u = url ∧ m = method
      ∧ auth = match key with
               | EmptyString => None
               | _ => Some ("Bearer " ++ key)
               end
  | Sleep _ => True
  end.

End ClientTrace.

Module Servers.
Import BackendClient.

(** A server that answers the first [failures] requests with the status
    [code] and every later one with [r]. *)
Definition recovering (failures : nat) (code : Z) (r : Response) : Backend :=
  fun i =>
    if (i <? failures)%nat
    then Resolves {| status := code; statusText := EmptyString; json := None |}
    else Resolves r.

(** A server that cannot be reached: every [fetch] rejects. *)
Definition unreachable (e : JsError) : Backend := fun _ => Rejects e.

(** A 200 response with the given JSON body. *)
Definition okJson (v : JsValue) : Response :=
  {| status := 200; statusText := "OK"; json := Some v |}.

End Servers.

Module UuidPattern.
Import ResourceRoute.

(** A step of the pattern that reads the same on a lower-cased string. *)
Definition caseBlind (p : string -> option string) : Prop :=
  ∀ s, p (toLowerCase s) = toLowerCase <$> p s.

(** A step of the pattern that consumes exactly [k] characters. *)
Definition consumes (k : nat) (p : string -> option string) : Prop :=
  ∀ s rest, p s = Some rest -> String.length s = (k + String.length rest)%nat.

(** The pattern between [^] and [$]. *)
Definition uuidBody (id : string) : option string :=
  hexRun 8 id ≫= fun s => dash s ≫= fun s =>
  hexRun 4 s ≫= fun s => dash s ≫= fun s =>
  hexRun 4 s ≫= fun s => dash s ≫= fun s =>
  hexRun 4 s ≫= fun s => dash s ≫= fun s => hexRun 12 s.

End UuidPattern.

Module QueryShape.

(** Every code unit of the string is white space; the empty string is
    blank. *)
Definition isBlank (s : string) : bool :=
  forallb isWhiteSpace (list_ascii_of_string s).

End QueryShape.

Module Services.
Import LlmFallback.

(** A chat service that answers every prompt with one choice holding
    [content]. *)
Definition openaiAnswers (content : string) : string -> Result ChatCompletion :=
  fun _ => Ok {| choices := [Some content]; usage := Some (12, 34) |}.

(** A message service that answers every prompt with one text block. *)
Definition anthropicAnswers (text : string) : string -> Result Message :=
  fun _ => Ok {| content := [("text", text)];
                 input_tokens := 12; output_tokens := 34 |}.

(** A service whose every call throws [e]. *)
Definition down {A : Type} (e : JsError) : string -> Result A :=
  fun _ => Throw e.

(** Model output that parses to the given filters, no explanation and the
    confidence 0. *)
Definition parsesTo (f : CanonicalSearchFilters)
    : string -> Result ParsedOutput :=
  fun _ => Ok {| parsed_filters := Some f; parsed_explanation := None;
                 parsed_confidence := Some (JDec 0 0) |}.

End Services.

Module UrlFields.

(** The string a field that is not an array is written as by
    [toURLParams]: nothing for [undefined] and [null], JSON text for an
    object, [String(value)] for a primitive. *)
Definition written (JSON_stringify : JsValue -> string) (v : JsValue)
    : option string :=
  match v with
  | JUndefined | JNull | JArr _ => None
  | JObj _ => Some (JSON_stringify v)
  | JBool _ | JNum _ | JStr _ => ToString v
  end.

End UrlFields.

(** ** Search endpoint (GET /api/resources/search) *)

(** A [throw] ends the statements that follow it. *)
#[global] Instance Result_bind : MBind Result :=
  fun A B k r => match r with Ok a => k a | Throw e => Throw e end.

Module SearchRoute.
Import BackendClient FilterUtils.

(** *** Reads and calls on values whose type is known only at run time

    The filters of this endpoint come from the query string: what the
    transformer finds in a field need not have the declared type. *)

(** An own property of a data object; each property is listed once. *)
Definition ownProp (name : string) (props : list (string * JsValue))
    : option JsValue :=
  snd <$> List.find (fun kv => String.eqb (fst kv) name) props.

(** [v?.name] for a name that no built-in prototype defines ([coordinates],
    [lat], [lon] and the field names of the filters): an own property of an
    object, [undefined] on anything else. *)
Definition field (v : JsValue) (name : string) : JsValue :=
  match v with
  | JObj props => default JUndefined (ownProp name props)
  | _ => JUndefined
  end.

(** [filters.name] on the object that [fromURLParams] builds.  The
    assignment [filters['__proto__'] = value] does not create a property: it
    makes an object [value] the prototype of [filters], through which later
    reads find the properties that [filters] does not own. *)
Definition readFilter (filters : gmap string JsValue) (name : string)
    : JsValue :=
  match filters !! name with
  | Some v => v
  | None =>
      match filters !! "__proto__" with
      | Some proto => field proto name
      | None => JUndefined
      end
  end.

(** [v?.length] *)
Definition lengthOf (v : JsValue) : JsValue :=
  match v with
  | JStr s => JNum (JDec (Z.of_nat (String.length s)) 0)
  | JArr items => JNum (JDec (Z.of_nat (length items)) 0)
  | JObj props => default JUndefined (ownProp "length" props)
  | JUndefined | JNull | JBool _ | JNum _ => JUndefined
  end.

(** [filters.what.join(',')]: only an array has the method. *)
Definition joinCall (what : string) (v : JsValue) : Result string :=
  match v with
  | JArr _ =>
      match ToString v with
      | Some s => Ok s
      | None => Throw (TypeError "Cannot convert object to primitive value")
      end
  | _ => Throw (TypeError ("filters." ++ what ++ ".join is not a function"))
  end.

(** [filters.what.toString()] *)
Definition toStringCall (what : string) (v : JsValue) : Result string :=
  match v with
  | JUndefined =>
      Throw (TypeError
               "Cannot read properties of undefined (reading 'toString')")
  | JNull =>
      Throw (TypeError "Cannot read properties of null (reading 'toString')")
  | JObj props =>
      if hasOwn "toString" props
      then Throw (TypeError
                    ("filters." ++ what ++ ".toString is not a function"))
      else Ok "[object Object]"
  | JBool _ | JNum _ | JStr _ | JArr _ =>
      match ToString v with
      | Some s => Ok s
      | None => Throw (TypeError "Cannot convert object to primitive value")
      end
  end.

(** *** The transformer on such values *)

(** [if (v) params.k = v] *)
Definition asIs (v : JsValue) : Result (option JsValue) :=
  Ok (if truthy v then Some v else None).

(** [if (v) params.k = v.toString()] *)
Definition truthyToString (what : string) (v : JsValue)
    : Result (option JsValue) :=
  if truthy v then s ← toStringCall what v; Ok (Some (JStr s)) else Ok None.

(** [if (v !== undefined) params.k = v.toString()] *)
Definition definedToString (what : string) (v : JsValue)
    : Result (option JsValue) :=
  match v with
  | JUndefined => Ok None
  | _ => s ← toStringCall what v; Ok (Some (JStr s))
  end.

(** [if (v?.length) params.k = v.join(',')] *)
Definition joined (what : string) (v : JsValue) : Result (option JsValue) :=
  if truthy (lengthOf v)
  then s ← joinCall what v; Ok (Some (JStr s))
  else Ok None.

(** The location block: [if (filters.location?.coordinates) { ... }], with
    the check of [lat] and [lon] of the transformer. *)
Definition locationParam (location : JsValue) : Result (option JsValue) :=
  let coordinates := field location "coordinates" in
  if truthy coordinates
  then
    match Transform.locationParam
            (Transform.withCoordinates (field coordinates "lat")
                                       (field coordinates "lon")) with
    | Ok loc => Ok (JStr <$> loc)
    | Throw e => Throw e
    end
  else Ok None.

(** The statements of [transformFiltersToBackendParams] in source order:
    the parameter each one assigns, and the value it assigns, if any, as a
    function of the reads of [filters]. *)
Definition statements
    : list (string * ((string -> JsValue) -> Result (option JsValue))) :=
  [ ("query", fun filters => asIs (filters "keywords"));
    ("location", fun filters => locationParam (filters "location"));
    ("radius_km", fun filters =>
       truthyToString "max_distance_km" (filters "max_distance_km"));
    ("service_types", fun filters =>
       joined "service_types" (filters "service_types"));
    ("insurance_types", fun filters =>
       joined "insurance" (filters "insurance"));
    ("languages", fun filters => joined "languages" (filters "languages"));
    ("age_groups", fun filters => joined "age_groups" (filters "age_groups"));
    ("has_crisis_services", fun filters =>
       definedToString "has_crisis_services" (filters "has_crisis_services"));
    ("walk_ins_accepted", fun filters =>
       definedToString "walk_ins_accepted" (filters "walk_ins_accepted"));
    ("referral_required", fun filters =>
       definedToString "referral_required" (filters "referral_required"));
    ("gender_specific", fun filters => asIs (filters "gender_specific"));
    ("lgbtq_affirming", fun filters =>
       definedToString "lgbtq_affirming" (filters "lgbtq_affirming"));
    ("wheelchair_accessible", fun filters =>
       definedToString "wheelchair_accessible"
         (filters "wheelchair_accessible"));
    ("telehealth_available", fun filters =>
       definedToString "telehealth_available"
         (filters "telehealth_available"));
    ("urgent_access_only", fun filters =>
       definedToString "urgentAccessOnly" (filters "urgentAccessOnly"));
    ("accepting_new_patients", fun filters =>
       definedToString "acceptingNewPatients"
         (filters "acceptingNewPatients"));
    ("care_phase", fun filters => asIs (filters "care_phase"));
    ("verified_only", fun filters =>
       definedToString "verified_only" (filters "verified_only"));
    ("min_confidence", fun filters =>
       definedToString "min_rcs" (filters "min_rcs"));
    ("limit", fun filters => truthyToString "limit" (filters "limit"));
    ("offset", fun filters => truthyToString "offset" (filters "offset")) ].

(** The object [params], its properties in the order of their creation. *)
Definition Params : Type := list (string * JsValue).

(** [params.k = v] *)
Fixpoint assign (k : string) (v : JsValue) (params : Params) : Params :=
  match params with
  | [] => [(k, v)]
  | (k', v') :: rest =>
      if String.eqb k' k then (k, v) :: rest
      else (k', v') :: assign k v rest
  end.

(** [params.k] *)
Definition param (params : Params) (k : string) : JsValue :=
  default JUndefined (ownProp k params).

(** One statement, run on the parameters assigned so far. *)
Definition run (filters : string -> JsValue) (params : Result Params)
    (statement : string * ((string -> JsValue) -> Result (option JsValue)))
    : Result Params :=
  ps ← params;
  v ← statement.2 filters;
  Ok (match v with Some x => assign statement.1 x ps | None => ps end).

Definition transformFiltersToBackendParams (filters : string -> JsValue)
    : Result Params :=
  fold_left (run filters) statements (Ok []).

(** *** The handler *)

Definition isString (v : JsValue) (s : string) : bool :=
  match v with JStr t => String.eqb t s | _ => false end.

(** The default the handler adds when the transformer set neither [query]
    nor [service_types]. *)
Definition withDefault (backendParams : Params) : Params :=
  if negb (truthy (param backendParams "query"))
     && negb (truthy (param backendParams "service_types"))
  then
    if isString (param backendParams "care_phase") "immediate_crisis"
    then assign "service_types"
           (JStr ("crisis_line,crisis_text,crisis_chat,crisis_mobile,"
                  ++ "crisis_walk_in,suicide_prevention"))
           backendParams
    else assign "query" (JStr "mental health support") backendParams
  else backendParams.

(** The first inner [try] block: the transformer, then the default. *)
Definition backendParamsOf (filters : string -> JsValue) : Result Params :=
  params ← transformFiltersToBackendParams filters;
  Ok (withDefault params).

(** The pairs [new URLSearchParams(params)] holds: each value converted to a
    string; [None] when a value cannot be converted. *)
Definition stringEntries (params : Params) : option (list (string * string)) :=
  mapM (fun kv : string * JsValue => s ← ToString kv.2; Some (kv.1, s)) params.

Inductive Body : Type :=
| LocationOrKeywordsRequired
| TransformFailed (details : string) (filters : gmap string JsValue)
| BackendFailed (details : string) (statusCode : option Z)
| SearchFailed (details : string)
| Found (frontendResponse : JsValue).

(** The [error] property of an error body. *)
Definition errorOf (b : Body) : option string :=
  match b with
  | LocationOrKeywordsRequired =>
      Some "Either location or keywords is required for search"
  | TransformFailed _ _ => Some "Failed to transform filters"
  | BackendFailed _ _ => Some "Backend search failed"
  | SearchFailed _ => Some "Search failed"
  | Found _ => None
  end.

Record RouteResponse : Type := {
  code : Z;
  body : Body;
}.

(** The [catch] clauses of the call of the backend: the inner one answers a
    [BackendAPIError] and rethrows anything else to the outer one. *)
Definition failed (e : JsError) : RouteResponse :=
  match e with
  | BackendAPIError message statusCode _ =>
      {| code := ResourceRoute.statusOr500 statusCode;
         body := BackendFailed message statusCode |}
  | _ => {| code := 500; body := SearchFailed (ResourceRoute.errorMessage e) |}
  end.

Section Route.

Variable FASTAPI_URL : string.
Variable FASTAPI_API_KEY : string.
Variable backend : Backend.

(** [JSON.parse] ([None]: it throws) and [URLSearchParams.toString] on the
    pairs of the parameters, in order. *)
Variable JSON_parse : string -> option JsValue.
Variable toQueryString : list (string * string) -> string.

(** [transformBackendSearchResponse] of lib/api/transform.ts.  The handler
    passes its result on without looking at it. *)
Variable transformBackendSearchResponse : JsValue -> Result JsValue.

(** [BackendClient.searchResources(backendParams)]: [new URLSearchParams]
    converts each value to a string, inside the [try] of the client. *)
Definition searchResources (backendParams : Params)
    : Result JsValue * list Event :=
  match stringEntries backendParams with
  | Some entries =>
      BackendClient.searchResources FASTAPI_URL FASTAPI_API_KEY
        (fun _ => toQueryString entries) backend (list_to_map entries)
  | None =>
      (Throw (BackendAPIError "Failed to search resources" None
                (TypeError "Cannot convert object to primitive value")),
       [])
  end.

Definition GET (searchParams : URLSearchParams) : RouteResponse * list Event :=
  let filters := fromURLParams JSON_parse searchParams in
  if negb (truthy (readFilter filters "location"))
     && negb (truthy (readFilter filters "keywords"))
  then ({| code := 400; body := LocationOrKeywordsRequired |}, [])
  else
    match backendParamsOf (readFilter filters) with
    | Throw transformError =>
        ({| code := 500;
            body := TransformFailed (ResourceRoute.errorMessage transformError)
                      filters |}, [])
    | Ok backendParams =>
        let '(res, trace) := searchResources backendParams in
        match res with
        | Ok JUndefined =>
            (failed (TypeError
               "Cannot read properties of undefined (reading 'total')"), trace)
        | Ok JNull =>
            (failed (TypeError
               "Cannot read properties of null (reading 'total')"), trace)
        | Ok backendResponse =>
            match transformBackendSearchResponse backendResponse with
            | Ok frontendResponse =>
                ({| code := 200; body := Found frontendResponse |}, trace)
            | Throw e => (failed e, trace)
            end
        | Throw backendError => (failed backendError, trace)
        end
    end.

End Route.

(** A response transformer for the examples: it passes the body on. *)
Definition passOn (backendResponse : JsValue) : Result JsValue :=
  Ok backendResponse.

(** A query-string printer for the examples: [k=v] pairs joined by [&],
    without escaping. *)
Definition plainQueryString (entries : list (string * string)) : string :=
  join "&" ((fun kv => kv.1 ++ "=" ++ kv.2) <$> entries).

End SearchRoute.

(** ** Filters of the declared types, as the object the transformer reads *)

Module TypedFilters.
Import SearchRoute.

(** An optional property: absent, it reads as [undefined]. *)
Definition optional {A : Type} (f : A -> JsValue) (v : option A) : JsValue :=
  from_option f JUndefined v.

(** An element of [service_types]: a code is a string; an inherited
    built-in, which a data value cannot hold, is stood for by the string it
    converts to. *)
Definition ofServiceType (t : ServiceType) : JsValue :=
  JStr (ServiceType_toString t).

Definition ofCoordinate (c : LocationCoordinate) : JsValue :=
  JObj [("lat", lat c); ("lon", lon c)].

Definition ofLocation (l : SearchLocation) : JsValue :=
  JObj (("address", JStr (address l))
        :: match coordinates l with
           | Some c => [("coordinates", ofCoordinate c)]
           | None => []
           end).

Definition ofStrings (l : list string) : JsValue := JArr (JStr <$> l).

(** The object [filters]. *)
Definition object (f : CanonicalSearchFilters) : JsValue :=
  JObj
    [ ("keywords", optional JStr (keywords f));
      ("service_types",
       optional (fun l => JArr (ofServiceType <$> l)) (service_types f));
      ("care_phase", optional (fun p => JStr (CarePhase_code p)) (care_phase f));
      ("location", optional ofLocation (location f));
      ("max_distance_km", optional JNum (max_distance_km f));
      ("insurance", optional ofStrings (insurance f));
      ("languages", optional ofStrings (languages f));
      ("lgbtq_affirming", optional JBool (lgbtq_affirming f));
      ("age_groups", optional ofStrings (age_groups f));
      ("gender_specific",
       optional (fun g => JStr (Gender_code g)) (gender_specific f));
      ("wheelchair_accessible", optional JBool (wheelchair_accessible f));
      ("telehealth_available", optional JBool (telehealth_available f));
      ("acceptingNewPatients", optional JBool (acceptingNewPatients f));
      ("urgentAccessOnly", optional JBool (urgentAccessOnly f));
      ("has_crisis_services", optional JBool (has_crisis_services f));
      ("min_rcs", optional JNum (min_rcs f));
      ("verified_only", optional JBool (verified_only f));
      ("walk_ins_accepted", optional JBool (walk_ins_accepted f));
      ("referral_required", optional JBool (referral_required f));
      ("limit", optional JNum (limit f));
      ("offset", optional JNum (offset f)) ].

(** The backend parameters of the typed transformer, one row for each
    statement in source order: the name and the string assigned, if any;
    [loc] is what the location block assigns. *)
Definition rows (f : CanonicalSearchFilters) (loc : option string)
    : list (string * option string) :=
  [ ("query", Transform.whenTruthyString (keywords f));
    ("location", loc);
    ("radius_km", Transform.whenTruthyNumber (max_distance_km f));
    ("service_types",
     Transform.whenNonEmpty ServiceType_toString (service_types f));
    ("insurance_types", Transform.whenNonEmpty id (insurance f));
    ("languages", Transform.whenNonEmpty id (languages f));
    ("age_groups", Transform.whenNonEmpty id (age_groups f));
    ("has_crisis_services", Boolean_toString <$> has_crisis_services f);
    ("walk_ins_accepted", Boolean_toString <$> walk_ins_accepted f);
    ("referral_required", Boolean_toString <$> referral_required f);
    ("gender_specific", Gender_code <$> gender_specific f);
    ("lgbtq_affirming", Boolean_toString <$> lgbtq_affirming f);
    ("wheelchair_accessible", Boolean_toString <$> wheelchair_accessible f);
    ("telehealth_available", Boolean_toString <$> telehealth_available f);
    ("urgent_access_only", Boolean_toString <$> urgentAccessOnly f);
    ("accepting_new_patients", Boolean_toString <$> acceptingNewPatients f);
    ("care_phase", CarePhase_code <$> care_phase f);
    ("verified_only", Boolean_toString <$> verified_only f);
    ("min_confidence", Number_toString <$> min_rcs f);
    ("limit", Transform.whenTruthyNumber (limit f));
    ("offset", Transform.whenTruthyNumber (offset f)) ].

(** The string a table of rows assigns to a name. *)
Definition rowValue (table : list (string * option string)) (k : string)
    : option string :=
  List.find (fun row => String.eqb row.1 k) table ≫= snd.

End TypedFilters.

(** ** Reading a location back (lib/api/transform.ts, [parseLocation]) *)

Module ResponseTransform.

(** [s.split(sep)] for a separator of one character. *)
Fixpoint split (sep : ascii) (s : string) : list string :=
  match s with
  | EmptyString => [EmptyString]
  | String c s' =>
      if Ascii.eqb c sep then EmptyString :: split sep s'
      else
        match split sep s' with
        | piece :: pieces => String c piece :: pieces
        | [] => [String c EmptyString]
        end
  end.

(** [const [lat, lon] = locationString.split(',').map(Number)], then
    [lat && lon ? { lat, lon } : undefined]: a missing [lon] is
    [undefined]. *)
Definition parseLocation (locationString : string)
    : option LocationCoordinate :=
  if negb (stringTruthy locationString) then None
  else
    match FilterUtils.Number <$> split ","%char locationString with
    | lat :: lon :: _ =>
        if numberTruthy lat && numberTruthy lon
        then Some {| lat := JNum lat; lon := JNum lon |}
        else None
    | _ => None
    end.

(** The string has no comma. *)
Definition commaFree (s : string) : bool := negb (includes s ",").

End ResponseTransform.

(** * Properties *)

(** ** Numbers print as JavaScript prints them *)

Example Number_toString_examples :
  Number_toString <$>
    [JDec 397 (-1); JDec (-10499) (-2); JDec 25 0; JDec 1000 0; JDec 5 (-7);
     JDec 1 21; JDec 123 (-5); JDec 0 0; JNaN; JInfinity true]
  = ["39.7"; "-104.99"; "25"; "1000"; "5e-7"; "1e+21"; "0.00123"; "0";
     "NaN"; "-Infinity"].
Proof. reflexivity. Qed.

(** ** Schema transformer *)

Section TransformFacts.
Import Transform.

Lemma lookup_setOpt_ne (k k' : string) (v : option string)
    (params : gmap string string) :
  k ≠ k' -> setOpt k v params !! k' = params !! k'.
Proof.
  intros Hne. destruct v as [s|]; simpl; [|done].
  by rewrite lookup_insert_ne.
Qed.

Lemma lookup_setOpt_eq (k : string) (s : string)
    (params : gmap string string) :
  setOpt k (Some s) params !! k = Some s.
Proof. simpl. by rewrite lookup_insert_eq. Qed.

(** The fields set after the location block leave [location] alone. *)
Lemma restParams_location (filters : CanonicalSearchFilters)
    (params : gmap string string) :
  restParams filters params !! "location" = params !! "location".
Proof.
  unfold restParams. cbv zeta.
  repeat (rewrite lookup_setOpt_ne; [|discriminate]).
  reflexivity.
Qed.

Lemma locationParam_numbers (filters : CanonicalSearchFilters)
    (c : LocationCoordinate) (x y : JsNumber) :
  location filters ≫= coordinates = Some c ->
  lat c = JNum x -> lon c = JNum y ->
  locationParam filters
  = Ok (Some (Number_toString x ++ "," ++ Number_toString y)).
Proof.
  intros Hc Hx Hy. unfold locationParam. by rewrite Hc, Hx, Hy.
Qed.

Lemma locationParam_not_numbers (filters : CanonicalSearchFilters)
    (c : LocationCoordinate) :
  location filters ≫= coordinates = Some c ->
  typeof (lat c) ≠ "number" ∨ typeof (lon c) ≠ "number" ->
  locationParam filters
  = Throw (match ToString (lat c), ToString (lon c) with
           | Some slat, Some slon =>
               Error (invalidCoordinatesMessage
                        slat (typeof (lat c)) slon (typeof (lon c)))
           | _, _ => TypeError "Cannot convert object to primitive value"
           end).
Proof.
  intros Hc Hty. unfold locationParam. rewrite Hc. cbv zeta.
  destruct (ToString (lat c)) as [slat|]; [|done].
  destruct (ToString (lon c)) as [slon|]; [|done].
  destruct (String.eqb_spec (typeof (lat c)) "number") as [Hlat|Hlat],
    (String.eqb_spec (typeof (lon c)) "number") as [Hlon|Hlon];
    cbn [andb]; try done.
  destruct Hty; contradiction.
Qed.

End TransformFacts.

(** C1, as stated, fails: a latitude that is [NaN] is of type [number], so
    the guard lets it through; the call returns and the [location] it emits
    starts with [NaN]. *)
Lemma transform_NaN_latitude_is_emitted :
  let filters :=
    Transform.withCoordinates (JNum JNaN) (JNum (JDec (-1049) (-1))) in
  isFiniteNumber (JNum JNaN) = false
  ∧ isThrow (Transform.transformFiltersToBackendParams filters) = false
  ∧ Transform.locationOf (Transform.transformFiltersToBackendParams filters)
    = Some "NaN,-104.9".
Proof. vm_compute. repeat split; reflexivity. Qed.

(** C1 (amended): when [location.coordinates] is present, the transformer
    throws whenever [lat] or [lon] is not of type [number].  What it throws
    is an [Error] whose message is [Invalid location coordinates: lat=<lat>
    (<typeof lat>), lon=<lon> (<typeof lon>)] when both values convert to
    strings, and otherwise the [TypeError] of the conversion in the message
    template ([lat] or [lon] is an object that has no primitive value).
    When both are finite numbers it returns a map whose [location] is the
    two numbers printed and joined by a comma, [39.7,-104.99] for latitude
    39.7 and longitude -104.99. *)
Theorem transform_coordinate_guard (filters : CanonicalSearchFilters)
    (c : LocationCoordinate) :
  location filters ≫= coordinates = Some c ->
  (typeof (lat c) ≠ "number" ∨ typeof (lon c) ≠ "number" ->
   Transform.transformFiltersToBackendParams filters
   = Throw (match ToString (lat c), ToString (lon c) with
            | Some slat, Some slon =>
                Error ("Invalid location coordinates: lat=" ++ slat ++ " ("
                       ++ typeof (lat c) ++ "), lon=" ++ slon ++ " ("
                       ++ typeof (lon c) ++ ")")
            | _, _ => TypeError "Cannot convert object to primitive value"
            end))
  ∧ (∀ m1 e1 m2 e2,
       lat c = JNum (JDec m1 e1) -> lon c = JNum (JDec m2 e2) ->
       isThrow (Transform.transformFiltersToBackendParams filters) = false
       ∧ Transform.locationOf
           (Transform.transformFiltersToBackendParams filters)
         = Some (Number_toString (JDec m1 e1) ++ ","
                 ++ Number_toString (JDec m2 e2)))
  ∧ (lat c = JNum (JDec 397 (-1)) -> lon c = JNum (JDec (-10499) (-2)) ->
     Transform.locationOf (Transform.transformFiltersToBackendParams filters)
     = Some "39.7,-104.99").
Proof.
  intros Hc.
  assert (Hnum : ∀ x y, lat c = JNum x -> lon c = JNum y ->
    isThrow (Transform.transformFiltersToBackendParams filters) = false
    ∧ Transform.locationOf (Transform.transformFiltersToBackendParams filters)
      = Some (Number_toString x ++ "," ++ Number_toString y)).
  { intros x y Hx Hy. unfold Transform.transformFiltersToBackendParams.
    rewrite (locationParam_numbers filters c x y Hc Hx Hy).
    split; [reflexivity|]. cbn [Transform.locationOf].
    rewrite restParams_location. apply lookup_setOpt_eq. }
  split; [|split].
  - intros Hty. unfold Transform.transformFiltersToBackendParams.
    by rewrite (locationParam_not_numbers filters c Hc Hty).
  - intros m1 e1 m2 e2 Hx Hy. by apply Hnum.
  - intros Hx Hy. by destruct (Hnum _ _ Hx Hy) as [_ ->].
Qed.

Lemma transform_coordinate_guard_witness :
  Transform.locationOf
    (Transform.transformFiltersToBackendParams
       (Transform.withCoordinates (JNum (JDec 397 (-1)))
                                  (JNum (JDec (-10499) (-2)))))
  = Some "39.7,-104.99"
  ∧ Transform.transformFiltersToBackendParams
      (Transform.withCoordinates (JStr "39.7") (JNum (JDec (-10499) (-2))))
    = Throw (Error "Invalid location coordinates: lat=39.7 (string), lon=-104.99 (number)")
  ∧ Transform.transformFiltersToBackendParams
      (Transform.withCoordinates (JObj [("toString", JNull)])
                                 (JNum (JDec (-10499) (-2))))
    = Throw (TypeError "Cannot convert object to primitive value").
Proof.
  split; [|split].
  - apply (transform_coordinate_guard
             (Transform.withCoordinates (JNum (JDec 397 (-1)))
                                        (JNum (JDec (-10499) (-2))))
             {| lat := JNum (JDec 397 (-1));
                lon := JNum (JDec (-10499) (-2)) |});
      reflexivity.
  - apply (transform_coordinate_guard
             (Transform.withCoordinates (JStr "39.7")
                                        (JNum (JDec (-10499) (-2))))
             {| lat := JStr "39.7"; lon := JNum (JDec (-10499) (-2)) |});
      [reflexivity|]. left. simpl. discriminate.
  - apply (transform_coordinate_guard
             (Transform.withCoordinates (JObj [("toString", JNull)])
                                        (JNum (JDec (-10499) (-2))))
             {| lat := JObj [("toString", JNull)];
                lon := JNum (JDec (-10499) (-2)) |});
      [reflexivity|]. left. simpl. discriminate.
Defined.

(** ** Backend client *)

Section ClientFacts.
Import BackendClient.

Lemma attempts_fetch (url method : string) (auth : option string)
    (trace : list Event) :
  attempts (Fetch url method auth :: trace) = S (attempts trace).
Proof. unfold attempts. by rewrite filter_cons_True. Qed.

Lemma attempts_sleep (ms : Z) (trace : list Event) :
  attempts (Sleep ms :: trace) = attempts trace.
Proof. unfold attempts. by rewrite filter_cons_False. Qed.

Lemma attempts_backoff (opts : RetryOptions) (attempt : nat)
    (trace : list Event) :
  attempts (backoff opts attempt ++ trace)%list = attempts trace.
Proof.
  unfold backoff. destruct (attempt <? maxRetries opts)%nat; [|done].
  apply attempts_sleep.
Qed.

Lemma delays_backoff (opts : RetryOptions) (attempt : nat)
    (trace : list Event) :
  delays (backoff opts attempt ++ trace)%list
  = ((if (attempt <? maxRetries opts)%nat
      then [backoffMs opts * 2 ^ Z.of_nat attempt] else [])
     ++ delays trace)%list.
Proof. unfold backoff. by destruct (attempt <? maxRetries opts)%nat. Qed.

(** Against a server that never answers with success the loop runs to its
    bound, whatever the status: it sends one request per iteration, waits
    [backoffMs * 2^attempt] after every iteration but the last, and throws. *)
Lemma retryLoop_exhausts (key : string) (backend : Backend)
    (opts : RetryOptions) (url method : string) :
  neverReturns opts backend ->
  ∀ remaining attempt lastError,
    (attempt + remaining = S (maxRetries opts))%nat ->
    let '(res, trace) :=
      retryLoop key backend opts url method remaining attempt lastError in
    isThrow res = true
    ∧ attempts trace = remaining
    ∧ delays trace
      = (λ i, backoffMs opts * 2 ^ Z.of_nat i) <$> seq attempt (remaining - 1).
Proof.
  intros Hnever. induction remaining as [|remaining IH];
    intros attempt lastError Hsum.
  - simpl. repeat split; done.
  - cbn [retryLoop].
    assert (Hcont : ∀ e,
      let '(res, trace) :=
        (let '(res, trace) :=
           retryLoop key backend opts url method remaining (S attempt)
                     (Some e) in
         (res, (Fetch url method (authorizationHeader key)
                :: backoff opts attempt ++ trace)%list)) in
      isThrow res = true
      ∧ attempts trace = S remaining
      ∧ delays trace
        = (λ i, backoffMs opts * 2 ^ Z.of_nat i)
            <$> seq attempt (S remaining - 1)).
    { intros e. specialize (IH (S attempt) (Some e)).
      destruct (retryLoop key backend opts url method remaining (S attempt)
                          (Some e)) as [res trace].
      destruct IH as (Hthrow & Hatt & Hdel); [lia|].
      rewrite attempts_fetch, attempts_backoff, Hatt.
      change (delays (Fetch url method (authorizationHeader key)
                      :: backoff opts attempt ++ trace)%list)
        with (delays (backoff opts attempt ++ trace)%list).
      rewrite delays_backoff, Hdel.
      replace (S remaining - 1)%nat with remaining by lia.
      split; [done|split]; [done|].
      destruct remaining as [|remaining'].
      - replace (attempt <? maxRetries opts)%nat with false; [done|].
        symmetry. apply Nat.ltb_ge. lia.
      - replace (attempt <? maxRetries opts)%nat with true.
        + simpl. by rewrite Nat.sub_0_r.
        + symmetry. apply Nat.ltb_lt. lia. }
    destruct (Hnever attempt) as [e [He|He]]; rewrite He.
    + apply Hcont.
    + destruct (attempt =? maxRetries opts)%nat eqn:Hlast; [|apply Hcont].
      apply Nat.eqb_eq in Hlast.
      assert (remaining = O) as -> by lia.
      repeat split; done.
Qed.

(** A status that is not a success never makes an attempt return, whether
    the status is in the retryable list or not. *)
Lemma always_neverReturns (opts : RetryOptions) (status : Z) (text : string) :
  (status < 200 ∨ 299 < status) -> neverReturns opts (always status text).
Proof.
  intros Hne i. unfold always, tryBlock, ok. cbn.
  replace ((200 <=? status) && (status <=? 299)) with false by lia.
  destruct (negb _); eauto.
Qed.

(** With the default options every client call against such a server sends
    four requests, waits 1000, 2000 and 4000 ms between them and throws. *)
Lemma fetchWithRetry_default_exhausts (key : string) (status : Z)
    (text url method : string) :
  (status < 200 ∨ 299 < status) ->
  let '(res, trace) :=
    fetchWithRetry key (always status text) url method
                   DEFAULT_RETRY_OPTIONS in
  isThrow res = true ∧ attempts trace = 4%nat
  ∧ delays trace = [1000; 2000; 4000].
Proof.
  intros Hne.
  pose proof (retryLoop_exhausts key (always status text)
                DEFAULT_RETRY_OPTIONS url method
                (always_neverReturns _ _ _ Hne) 4%nat 0%nat None eq_refl) as H.
  unfold fetchWithRetry. cbn [maxRetries DEFAULT_RETRY_OPTIONS] in *.
  destruct (retryLoop _ _ _ _ _ _ _ _) as [res trace].
  exact H.
Qed.

End ClientFacts.

(** C2 (the code departs from it): status 404 is not in the retryable list,
    yet a client call against a server that answers 404 sends four
    requests, with the three waits in between, before it fails; and the
    [BackendAPIError] it throws carries no status code (the 404 only appears
    in the message of the wrapped error). *)
Theorem client_retries_non_retryable_status
    (FASTAPI_URL FASTAPI_API_KEY resourceId : string) :
  (404 ∉ BackendClient.retryableStatuses BackendClient.DEFAULT_RETRY_OPTIONS)
  ∧ (let '(res, trace) :=
       BackendClient.getResourceById FASTAPI_URL FASTAPI_API_KEY
         (BackendClient.always 404 "Not Found") resourceId in
     BackendClient.attempts trace = 4%nat
     ∧ BackendClient.delays trace = [1000; 2000; 4000]
     ∧ res = Throw (BackendAPIError "Failed to get resource details" None
                      (Error "HTTP 404: Not Found"))).
Proof.
  split.
  - intros H%list_elem_of_In. simpl in H. intuition discriminate.
  - cbn. repeat split; reflexivity.
Qed.

(** C3 (the code departs from it in the status code): against a server that
    always answers 503, [searchResources] sends exactly four requests,
    waits 1000 * 2^attempt ms after each but the last, and throws a
    [BackendAPIError]; the error carries no status code, where the claim
    has 503. *)
Theorem searchResources_always_503
    (FASTAPI_URL FASTAPI_API_KEY text : string)
    (queryStringOf : gmap string string -> string)
    (params : gmap string string) :
  let '(res, trace) :=
    BackendClient.searchResources FASTAPI_URL FASTAPI_API_KEY queryStringOf
      (BackendClient.always 503 text) params in
  BackendClient.attempts trace = 4%nat
  ∧ BackendClient.delays trace = [1000 * 2 ^ 0; 1000 * 2 ^ 1; 1000 * 2 ^ 2]
  ∧ res = Throw (BackendAPIError "Failed to search resources" None
                   (Error ("HTTP 503: " ++ text)))
  ∧ ∀ e, res = Throw e -> BackendClient.statusCodeOf e = None.
Proof.
  cbn. repeat split; try reflexivity.
  intros e [= <-]. reflexivity.
Qed.

(** ** Resource detail endpoint *)

Section ResourceRouteFacts.
Import BackendClient ResourceRoute.

(** An id that is not a UUID is answered 400 and nothing is sent to the
    backend. *)
Lemma GET_invalid_id (FASTAPI_URL FASTAPI_API_KEY : string)
    (backend : Backend) (id : string) :
  uuidRegex_test id = false ->
  GET FASTAPI_URL FASTAPI_API_KEY backend id
  = ({| code := 400;
        body := JObj [("error",
                       JStr "Invalid resource ID format (expected UUID)")] |},
     []).
Proof. intros H. unfold GET. by rewrite H. Qed.

(** Every error of the client has an undefined status code. *)
Lemma clientCall_error_has_no_status (key : string) (backend : Backend)
    (url method message : string) (e : JsError) :
  (clientCall key backend url method message).1 = Throw e ->
  ∃ cause, e = BackendAPIError message None cause.
Proof.
  unfold clientCall.
  destruct (fetchWithRetry _ _ _ _ _) as [[r|err] trace]; simpl.
  - destruct (json r); simpl; [done|]. intros [= <-]. eauto.
  - intros [= <-]. eauto.
Qed.

(** Hence a well-formed id is answered 200 or 500, whatever the backend
    does: no backend status reaches the caller. *)
Lemma GET_valid_id_status (FASTAPI_URL FASTAPI_API_KEY : string)
    (backend : Backend) (id : string) :
  uuidRegex_test id = true ->
  code (GET FASTAPI_URL FASTAPI_API_KEY backend id).1 = 200
  ∨ code (GET FASTAPI_URL FASTAPI_API_KEY backend id).1 = 500.
Proof.
  intros Hid. unfold GET. rewrite Hid. cbn [negb].
  unfold getResourceById.
  pose proof (clientCall_error_has_no_status FASTAPI_API_KEY backend
                (FASTAPI_URL ++ "/v2/resources/" ++ id) "GET"
                "Failed to get resource details") as Herr.
  destruct (clientCall _ _ _ _ _) as [[v|e] trace]; simpl in *.
  - destruct v; simpl; auto.
  - destruct (Herr e eq_refl) as [cause ->]. simpl. auto.
Qed.

End ResourceRouteFacts.

(** C7 (the code departs from it): for a well-formed id and a backend that
    answers 404, the endpoint answers 500, after four requests; the 404
    branch of the handler is never taken because the client's error has no
    status code. *)
Theorem GET_resource_backend_404_yields_500
    (FASTAPI_URL FASTAPI_API_KEY : string) :
  let id := "123e4567-e89b-12d3-a456-426614174000" in
  ResourceRoute.uuidRegex_test id = true
  ∧ (let '(response, trace) :=
       ResourceRoute.GET FASTAPI_URL FASTAPI_API_KEY
         (BackendClient.always 404 "Not Found") id in
     ResourceRoute.code response = 500
     ∧ BackendClient.attempts trace = 4%nat).
Proof. cbn. repeat split; reflexivity. Qed.

(** ** Validator *)

Section ValidatorFacts.
Import Validator.

(** *** The ordered set behind [[...new Set(values)]] *)

Lemma elem_of_setAddAll (x : ServiceType) (values seen : list ServiceType) :
  x ∈ setAddAll seen values ↔ x ∈ seen ∨ x ∈ values.
Proof.
  revert seen. induction values as [|v values IH]; intros seen; simpl.
  - rewrite elem_of_nil. tauto.
  - rewrite IH, elem_of_cons. case_bool_decide as Hv.
    + split; [tauto|]. intros [?|[->|?]]; auto.
    + rewrite elem_of_app, list_elem_of_singleton. tauto.
Qed.

Lemma setAddAll_NoDup (values seen : list ServiceType) :
  NoDup seen -> NoDup (setAddAll seen values).
Proof.
  revert seen. induction values as [|v values IH]; intros seen Hseen;
    simpl; [done|].
  apply IH. case_bool_decide as Hv; [done|].
  apply NoDup_app. split; [done|]. split.
  - intros x Hx ->%list_elem_of_singleton. done.
  - apply NoDup_singleton.
Qed.

Lemma setAddAll_of_NoDup (values seen : list ServiceType) :
  NoDup (seen ++ values)%list -> setAddAll seen values = (seen ++ values)%list.
Proof.
  revert seen. induction values as [|v values IH]; intros seen Hnd; simpl.
  - by rewrite app_nil_r.
  - assert (v ∉ seen) as Hv.
    { apply NoDup_app in Hnd as (_ & Hdisj & _). intros Hin.
      apply (Hdisj v Hin). left. }
    rewrite bool_decide_eq_false_2 by done.
    rewrite IH; rewrite <- app_assoc; done.
Qed.

(** The corrected list has no duplicates. *)
Lemma distinct_NoDup (values : list ServiceType) : NoDup (distinct values).
Proof. apply setAddAll_NoDup, NoDup_nil_2. Qed.

Lemma elem_of_distinct (x : ServiceType) (values : list ServiceType) :
  x ∈ distinct values ↔ x ∈ values.
Proof.
  unfold distinct. rewrite elem_of_setAddAll, elem_of_nil. tauto.
Qed.

Lemma distinct_of_NoDup (values : list ServiceType) :
  NoDup values -> distinct values = values.
Proof. intros H. unfold distinct. by rewrite setAddAll_of_NoDup. Qed.

(** *** The vocabulary and the alias table *)

Lemma alias_entry (k v : string) :
  SERVICE_TYPE_ALIASES !! k = Some v -> (k, v) ∈ aliasEntries.
Proof. intros H. by apply elem_of_list_to_map_2 in H. Qed.

(** Every alias maps to a code of the vocabulary, and to a non-empty one. *)
Lemma alias_is_canonical (k v : string) :
  SERVICE_TYPE_ALIASES !! k = Some v ->
  isValid (Code v) = true ∧ stringTruthy v = true.
Proof.
  intros H%alias_entry. unfold aliasEntries in H.
  repeat (apply elem_of_cons in H as [[= -> ->]|H];
          [split; vm_compute; reflexivity|]).
  by apply elem_of_nil in H.
Qed.

Lemma correct_valid (type : ServiceType) :
  isValid type = true -> correct type = Some type.
Proof. intros H. unfold correct. by rewrite H. Qed.

(** What [correct] can push: the value itself when it is in the vocabulary,
    a code of the vocabulary taken from the alias table, or a value
    inherited from [Object.prototype]. *)
Lemma correct_Some (type mapped : ServiceType) :
  correct type = Some mapped ->
  isValid mapped = true ∨ ∃ name, mapped = Inherited name.
Proof.
  unfold correct. destruct (isValid type) eqn:Hvalid.
  - intros [= <-]. by left.
  - unfold aliasOf.
    destruct (SERVICE_TYPE_ALIASES !! ServiceType_toString type)
      as [canonical|] eqn:Halias.
    + destruct (alias_is_canonical _ _ Halias) as [Hv Ht].
      simpl. rewrite Ht. intros [= <-]. by left.
    + case_bool_decide; [|done]. simpl. intros [= <-]. eauto.
Qed.

Lemma corrected_are_valid (types : list ServiceType) :
  leaks types = false ->
  Forall (fun t => isValid t = true) (distinct (omap correct types)).
Proof.
  intros Hleak. apply Forall_forall. intros x Hx.
  apply elem_of_distinct, list_elem_of_omap in Hx as (type & Hin & Hc).
  destruct (correct_Some _ _ Hc) as [Hvalid|[name ->]]; [done|].
  exfalso. unfold leaks in Hleak.
  assert (existsb (fun type => match correct type with
                               | Some (Inherited _) => true
                               | _ => false
                               end) types = true) as Habs.
  { apply existsb_exists. exists type. split.
    - by apply list_elem_of_In.
    - by rewrite Hc. }
  congruence.
Qed.

Lemma omap_correct_valid (types : list ServiceType) :
  Forall (fun t => isValid t = true) types -> omap correct types = types.
Proof.
  induction 1 as [|t types Ht _ IH]; [done|].
  cbn -[correct]. rewrite (correct_valid _ Ht). f_equal. exact IH.
Qed.

(** A second pass over a corrected list that did not leak changes nothing. *)
Lemma correction_stable (types : list ServiceType) :
  leaks types = false ->
  distinct (omap correct (distinct (omap correct types)))
  = distinct (omap correct types).
Proof.
  intros Hleak.
  rewrite (omap_correct_valid _ (corrected_are_valid _ Hleak)).
  apply distinct_of_NoDup, distinct_NoDup.
Qed.

End ValidatorFacts.

Section ValidateFacts.
Import Validator.

Lemma validate_absent (r : LLMFilterExtractionResponse) (q : string) :
  service_types (filters r) = None -> validateExtractedFilters r q = r.
Proof. intros H. unfold validateExtractedFilters. by rewrite H. Qed.

Lemma validate_service_types (r : LLMFilterExtractionResponse) (q : string)
    (types : list ServiceType) :
  service_types (filters r) = Some types ->
  service_types (filters (validateExtractedFilters r q))
  = Some (distinct (omap correct types)).
Proof.
  intros H. unfold validateExtractedFilters. rewrite H.
  by destruct (_ && _).
Qed.

Lemma validate_keywords (r : LLMFilterExtractionResponse) (q : string)
    (types : list ServiceType) :
  service_types (filters r) = Some types ->
  keywords (filters (validateExtractedFilters r q))
  = if bool_decide (length (distinct (omap correct types)) = 0%nat)
       && stringTruthy q
    then Some q else keywords (filters r).
Proof.
  intros H. unfold validateExtractedFilters. rewrite H.
  by destruct (_ && _).
Qed.

(** The code agrees with the specification's wording on every string that
    is not the name of a property of [Object.prototype]. *)
Lemma correct_follows_spec (s : string) :
  s ∉ Object_prototype_names ->
  correct (Code s) = Code <$> correctedBySpec s.
Proof.
  intros Hs. unfold correct, correctedBySpec, isValid, aliasOf.
  cbn [ServiceType_toString].
  case_bool_decide; [done|].
  destruct (SERVICE_TYPE_ALIASES !! s) as [v|] eqn:Hv.
  - destruct (alias_is_canonical _ _ Hv) as [_ Ht]. simpl. by rewrite Ht.
  - by rewrite bool_decide_eq_false_2.
Qed.

Lemma omap_correct_follows_spec (codes : list string) :
  Forall (fun s => s ∉ Object_prototype_names) codes ->
  omap correct (Code <$> codes) = Code <$> omap correctedBySpec codes.
Proof.
  induction 1 as [|s codes Hs _ IH]; [done|].
  cbn -[correct correctedBySpec].
  rewrite (correct_follows_spec _ Hs), IH.
  by destruct (correctedBySpec s).
Qed.

(** On such strings the validator keeps the vocabulary, substitutes the
    aliases, discards the rest and removes duplicates. *)
Lemma validate_as_specified (r : LLMFilterExtractionResponse) (q : string)
    (codes : list string) :
  service_types (filters r) = Some (Code <$> codes) ->
  Forall (fun s => s ∉ Object_prototype_names) codes ->
  service_types (filters (validateExtractedFilters r q))
  = Some (distinct (Code <$> omap correctedBySpec codes))
  ∧ NoDup (distinct (Code <$> omap correctedBySpec codes)).
Proof.
  intros Hr Hcodes. rewrite (validate_service_types _ _ _ Hr).
  rewrite (omap_correct_follows_spec _ Hcodes).
  split; [done|apply distinct_NoDup].
Qed.

Lemma no_leak_without_inherited_names (codes : list string) :
  Forall (fun s => s ∉ Object_prototype_names) codes ->
  leaks (Code <$> codes) = false.
Proof.
  induction 1 as [|s codes Hs _ IH]; [done|].
  unfold leaks in *. cbn -[correct]. rewrite IH.
  rewrite (correct_follows_spec _ Hs). by destruct (correctedBySpec s).
Qed.

Lemma validate_present (r : LLMFilterExtractionResponse) (q : string)
    (types : list ServiceType) :
  service_types (filters r) = Some types ->
  validateExtractedFilters r q
  = set_filters
      (let kept := distinct (omap correct types) in
       let f := set_service_types (Some kept) (filters r) in
       if bool_decide (length kept = 0%nat) && stringTruthy q
       then set_keywords (Some q) f else f)
      r.
Proof. intros H. unfold validateExtractedFilters. by rewrite H. Qed.

(** Validation is idempotent on every extraction that does not leak. *)
Lemma validate_idempotent_without_leak (r : LLMFilterExtractionResponse)
    (q : string) :
  (∀ types, service_types (filters r) = Some types -> leaks types = false) ->
  validateExtractedFilters (validateExtractedFilters r q) q
  = validateExtractedFilters r q.
Proof.
  intros Hleak. destruct (service_types (filters r)) as [types|] eqn:Hst.
  - specialize (Hleak types eq_refl).
    pose proof (correction_stable types Hleak) as Hstable.
    rewrite (validate_present r q types Hst). cbv zeta.
    set (kept := distinct (omap correct types)) in *.
    destruct (bool_decide (length kept = 0%nat) && stringTruthy q) eqn:Hcond.
    + erewrite (validate_present _ q kept); [|reflexivity]. cbv zeta.
      rewrite Hstable, Hcond. reflexivity.
    + erewrite (validate_present _ q kept); [|reflexivity]. cbv zeta.
      rewrite Hstable, Hcond. reflexivity.
  - rewrite (validate_absent r q Hst). exact (validate_absent r q Hst).
Qed.

End ValidateFacts.

(** C5, as stated, fails: when no service types were extracted at all the
    validator returns the result untouched, so an extraction without
    keywords stays with neither keywords nor service types although the
    user supplied text. *)
Lemma validate_absent_service_types_keeps_no_keywords :
  let r := Validator.validateExtractedFilters
             (Validator.responseWith "help" noFilters) "help" in
  keywords (filters r) = None ∧ service_types (filters r) = None.
Proof. split; reflexivity. Qed.

(** C5 (amended): for every extraction result and every non-empty query, if
    a [service_types] list was extracted and the corrected list is empty,
    the validator sets [filters.keywords] to the original query; when no
    [service_types] list was extracted the result is returned unchanged. *)
Theorem validate_restores_keywords (r : LLMFilterExtractionResponse)
    (q : string) :
  (∀ types,
     service_types (filters r) = Some types ->
     q ≠ EmptyString ->
     service_types (filters (Validator.validateExtractedFilters r q))
     = Some [] ->
     keywords (filters (Validator.validateExtractedFilters r q)) = Some q)
  ∧ (service_types (filters r) = None ->
     Validator.validateExtractedFilters r q = r).
Proof.
  split; [|apply validate_absent].
  intros types Hst Hq Hempty.
  rewrite (validate_service_types r q types Hst) in Hempty.
  injection Hempty as Hempty.
  rewrite (validate_keywords r q types Hst), Hempty.
  destruct q; [done|reflexivity].
Qed.

Lemma validate_restores_keywords_witness :
  keywords
    (filters
       (Validator.validateExtractedFilters
          (Validator.responseWith "help"
             (Validator.withServiceTypes ["bogus_code"])) "help"))
  = Some "help".
Proof.
  apply (validate_restores_keywords
           (Validator.responseWith "help"
              (Validator.withServiceTypes ["bogus_code"])) "help")
    with (types := [Code "bogus_code"]);
    [reflexivity | discriminate | vm_compute; reflexivity].
Defined.

(** C6 (the code departs from it): the claim's own example holds, the alias
    [crisis_hotline] is replaced and [bogus_code] discarded; but a value
    that names a property every object inherits, such as [constructor], is
    neither in the vocabulary nor in the alias table and is still not
    discarded: the alias lookup finds the inherited built-in, which is
    truthy, and pushes it.  The corrected list then holds a value that is
    no code at all, and the keywords are not restored. *)
Theorem validate_pushes_inherited_property :
  service_types
    (filters
       (Validator.validateExtractedFilters
          (Validator.responseWith "help"
             (Validator.withServiceTypes ["crisis_hotline"; "bogus_code"]))
          "help"))
  = Some [Code "crisis_line"]
  ∧ Validator.correctedBySpec "constructor" = None
  ∧ (let r := Validator.validateExtractedFilters
                (Validator.responseWith "help"
                   (Validator.withServiceTypes ["constructor"])) "help" in
     service_types (filters r) = Some [Inherited "constructor"]
     ∧ keywords (filters r) = None).
Proof. vm_compute. repeat split; reflexivity. Qed.

(** C9 (the code departs from it): a second validation drops the inherited
    built-in that the first one pushed for [constructor], empties the list
    and restores the keywords, so the two results differ. *)
Theorem validate_not_idempotent_on_inherited_property :
  let r := Validator.responseWith "help"
             (Validator.withServiceTypes ["constructor"]) in
  let once := Validator.validateExtractedFilters r "help" in
  let twice := Validator.validateExtractedFilters once "help" in
  service_types (filters once) = Some [Inherited "constructor"]
  ∧ keywords (filters once) = None
  ∧ service_types (filters twice) = Some []
  ∧ keywords (filters twice) = Some "help"
  ∧ twice ≠ once.
Proof.
  cbv zeta. repeat split; try (vm_compute; reflexivity).
  intros H. apply (f_equal (fun x => keywords (filters x))) in H.
  vm_compute in H. discriminate.
Qed.

(** ** Keyword fallback *)

(** C8: the keyword fallback is a total function of the query alone; for
    every query the keywords of its result are the query verbatim, the
    maximum distance is the fixed default 25, and two applications to the
    same query give the same output. *)
Theorem createBasicFilters_keeps_query (q : string) :
  keywords (filters (KeywordFallback.createBasicFilters q)) = Some q
  ∧ max_distance_km (filters (KeywordFallback.createBasicFilters q))
    = Some (JDec 25 0)
  ∧ Number_toString (JDec 25 0) = "25"
  ∧ originalQuery (KeywordFallback.createBasicFilters q) = q
  ∧ (let first := KeywordFallback.createBasicFilters q in
     let second := KeywordFallback.createBasicFilters q in
     first = second).
Proof. repeat split; reflexivity. Qed.

(** The scenario of the specification: no provider, an emergency query. *)
Example createBasicFilters_emergency :
  let r := KeywordFallback.createBasicFilters
             "emergency help for suicidal thoughts" in
  care_phase (filters r) = Some immediate_crisis
  ∧ has_crisis_services (filters r) = Some true
  ∧ urgentAccessOnly (filters r) = Some true
  ∧ keywords (filters r) = Some "emergency help for suicidal thoughts"
  ∧ Number_toString (confidence r) = "0.3".
Proof. vm_compute. repeat split; reflexivity. Qed.

(** ** Extraction endpoint *)

Section ExtractFacts.
Import LlmFallback Validator KeywordFallback ExtractRoute.

Variable OPENAI_API_KEY : option string.
Variable ANTHROPIC_API_KEY : option string.
Variable openai_create : string -> Result ChatCompletion.
Variable anthropic_create : string -> Result Message.
Variable JSON_parse : string -> Result ParsedOutput.

Local Abbreviation OpenAI :=
  (OpenAIProvider OPENAI_API_KEY openai_create JSON_parse).
Local Abbreviation Anthropic :=
  (AnthropicProvider ANTHROPIC_API_KEY anthropic_create JSON_parse).
Local Abbreviation providers :=
  (configuredProviders OPENAI_API_KEY ANTHROPIC_API_KEY
     openai_create anthropic_create JSON_parse).

(** Validation leaves the metadata alone. *)
Lemma validate_metadata (r : LLMFilterExtractionResponse) (q : string) :
  metadata (validateExtractedFilters r q) = metadata r.
Proof.
  unfold validateExtractedFilters.
  by destruct (service_types (filters r)).
Qed.

(** The keyword fallback extracts no service types, so validation returns
    it as it is. *)
Lemma validate_createBasicFilters (q : string) :
  validateExtractedFilters (createBasicFilters q) q = createBasicFilters q.
Proof. reflexivity. Qed.

Lemma OpenAI_extract_provider (q : string) (c : option Context)
    (r : LLMFilterExtractionResponse) :
  extract OpenAI q c = Ok r ->
  provider (metadata r) = "openai" ∧ configured OPENAI_API_KEY = true.
Proof.
  cbn. destruct (configured OPENAI_API_KEY); [|done]. cbn.
  repeat case_match; try done. by intros [= <-].
Qed.

Lemma Anthropic_extract_provider (q : string) (c : option Context)
    (r : LLMFilterExtractionResponse) :
  extract Anthropic q c = Ok r ->
  provider (metadata r) = "anthropic" ∧ configured ANTHROPIC_API_KEY = true.
Proof.
  cbn. destruct (configured ANTHROPIC_API_KEY); [|done]. cbn.
  repeat case_match; try done. by intros [= <-].
Qed.

(** The configured providers, by cases on the two keys. *)
Lemma configuredProviders_cases :
  providers
  = ((if configured OPENAI_API_KEY then [OpenAI] else [])
     ++ (if configured ANTHROPIC_API_KEY then [Anthropic] else []))%list.
Proof.
  unfold configuredProviders. cbn.
  by destruct (configured OPENAI_API_KEY), (configured ANTHROPIC_API_KEY).
Qed.

(** The loop returns the result of a provider of its list, or throws when
    every provider of the list throws. *)
Lemma tryProviders_Ok (ps : list LLMProvider) (q : string)
    (c : option Context) (lastError : option JsError)
    (r : LLMFilterExtractionResponse) :
  tryProviders ps q c lastError = Ok r ->
  ∃ p, p ∈ ps ∧ extract p q c = Ok r.
Proof.
  revert lastError. induction ps as [|p ps IH]; intros lastError; simpl.
  - done.
  - destruct (extract p q c) as [r'|e] eqn:Hp.
    + intros [= <-]. exists p. split; [left|done].
    + intros H. destruct (IH _ H) as (p' & Hin & Hp').
      exists p'. split; [by right|done].
Qed.

Lemma tryProviders_all_throw (ps : list LLMProvider) (q : string)
    (c : option Context) (lastError : option JsError) :
  (∀ p, p ∈ ps -> isThrow (extract p q c) = true) ->
  isThrow (tryProviders ps q c lastError) = true.
Proof.
  revert lastError. induction ps as [|p ps IH]; intros lastError Hall; simpl.
  - done.
  - pose proof (Hall p ltac:(left)) as Hp.
    destruct (extract p q c); [done|].
    apply IH. intros p' Hin. apply Hall. by right.
Qed.

Lemma extractFiltersWithFallback_Ok (q : string) (c : option Context)
    (r : LLMFilterExtractionResponse) :
  extractFiltersWithFallback OPENAI_API_KEY ANTHROPIC_API_KEY
    openai_create anthropic_create JSON_parse q c = Ok r ->
  (provider (metadata r) = "openai" ∧ configured OPENAI_API_KEY = true)
  ∨ (provider (metadata r) = "anthropic"
     ∧ configured ANTHROPIC_API_KEY = true).
Proof.
  unfold extractFiltersWithFallback. intros H.
  assert (∃ p, p ∈ providers ∧ extract p q c = Ok r) as (p & Hin & Hp).
  { destruct providers eqn:Hps; [done|]. by apply tryProviders_Ok in H. }
  rewrite configuredProviders_cases in Hin.
  apply elem_of_app in Hin as [Hin|Hin].
  - destruct (configured OPENAI_API_KEY); [|by apply elem_of_nil in Hin].
    apply list_elem_of_singleton in Hin as ->.
    left. split; [exact (proj1 (OpenAI_extract_provider _ _ _ Hp))|done].
  - destruct (configured ANTHROPIC_API_KEY); [|by apply elem_of_nil in Hin].
    apply list_elem_of_singleton in Hin as ->.
    right. split; [exact (proj1 (Anthropic_extract_provider _ _ _ Hp))|done].
Qed.

Lemma extractFiltersWithFallback_all_throw (q : string) (c : option Context) :
  (∀ p, p ∈ providers -> isThrow (extract p q c) = true) ->
  isThrow (extractFiltersWithFallback OPENAI_API_KEY ANTHROPIC_API_KEY
             openai_create anthropic_create JSON_parse q c) = true.
Proof.
  intros Hall. unfold extractFiltersWithFallback.
  destruct providers eqn:Hps; [done|].
  by apply tryProviders_all_throw.
Qed.

End ExtractFacts.

(** C4: for every query, every configuration of the two API keys and every
    behaviour of the two services and of the parsing of their output, the
    orchestration returns a result (it is a total function: nothing it
    calls after the provider loop can throw) whose provider is a configured
    provider or the fallback; when every configured provider throws, and in
    particular when none is configured, the result is the keyword fallback
    of the query, with confidence 0.3 and provider [fallback].  The endpoint
    answers 200 with that result for every query that is not blank. *)
Theorem extraction_always_returns
    (OPENAI_API_KEY ANTHROPIC_API_KEY : option string)
    (openai_create : string -> Result LlmFallback.ChatCompletion)
    (anthropic_create : string -> Result LlmFallback.Message)
    (JSON_parse : string -> Result LlmFallback.ParsedOutput)
    (query : string) (context : option LlmFallback.Context) :
  let r := ExtractRoute.extractOrFallback OPENAI_API_KEY ANTHROPIC_API_KEY
             openai_create anthropic_create JSON_parse query context in
  let basic := KeywordFallback.createBasicFilters query in
  ((provider (metadata r) = "openai"
    ∧ LlmFallback.configured OPENAI_API_KEY = true)
   ∨ (provider (metadata r) = "anthropic"
      ∧ LlmFallback.configured ANTHROPIC_API_KEY = true)
   ∨ provider (metadata r) = "fallback")
  ∧ ((∀ p, p ∈ LlmFallback.configuredProviders OPENAI_API_KEY
                 ANTHROPIC_API_KEY openai_create anthropic_create JSON_parse ->
           isThrow (LlmFallback.extract p query context) = true) ->
     r = basic)
  ∧ (LlmFallback.configured OPENAI_API_KEY = false ->
     LlmFallback.configured ANTHROPIC_API_KEY = false ->
     r = basic)
  ∧ confidence basic = JDec 3 (-1)
  ∧ Number_toString (confidence basic) = "0.3"
  ∧ provider (metadata basic) = "fallback"
  ∧ ExtractRoute.POST OPENAI_API_KEY ANTHROPIC_API_KEY
      openai_create anthropic_create JSON_parse query context
    = if negb (stringTruthy query) || (String.length (trim query) =? 0)%nat
      then {| ExtractRoute.code := 400;
              ExtractRoute.body := ExtractRoute.ErrorBody "Query is required" |}
      else {| ExtractRoute.code := 200;
              ExtractRoute.body := ExtractRoute.ResultBody r |}.
Proof.
  cbv zeta.
  assert (Hthrow :
    (∀ p, p ∈ LlmFallback.configuredProviders OPENAI_API_KEY
                ANTHROPIC_API_KEY openai_create anthropic_create JSON_parse ->
          isThrow (LlmFallback.extract p query context) = true) ->
    ExtractRoute.extractOrFallback OPENAI_API_KEY ANTHROPIC_API_KEY
      openai_create anthropic_create JSON_parse query context
    = KeywordFallback.createBasicFilters query).
  { intros Hall. unfold ExtractRoute.extractOrFallback.
    pose proof (extractFiltersWithFallback_all_throw OPENAI_API_KEY
                  ANTHROPIC_API_KEY openai_create anthropic_create JSON_parse
                  query context Hall) as H.
    destruct (LlmFallback.extractFiltersWithFallback _ _ _ _ _ _ _);
      [done|]. apply validate_createBasicFilters. }
  split; [|split; [exact Hthrow|split]].
  - unfold ExtractRoute.extractOrFallback.
    destruct (LlmFallback.extractFiltersWithFallback _ _ _ _ _ _ _)
      as [r|e] eqn:Hr.
    + rewrite validate_metadata.
      destruct (extractFiltersWithFallback_Ok _ _ _ _ _ _ _ _ Hr); auto.
    + right; right. reflexivity.
  - intros Ho Ha. apply Hthrow. intros p Hp.
    rewrite configuredProviders_cases, Ho, Ha in Hp.
    by apply elem_of_nil in Hp.
  - repeat split; reflexivity.
Qed.

Lemma extraction_always_returns_witness :
  ExtractRoute.extractOrFallback None None
    (fun _ => Throw (Error "no key")) (fun _ => Throw (Error "no key"))
    (fun _ => Throw (SyntaxError "not JSON"))
    "emergency help for suicidal thoughts" None
  = KeywordFallback.createBasicFilters "emergency help for suicidal thoughts".
Proof.
  apply (extraction_always_returns None None
           (fun _ => Throw (Error "no key")) (fun _ => Throw (Error "no key"))
           (fun _ => Throw (SyntaxError "not JSON"))
           "emergency help for suicidal thoughts" None);
    reflexivity.
Defined.

(** ** URL serialization *)

Section FilterUtilsFacts.
Import FilterUtils.

Variable JSON_stringify : JsValue -> string.
Variable JSON_parse : string -> option JsValue.

(** *** What [append] and [set] do to the values of a key *)

Lemma getAll_app (key : string) (ps qs : URLSearchParams) :
  getAll key (ps ++ qs)%list = (getAll key ps ++ getAll key qs)%list.
Proof. unfold getAll. by rewrite List.filter_app, fmap_app. Qed.

Lemma getAll_cons_eq (key value : string) (ps : URLSearchParams) :
  getAll key ((key, value) :: ps) = value :: getAll key ps.
Proof. unfold getAll. cbn. by rewrite String.eqb_refl. Qed.

Lemma getAll_cons_ne (key k value : string) (ps : URLSearchParams) :
  k ≠ key -> getAll key ((k, value) :: ps) = getAll key ps.
Proof.
  intros Hne. unfold getAll. cbn.
  by rewrite (proj2 (String.eqb_neq k key) Hne).
Qed.

Lemma getAll_append_eq (key value : string) (ps : URLSearchParams) :
  getAll key (append key value ps) = (getAll key ps ++ [value])%list.
Proof. unfold append. by rewrite getAll_app, getAll_cons_eq. Qed.

Lemma getAll_append_ne (key k value : string) (ps : URLSearchParams) :
  k ≠ key -> getAll key (append k value ps) = getAll key ps.
Proof.
  intros Hne. unfold append.
  rewrite getAll_app, (getAll_cons_ne _ _ _ _ Hne). apply app_nil_r.
Qed.

Lemma getAll_without (key k : string) (ps : URLSearchParams) :
  k ≠ key ->
  getAll key (List.filter (fun kv => negb (String.eqb (fst kv) k)) ps)
  = getAll key ps.
Proof.
  intros Hne. induction ps as [|[k' v'] ps IH]; [done|].
  cbn [List.filter fst].
  destruct (String.eqb_spec k' k) as [->|Hk']; cbn [negb].
  - by rewrite IH, (getAll_cons_ne _ _ _ _ Hne).
  - destruct (String.eqb_spec k' key) as [->|Hkey].
    + by rewrite !getAll_cons_eq, IH.
    + by rewrite !(getAll_cons_ne _ _ _ _ Hkey), IH.
Qed.

Lemma getAll_set_ne (key k value : string) (ps : URLSearchParams) :
  k ≠ key -> getAll key (set k value ps) = getAll key ps.
Proof.
  intros Hne. induction ps as [|[k' v'] ps IH]; cbn [set].
  - by rewrite (getAll_cons_ne _ _ _ _ Hne).
  - destruct (String.eqb_spec k' k) as [->|Hk'].
    + by rewrite !(getAll_cons_ne _ _ _ _ Hne), getAll_without.
    + destruct (String.eqb_spec k' key) as [->|Hkey].
      * by rewrite !getAll_cons_eq, IH.
      * by rewrite !(getAll_cons_ne _ _ _ _ Hkey), IH.
Qed.

(** *** Serialization *)



Lemma appendAll_other (key k : string) (items : list JsValue)
    (ps ps' : URLSearchParams) :
  k ≠ key -> appendAll k items ps = Ok ps' -> getAll key ps' = getAll key ps.
Proof.
  intros Hne. revert ps. induction items as [|v items IH]; intros ps; cbn.
  - by intros [= <-].
  - destruct (ToString v) as [s|]; [|done].
    intros H%IH. by rewrite H, getAll_append_ne.
Qed.

Lemma serializeEntry_other (key k : string) (v : JsValue)
    (ps ps' : URLSearchParams) :
  k ≠ key ->
  serializeEntry JSON_stringify (k, v) ps = Ok ps' ->
  getAll key ps' = getAll key ps.
Proof.
  intros Hne. unfold serializeEntry.
  destruct v; try (intros [= <-]; by rewrite ?getAll_set_ne).
  by apply appendAll_other.
Qed.

Lemma serializeEntries_other (key : string) (entries : list (string * JsValue))
    (ps ps' : URLSearchParams) :
  key ∉ entries.*1 ->
  serializeEntries JSON_stringify entries ps = Ok ps' ->
  getAll key ps' = getAll key ps.
Proof.
  revert ps. induction entries as [|[k v] entries IH]; intros ps Hkey;
    cbn [serializeEntries].
  - by intros [= <-].
  - cbn in Hkey. apply not_elem_of_cons in Hkey as [Hne Hkey].
    destruct (serializeEntry JSON_stringify (k, v) ps) as [ps1|e] eqn:H1;
      [|done].
    intros H. apply IH in H; [|done].
    rewrite H. by apply (serializeEntry_other key k v).
Qed.


(** *** Parsing *)

(** The value parsed for a key comes from the last pair of that key. *)
Lemma fold_parseEntry_lookup (params l : URLSearchParams)
    (acc : gmap string JsValue) (key : string) :
  fold_left (parseEntry JSON_parse params) l acc !! key
  = match last (getAll key l) with
    | Some value =>
        Some (if (1 <? length (getAll key params))%nat
              then JArr (JStr <$> getAll key params)
              else parseScalar JSON_parse value)
    | None => acc !! key
    end.
Proof.
  revert acc. induction l as [|[k v] l IH]; intros acc; [done|].
  cbn [fold_left]. rewrite IH.
  destruct (decide (k = key)) as [->|Hne].
  - rewrite getAll_cons_eq, last_cons.
    destruct (last (getAll key l)); [done|].
    unfold parseEntry. cbn beta iota.
    destruct (1 <? length (getAll key params))%nat;
      by rewrite lookup_insert_eq.
  - rewrite (getAll_cons_ne _ _ _ _ Hne).
    destruct (last (getAll key l)); [done|].
    unfold parseEntry. cbn beta iota.
    destruct (1 <? length (getAll k params))%nat;
      by rewrite lookup_insert_ne.
Qed.

Lemma fromURLParams_lookup (params : URLSearchParams) (key : string) :
  fromURLParams JSON_parse params !! key
  = match getAll key params with
    | [] => None
    | [value] => Some (parseScalar JSON_parse value)
    | values => Some (JArr (JStr <$> values))
    end.
Proof.
  unfold fromURLParams. rewrite fold_parseEntry_lookup.
  destruct (getAll key params) as [|v1 [|v2 vs]] eqn:Hall.
  - reflexivity.
  - reflexivity.
  - change (last (v1 :: v2 :: vs)) with (last (v2 :: vs)).
    rewrite last_cons. by destruct (last vs).
Qed.


(** A plain string parses back as itself. *)
Lemma parseScalar_plain (value : string) :
  isPlainString value = true -> parseScalar JSON_parse value = JStr value.
Proof.
  unfold isPlainString, parseScalar.
  destruct (startsWith value "{"), (startsWith value "["),
    (String.eqb value "true"), (String.eqb value "false"),
    (isNaN (Number value)); cbn; congruence.
Qed.

End FilterUtilsFacts.




(** * Further properties of the code *)

(** ** Schema transformer: the whole field table *)

Section TransformTable.
Import Transform TransformFields.

Lemma lookup_setOpt_same (k : string) (v : option string)
    (params : gmap string string) :
  setOpt k v params !! k = from_option Some (params !! k) v.
Proof. destruct v; simpl; [apply lookup_insert_eq|done]. Qed.

Lemma from_option_Some_None {A} (v : option A) : from_option Some None v = v.
Proof. by destruct v. Qed.

Ltac lookup_in_table :=
  repeat first [ rewrite lookup_setOpt_ne by discriminate
               | rewrite lookup_setOpt_same ];
  rewrite lookup_empty; apply from_option_Some_None.

(** Each backend field is written by one block only: what the result holds
    under a name is what that block computed, whatever the other fields. *)
Lemma transform_lookup_table (filters : CanonicalSearchFilters)
    (params : gmap string string) :
  transformFiltersToBackendParams filters = Ok params ->
  params !! "query" = whenTruthyString (keywords filters)
  ∧ params !! "radius_km" = whenTruthyNumber (max_distance_km filters)
  ∧ params !! "service_types"
    = whenNonEmpty ServiceType_toString (service_types filters)
  ∧ params !! "insurance_types" = whenNonEmpty id (insurance filters)
  ∧ params !! "languages" = whenNonEmpty id (languages filters)
  ∧ params !! "age_groups" = whenNonEmpty id (age_groups filters)
  ∧ params !! "has_crisis_services"
    = Boolean_toString <$> has_crisis_services filters
  ∧ params !! "walk_ins_accepted"
    = Boolean_toString <$> walk_ins_accepted filters
  ∧ params !! "referral_required"
    = Boolean_toString <$> referral_required filters
  ∧ params !! "gender_specific" = Gender_code <$> gender_specific filters
  ∧ params !! "lgbtq_affirming" = Boolean_toString <$> lgbtq_affirming filters
  ∧ params !! "wheelchair_accessible"
    = Boolean_toString <$> wheelchair_accessible filters
  ∧ params !! "telehealth_available"
    = Boolean_toString <$> telehealth_available filters
  ∧ params !! "urgent_access_only"
    = Boolean_toString <$> urgentAccessOnly filters
  ∧ params !! "accepting_new_patients"
    = Boolean_toString <$> acceptingNewPatients filters
  ∧ params !! "care_phase" = CarePhase_code <$> care_phase filters
  ∧ params !! "verified_only" = Boolean_toString <$> verified_only filters
  ∧ params !! "min_confidence" = Number_toString <$> min_rcs filters
  ∧ params !! "limit" = whenTruthyNumber (limit filters)
  ∧ params !! "offset" = whenTruthyNumber (offset filters).
Proof.
  unfold transformFiltersToBackendParams.
  destruct (locationParam filters) as [loc|e]; [|done].
  intros [= <-]. unfold restParams. cbv zeta.
  repeat split; lookup_in_table.
Qed.

Lemma lookup_setOpt_is_Some (k k' : string) (v : option string)
    (params : gmap string string) :
  is_Some (setOpt k v params !! k') -> k' = k ∨ is_Some (params !! k').
Proof.
  destruct (decide (k = k')) as [->|Hne]; [by left|].
  rewrite lookup_setOpt_ne by done. by right.
Qed.

Lemma setOpt_names (names : list string) (k : string) (v : option string)
    (params : gmap string string) :
  k ∈ names ->
  (∀ k', is_Some (params !! k') -> k' ∈ names) ->
  ∀ k', is_Some (setOpt k v params !! k') -> k' ∈ names.
Proof.
  intros Hk Hps k' [->|H]%lookup_setOpt_is_Some; [done|by apply Hps].
Qed.

End TransformTable.

(** X1: whatever the filters, the parameters the transformer returns carry
    only names of the backend's field table; nothing else is forwarded. *)
Theorem transform_emits_only_backend_fields
    (filters : CanonicalSearchFilters) (params : gmap string string)
    (k : string) :
  Transform.transformFiltersToBackendParams filters = Ok params ->
  is_Some (params !! k) ->
  k ∈ TransformFields.backendFields.
Proof.
  unfold Transform.transformFiltersToBackendParams.
  destruct (Transform.locationParam filters) as [loc|e]; [|done].
  intros [= <-]. revert k. unfold Transform.restParams. cbv zeta.
  repeat (apply setOpt_names;
          [apply list_elem_of_In; vm_compute; tauto|]).
  intros k [v Hv]. by rewrite lookup_empty in Hv.
Qed.

Lemma transform_emits_only_backend_fields_witness :
  "location" ∈ TransformFields.backendFields.
Proof.
  eapply (transform_emits_only_backend_fields
            (Transform.withCoordinates (JNum (JDec 397 (-1)))
                                       (JNum (JDec (-10499) (-2))))).
  - reflexivity.
  - vm_compute. eauto.
Defined.

(** X2: on filters whose fields have their declared types, [lat] and [lon]
    apart (these are taken as any run-time value), the transformer throws
    exactly when [location.coordinates] is present and [lat] and [lon] are
    not both of type [number]; on every other such input it returns a
    parameter map.  (On a field of another type it can throw as well: X23.) *)
Theorem transform_throws_iff_coordinates_ill_typed
    (filters : CanonicalSearchFilters) :
  isThrow (Transform.transformFiltersToBackendParams filters)
  = match location filters ≫= coordinates with
    | Some c => negb (TransformFields.bothNumbers c)
    | None => false
    end.
Proof.
  unfold Transform.transformFiltersToBackendParams, Transform.locationParam,
    TransformFields.bothNumbers.
  destruct (location filters ≫= coordinates) as [c|]; [|reflexivity].
  cbv zeta.
  destruct (ToString (lat c)) as [slat|] eqn:Hlat;
    [destruct (ToString (lon c)) as [slon|] eqn:Hlon|].
  - by destruct (_ && _).
  - destruct (lon c); try discriminate; cbn [typeof];
      by rewrite andb_false_r.
  - destruct (lat c); try discriminate; reflexivity.
Qed.

(** X3: an array filter is sent exactly when it is non-empty, as its
    elements joined by commas, under the backend's name for it ([insurance]
    becomes [insurance_types]); an absent or empty array sends nothing. *)
Theorem transform_array_fields (filters : CanonicalSearchFilters)
    (params : gmap string string) :
  Transform.transformFiltersToBackendParams filters = Ok params ->
  TransformFields.sentJoined params "insurance_types" (insurance filters)
  ∧ TransformFields.sentJoined params "languages" (languages filters)
  ∧ TransformFields.sentJoined params "age_groups" (age_groups filters)
  ∧ (∀ codes, service_types filters = Some (Code <$> codes) ->
              TransformFields.sentJoined params "service_types" (Some codes)).
Proof.
  intros H. apply transform_lookup_table in H.
  destruct H as (_ & _ & Hst & Hins & Hlang & Hage & _).
  unfold TransformFields.sentJoined. rewrite Hins, Hlang, Hage.
  repeat split.
  - destruct (insurance filters) as [[|x xs]|]; try reflexivity.
    cbn. by rewrite list_fmap_id.
  - destruct (languages filters) as [[|x xs]|]; try reflexivity.
    cbn. by rewrite list_fmap_id.
  - destruct (age_groups filters) as [[|x xs]|]; try reflexivity.
    cbn. by rewrite list_fmap_id.
  - intros codes Hcodes. rewrite Hst, Hcodes.
    assert (∀ l : list string, ServiceType_toString <$> (Code <$> l) = l)
      as Hshow.
    { induction l as [|c l IH]; [done|]. cbn. by rewrite IH. }
    destruct codes as [|x xs]; [reflexivity|].
    unfold Transform.whenNonEmpty. cbn [mbind option_bind].
    rewrite Hshow. reflexivity.
Qed.

Lemma transform_array_fields_witness :
  Transform.restParams (Validator.withServiceTypes ["crisis_line"; "detox"]) ∅
    !! "service_types"
  = Some "crisis_line,detox".
Proof.
  exact (proj2 (proj2 (proj2
           (transform_array_fields
              (Validator.withServiceTypes ["crisis_line"; "detox"])
              (Transform.restParams
                 (Validator.withServiceTypes ["crisis_line"; "detox"]) ∅)
              eq_refl)))
           ["crisis_line"; "detox"] eq_refl).
Defined.

(** X4: a [limit], [offset] or [max_distance_km] that is zero or [NaN], and
    an empty [keywords] string, are dropped: such a value never reaches the
    backend (an offset of 0 included).  A [min_rcs] of zero is sent all the
    same, and a flag set to [false] is sent as the string [false]. *)
Theorem transform_falsy_values (filters : CanonicalSearchFilters)
    (params : gmap string string) :
  Transform.transformFiltersToBackendParams filters = Ok params ->
  (∀ x, numberTruthy x = false ->
        (limit filters = Some x -> params !! "limit" = None)
        ∧ (offset filters = Some x -> params !! "offset" = None)
        ∧ (max_distance_km filters = Some x -> params !! "radius_km" = None))
  ∧ (keywords filters = Some EmptyString -> params !! "query" = None)
  ∧ (∀ x, min_rcs filters = Some x ->
          params !! "min_confidence" = Some (Number_toString x))
  ∧ (has_crisis_services filters = Some false ->
     params !! "has_crisis_services" = Some "false")
  ∧ (walk_ins_accepted filters = Some false ->
     params !! "walk_ins_accepted" = Some "false")
  ∧ (referral_required filters = Some false ->
     params !! "referral_required" = Some "false")
  ∧ (lgbtq_affirming filters = Some false ->
     params !! "lgbtq_affirming" = Some "false")
  ∧ (wheelchair_accessible filters = Some false ->
     params !! "wheelchair_accessible" = Some "false")
  ∧ (telehealth_available filters = Some false ->
     params !! "telehealth_available" = Some "false")
  ∧ (urgentAccessOnly filters = Some false ->
     params !! "urgent_access_only" = Some "false")
  ∧ (acceptingNewPatients filters = Some false ->
     params !! "accepting_new_patients" = Some "false")
  ∧ (verified_only filters = Some false ->
     params !! "verified_only" = Some "false").
Proof.
  intros H. apply transform_lookup_table in H.
  destruct H as (Hq & Hrad & _ & _ & _ & _ & Hcr & Hwalk & Href & _ & Hlg
                 & Hwh & Htel & Hurg & Hacc & _ & Hver & Hmin & Hlim & Hoff).
  split; [|split; [|split]].
  - intros x Hx. unfold Transform.whenTruthyNumber in *.
    repeat split; intros Hv; [rewrite Hlim|rewrite Hoff|rewrite Hrad];
      rewrite Hv; cbn; by rewrite Hx.
  - intros Hv. by rewrite Hq, Hv.
  - intros x Hv. by rewrite Hmin, Hv.
  - repeat split; intros Hv;
      [rewrite Hcr|rewrite Hwalk|rewrite Href|rewrite Hlg|rewrite Hwh
      |rewrite Htel|rewrite Hurg|rewrite Hacc|rewrite Hver];
      by rewrite Hv.
Qed.

Lemma transform_falsy_values_witness :
  let filters :=
    {| keywords := Some "help"; service_types := None; care_phase := None;
       location := None; max_distance_km := None; insurance := None;
       languages := None; lgbtq_affirming := None; age_groups := None;
       gender_specific := None; wheelchair_accessible := None;
       telehealth_available := None; acceptingNewPatients := None;
       urgentAccessOnly := None; has_crisis_services := None;
       min_rcs := Some (JDec 0 0); verified_only := Some false;
       walk_ins_accepted := None; referral_required := None;
       limit := Some (JDec 20 0); offset := Some (JDec 0 0) |} in
  let params :=
    Transform.restParams filters (<["query" := "help"]> ∅) in
  params !! "offset" = None
  ∧ params !! "min_confidence" = Some "0"
  ∧ params !! "verified_only" = Some "false".
Proof.
  cbv zeta.
  match goal with
  | |- Transform.restParams ?f ?p0 !! _ = _ ∧ _ =>
      pose proof (transform_falsy_values f (Transform.restParams f p0)
                    eq_refl) as H
  end.
  destruct H as (Hzero & _ & Hmin & _ & _ & _ & _ & _ & _ & _ & _ & Hver).
  split; [|split].
  - exact (proj1 (proj2 (Hzero (JDec 0 0) eq_refl)) eq_refl).
  - apply (Hmin (JDec 0 0)). reflexivity.
  - apply Hver. reflexivity.
Defined.

(** ** Backend client: the retry loop on every server *)

Section RetryFacts.
Import BackendClient ClientTrace.

Variable key : string.
Variable backend : Backend.
Variable opts : RetryOptions.
Variables url method : string.

Local Abbreviation loop := (retryLoop key backend opts url method).
Local Abbreviation wait := (fun i => backoffMs opts * 2 ^ Z.of_nat i).

Lemma delays_fetch (u m : string) (a : option string) (trace : list Event) :
  delays (Fetch u m a :: trace) = delays trace.
Proof. reflexivity. Qed.

(** One more iteration in front of a trace of [n] requests. *)
Lemma continue_shape (attempt remaining n : nat) (trace : list Event) :
  (attempt + S remaining = S (maxRetries opts))%nat ->
  (1 <= n <= remaining)%nat ->
  attempts trace = n ->
  delays trace = wait <$> seq (S attempt) (n - 1) ->
  let trace' := (Fetch url method (authorizationHeader key)
                 :: backoff opts attempt ++ trace)%list in
  attempts trace' = S n ∧ delays trace' = wait <$> seq attempt (S n - 1).
Proof.
  intros Hsum Hn Hatt Hdel. cbv zeta.
  rewrite attempts_fetch, attempts_backoff, delays_fetch, delays_backoff.
  rewrite Hatt, Hdel. split; [done|].
  replace (attempt <? maxRetries opts)%nat with true
    by (symmetry; apply Nat.ltb_lt; lia).
  replace (S n - 1)%nat with (S (n - 1)) by lia. reflexivity.
Qed.

(** Whatever the server does, an unfinished loop sends at least one request
    and at most one per remaining iteration, and has waited after every
    request but the last. *)
Lemma retryLoop_shape (remaining attempt : nat) (lastError : option JsError) :
  (attempt + S remaining = S (maxRetries opts))%nat ->
  ∃ n, (1 <= n <= S remaining)%nat
       ∧ attempts (loop (S remaining) attempt lastError).2 = n
       ∧ delays (loop (S remaining) attempt lastError).2
         = wait <$> seq attempt (n - 1).
Proof.
  revert attempt lastError.
  induction remaining as [|remaining IH]; intros attempt lastError Hsum.
  - exists 1%nat. cbn [retryLoop].
    assert (attempt = maxRetries opts) as Hlast by lia.
    destruct (tryBlock opts (backend attempt)) as [r|e|e]; cbn [snd].
    + repeat split; done.
    + rewrite attempts_fetch, attempts_backoff, delays_fetch, delays_backoff.
      replace (attempt <? maxRetries opts)%nat with false
        by (symmetry; apply Nat.ltb_ge; lia).
      repeat split; done.
    + rewrite (proj2 (Nat.eqb_eq _ _) Hlast). repeat split; done.
  - assert (Hcont : ∀ e,
      ∃ n, (1 <= n <= S (S remaining))%nat
           ∧ attempts
               (let '(res, trace) := loop (S remaining) (S attempt) (Some e) in
                (res, (Fetch url method (authorizationHeader key)
                       :: backoff opts attempt ++ trace)%list)).2 = n
           ∧ delays
               (let '(res, trace) := loop (S remaining) (S attempt) (Some e) in
                (res, (Fetch url method (authorizationHeader key)
                       :: backoff opts attempt ++ trace)%list)).2
             = wait <$> seq attempt (n - 1)).
    { intros e. destruct (IH (S attempt) (Some e)) as (n & Hn & Hatt & Hdel);
        [lia|].
      destruct (loop (S remaining) (S attempt) (Some e)) as [res trace].
      cbn [snd] in *. exists (S n).
      destruct (continue_shape attempt (S remaining) n trace Hsum Hn Hatt Hdel)
        as [Ha Hd].
      split; [lia|]. split; [exact Ha|exact Hd]. }
    cbn [retryLoop].
    destruct (tryBlock opts (backend attempt)) as [r|e|e].
    + exists 1%nat. split; [lia|]. split; reflexivity.
    + exact (Hcont e).
    + replace (attempt =? maxRetries opts)%nat with false
        by (symmetry; apply Nat.eqb_neq; lia).
      exact (Hcont e).
Qed.

End RetryFacts.

(** X5: whatever the server does, [fetchWithRetry] sends at least one and at
    most [maxRetries + 1] requests, and the waits between them are exactly
    [backoffMs * 2^0, backoffMs * 2^1, ...], one after each request but the
    last; with the default options it never waits more than 7000 ms in
    total. *)
Theorem fetchWithRetry_bounded (key : string) (backend : BackendClient.Backend)
    (opts : BackendClient.RetryOptions) (url method : string) :
  let trace := (BackendClient.fetchWithRetry key backend url method opts).2 in
  let n := BackendClient.attempts trace in
  (1 <= n <= S (BackendClient.maxRetries opts))%nat
  ∧ BackendClient.delays trace = ClientTrace.schedule opts (n - 1)
  ∧ (opts = BackendClient.DEFAULT_RETRY_OPTIONS ->
     ClientTrace.total (BackendClient.delays trace) <= 7000).
Proof.
  cbv zeta. unfold BackendClient.fetchWithRetry.
  destruct (retryLoop_shape key backend opts url method
              (BackendClient.maxRetries opts) 0 None eq_refl)
    as (n & Hn & Hatt & Hdel).
  rewrite Hatt, Hdel. split; [exact Hn|]. split; [reflexivity|].
  intros ->. cbn in Hn.
  assert (n = 1 ∨ n = 2 ∨ n = 3 ∨ n = 4)%nat as Hcases by lia.
  destruct Hcases as [-> | [-> | [-> | ->]]]; vm_compute; discriminate.
Qed.

Lemma fetchWithRetry_bounded_witness :
  ClientTrace.total
    (BackendClient.delays
       (BackendClient.fetchWithRetry "secret"
          (BackendClient.always 503 "Service Unavailable")
          "https://api/search" "GET"
          BackendClient.DEFAULT_RETRY_OPTIONS).2)
  <= 7000.
Proof.
  apply (fetchWithRetry_bounded "secret"
           (BackendClient.always 503 "Service Unavailable")
           BackendClient.DEFAULT_RETRY_OPTIONS "https://api/search" "GET").
  reflexivity.
Defined.

Section RetrySuccess.
Import BackendClient ClientTrace.

Variable key : string.
Variable backend : Backend.
Variable opts : RetryOptions.
Variables url method : string.

(** A loop that meets [i] failing attempts and then a success returns the
    successful response after [i + 1] requests. *)
Lemma retryLoop_first_success (i : nat) (r : Response) :
  ∀ remaining attempt lastError,
    (attempt + remaining = S (maxRetries opts))%nat ->
    (attempt + i <= maxRetries opts)%nat ->
    (∀ j, (j < i)%nat ->
          is_Some (failsWith opts (backend (attempt + j)%nat))) ->
    tryBlock opts (backend (attempt + i)%nat) = Returned r ->
    let '(res, trace) :=
      retryLoop key backend opts url method remaining attempt lastError in
    res = Ok r ∧ attempts trace = S i
    ∧ delays trace
      = (fun k => backoffMs opts * 2 ^ Z.of_nat k) <$> seq attempt i.
Proof.
  induction i as [|i IH]; intros remaining attempt lastError Hsum Hle Hfail Hok.
  - destruct remaining as [|remaining]; [lia|]. cbn [retryLoop].
    rewrite Nat.add_0_r in Hok. rewrite Hok. repeat split; done.
  - destruct remaining as [|remaining]; [lia|]. cbn [retryLoop].
    assert (Hcont : ∀ e,
      let '(res, trace) :=
        (let '(res, trace) :=
           retryLoop key backend opts url method remaining (S attempt)
                     (Some e) in
         (res, (Fetch url method (authorizationHeader key)
                :: backoff opts attempt ++ trace)%list)) in
      res = Ok r ∧ attempts trace = S (S i)
      ∧ delays trace
        = (fun k => backoffMs opts * 2 ^ Z.of_nat k) <$> seq attempt (S i)).
    { intros e.
      specialize (IH remaining (S attempt) (Some e)).
      destruct (retryLoop key backend opts url method remaining (S attempt)
                          (Some e)) as [res trace].
      destruct IH as (Hres & Hatt & Hdel).
      - lia.
      - lia.
      - intros j Hj. replace (S attempt + j)%nat with (attempt + S j)%nat
          by lia. apply Hfail. lia.
      - replace (S attempt + i)%nat with (attempt + S i)%nat by lia. done.
      - rewrite attempts_fetch, attempts_backoff, Hatt.
        change (delays (Fetch url method (authorizationHeader key)
                        :: backoff opts attempt ++ trace)%list)
          with (delays (backoff opts attempt ++ trace)%list).
        rewrite delays_backoff, Hdel.
        replace (attempt <? maxRetries opts)%nat with true
          by (symmetry; apply Nat.ltb_lt; lia).
        repeat split; done. }
    pose proof (Hfail 0%nat ltac:(lia)) as [e He].
    rewrite Nat.add_0_r in He. unfold failsWith in He.
    destruct (tryBlock opts (backend attempt)) as [r'|e'|e']; [done| |].
    + apply Hcont.
    + replace (attempt =? maxRetries opts)%nat with false
        by (symmetry; apply Nat.eqb_neq; lia).
      apply Hcont.
Qed.

(** The error a loop throws when no attempt returns is the error of the
    last attempt. *)
Lemma retryLoop_last_error (eLast : JsError) :
  neverReturns opts backend ->
  failsWith opts (backend (maxRetries opts)) = Some eLast ->
  ∀ remaining attempt lastError,
    (attempt + S remaining = S (maxRetries opts))%nat ->
    (retryLoop key backend opts url method (S remaining) attempt lastError).1
    = Throw eLast.
Proof.
  intros Hnever Hlast.
  induction remaining as [|remaining IH]; intros attempt lastError Hsum.
  - assert (attempt = maxRetries opts) as -> by lia.
    cbn [retryLoop]. unfold failsWith in Hlast.
    destruct (tryBlock opts (backend (maxRetries opts))) as [r|e|e];
      [done| |]; injection Hlast as ->.
    + reflexivity.
    + by rewrite Nat.eqb_refl.
  - cbn [retryLoop].
    assert (Hcont : ∀ e,
      (let '(res, trace) :=
         retryLoop key backend opts url method (S remaining) (S attempt)
                   (Some e) in
       (res, (Fetch url method (authorizationHeader key)
              :: backoff opts attempt ++ trace)%list)).1 = Throw eLast).
    { intros e. specialize (IH (S attempt) (Some e) ltac:(lia)).
      destruct (retryLoop key backend opts url method (S remaining)
                          (S attempt) (Some e)) as [res trace].
      exact IH. }
    destruct (Hnever attempt) as [e [He|He]]; rewrite He.
    + exact (Hcont e).
    + replace (attempt =? maxRetries opts)%nat with false
        by (symmetry; apply Nat.eqb_neq; lia).
      exact (Hcont e).
Qed.

(** Every request of the loop goes to the same place with the same
    credentials. *)
Lemma retryLoop_wellAddressed (remaining attempt : nat)
    (lastError : option JsError) :
  Forall (wellAddressed key url method)
    (retryLoop key backend opts url method remaining attempt lastError).2.
Proof.
  revert attempt lastError.
  induction remaining as [|remaining IH]; intros attempt lastError.
  - constructor.
  - cbn [retryLoop].
    assert (Hreq : wellAddressed key url method
                     (Fetch url method (authorizationHeader key))).
    { cbn. unfold authorizationHeader. by destruct key. }
    assert (Hcont : ∀ e,
      Forall (wellAddressed key url method)
        (let '(res, trace) :=
           retryLoop key backend opts url method remaining (S attempt)
                     (Some e) in
         (res, (Fetch url method (authorizationHeader key)
                :: backoff opts attempt ++ trace)%list)).2).
    { intros e. specialize (IH (S attempt) (Some e)).
      destruct (retryLoop key backend opts url method remaining (S attempt)
                          (Some e)) as [res trace].
      cbn [snd] in *. constructor; [exact Hreq|].
      apply Forall_app. split; [|exact IH].
      unfold backoff. destruct (attempt <? maxRetries opts)%nat;
        [constructor; [exact I|constructor]|constructor]. }
    destruct (tryBlock opts (backend attempt)) as [r|e|e].
    + cbn [snd]. constructor; [exact Hreq|constructor].
    + exact (Hcont e).
    + destruct (attempt =? maxRetries opts)%nat; [|exact (Hcont e)].
      cbn [snd]. constructor; [exact Hreq|constructor].
Qed.

End RetrySuccess.

(** X6: when the first [i] attempts fail (a network error or a status that
    is not a success, retryable or not) and attempt [i], still within the
    retry budget, is answered with a success, [fetchWithRetry] returns that
    response, having sent [i + 1] requests and waited [backoffMs * 2^k]
    after the [k]-th failure; a success on the first attempt costs one
    request and no wait. *)
Theorem fetchWithRetry_returns_first_success
    (key : string) (backend : BackendClient.Backend)
    (opts : BackendClient.RetryOptions) (url method : string)
    (i : nat) (r : BackendClient.Response) :
  (i <= BackendClient.maxRetries opts)%nat ->
  (∀ j, (j < i)%nat -> is_Some (ClientTrace.failsWith opts (backend j))) ->
  backend i = BackendClient.Resolves r ->
  BackendClient.ok r = true ->
  let '(res, trace) :=
    BackendClient.fetchWithRetry key backend url method opts in
  res = Ok r
  ∧ BackendClient.attempts trace = S i
  ∧ BackendClient.delays trace = ClientTrace.schedule opts i.
Proof.
  intros Hi Hfail Hres Hok. unfold BackendClient.fetchWithRetry.
  apply (retryLoop_first_success key backend opts url method i r
           (S (BackendClient.maxRetries opts)) 0 None);
    [lia|lia|exact Hfail|].
  cbn. unfold BackendClient.tryBlock. by rewrite Hres, Hok.
Qed.

Lemma fetchWithRetry_returns_first_success_witness :
  let '(res, trace) :=
    BackendClient.fetchWithRetry "secret"
      (Servers.recovering 2 503 (Servers.okJson (JObj [])))
      "https://api/search" "GET" BackendClient.DEFAULT_RETRY_OPTIONS in
  res = Ok (Servers.okJson (JObj []))
  ∧ BackendClient.attempts trace = 3%nat
  ∧ BackendClient.delays trace
    = ClientTrace.schedule BackendClient.DEFAULT_RETRY_OPTIONS 2.
Proof.
  apply (fetchWithRetry_returns_first_success "secret"
           (Servers.recovering 2 503 (Servers.okJson (JObj [])))
           BackendClient.DEFAULT_RETRY_OPTIONS
           "https://api/search" "GET" 2 (Servers.okJson (JObj []))).
  - cbn. lia.
  - intros [|[|j]] Hj; [vm_compute; eauto..|lia].
  - reflexivity.
  - reflexivity.
Defined.

(** X7: every request of a client call goes to the URL and method of the
    call, and carries the header [Authorization: Bearer <key>] exactly when
    the configured API key is non-empty; retries repeat the same request. *)
Theorem clientCall_requests_wellAddressed
    (key : string) (backend : BackendClient.Backend)
    (url method message : string) :
  Forall (ClientTrace.wellAddressed key url method)
    (BackendClient.clientCall key backend url method message).2.
Proof.
  unfold BackendClient.clientCall, BackendClient.fetchWithRetry.
  pose proof (retryLoop_wellAddressed key backend
                BackendClient.DEFAULT_RETRY_OPTIONS url method
                (S (BackendClient.maxRetries
                      BackendClient.DEFAULT_RETRY_OPTIONS)) 0 None) as H.
  destruct (BackendClient.retryLoop _ _ _ _ _ _ _ _) as [res trace].
  cbn [snd] in H. destruct res as [r|e]; [destruct (BackendClient.json r)|];
    exact H.
Qed.

(** X8: when no attempt of a client call returns a response, the call
    throws a [BackendAPIError] with the message of the method, no status
    code, and as original error the error of the last attempt (the fourth);
    the errors of the earlier attempts are lost. *)
Theorem clientCall_wraps_last_error
    (key : string) (backend : BackendClient.Backend)
    (url method message : string) (eLast : JsError) :
  BackendClient.neverReturns BackendClient.DEFAULT_RETRY_OPTIONS backend ->
  ClientTrace.failsWith BackendClient.DEFAULT_RETRY_OPTIONS (backend 3%nat)
  = Some eLast ->
  (BackendClient.clientCall key backend url method message).1
  = Throw (BackendAPIError message None eLast).
Proof.
  intros Hnever Hlast.
  pose proof (retryLoop_last_error key backend
                BackendClient.DEFAULT_RETRY_OPTIONS url method eLast
                Hnever Hlast 3 0 None eq_refl) as H.
  unfold BackendClient.clientCall, BackendClient.fetchWithRetry.
  cbn [BackendClient.maxRetries BackendClient.DEFAULT_RETRY_OPTIONS] in *.
  destruct (BackendClient.retryLoop _ _ _ _ _ _ _ _) as [res trace].
  cbn [fst] in H. by rewrite H.
Qed.

Lemma clientCall_wraps_last_error_witness :
  (BackendClient.clientCall "" (Servers.unreachable (TypeError "fetch failed"))
     "https://api/v2/resources/x" "GET" "Failed to get resource details").1
  = Throw (BackendAPIError "Failed to get resource details" None
             (TypeError "fetch failed")).
Proof.
  apply clientCall_wraps_last_error.
  - intros i. exists (TypeError "fetch failed"). by right.
  - reflexivity.
Defined.

(** ** Resource detail endpoint: the id check and the success path *)

Section UuidFacts.
Import ResourceRoute UuidPattern.

Lemma isHexDigit_lowerUnit (c : ascii) :
  isHexDigit (lowerUnit c) = isHexDigit c.
Proof. destruct c as [[] [] [] [] [] [] [] []]; reflexivity. Qed.

Lemma isDash_lowerUnit (c : ascii) :
  Ascii.eqb (lowerUnit c) "-"%char = Ascii.eqb c "-"%char.
Proof. destruct c as [[] [] [] [] [] [] [] []]; reflexivity. Qed.

Lemma hexRun_caseBlind (n : nat) : caseBlind (hexRun n).
Proof.
  induction n as [|n IH]; intros s; [reflexivity|].
  destruct s as [|c s]; [reflexivity|]. cbn [toLowerCase hexRun].
  rewrite isHexDigit_lowerUnit. destruct (isHexDigit c); [apply IH|done].
Qed.

Lemma dash_caseBlind : caseBlind dash.
Proof.
  intros [|c s]; [reflexivity|]. cbn [toLowerCase dash].
  rewrite isDash_lowerUnit. by destruct (Ascii.eqb c "-"%char).
Qed.

Lemma bind_caseBlind (p q : string -> option string) :
  caseBlind p -> caseBlind q -> caseBlind (fun s => p s ≫= q).
Proof.
  intros Hp Hq s. rewrite Hp. destruct (p s) as [rest|]; [apply Hq|done].
Qed.

Lemma hexRun_consumes (n : nat) : consumes n (hexRun n).
Proof.
  induction n as [|n IH]; intros s rest; cbn [hexRun].
  - by intros [= ->].
  - destruct s as [|c s]; [done|]. destruct (isHexDigit c); [|done].
    intros H%IH. cbn. lia.
Qed.

Lemma dash_consumes : consumes 1 dash.
Proof.
  intros [|c s] rest; cbn [dash]; [done|].
  destruct (Ascii.eqb c "-"%char); [|done]. by intros [= ->].
Qed.

Lemma bind_consumes (j k : nat) (p q : string -> option string) :
  consumes j p -> consumes k q -> consumes (j + k) (fun s => p s ≫= q).
Proof.
  intros Hp Hq s rest. cbn. destruct (p s) as [mid|] eqn:Hmid; [|done].
  cbn. intros H%Hq. apply Hp in Hmid. lia.
Qed.

Lemma uuidRegex_test_body (id : string) :
  uuidRegex_test id
  = match uuidBody id with Some EmptyString => true | _ => false end.
Proof. reflexivity. Qed.

Lemma uuidBody_caseBlind : caseBlind uuidBody.
Proof.
  unfold uuidBody.
  repeat (apply bind_caseBlind;
          [first [apply hexRun_caseBlind|apply dash_caseBlind]|]).
  apply hexRun_caseBlind.
Qed.

Lemma uuidBody_consumes : consumes 36 uuidBody.
Proof.
  unfold uuidBody.
  change 36%nat with (8 + (1 + (4 + (1 + (4 + (1 + (4 + (1 + 12))))))))%nat.
  repeat (apply bind_consumes;
          [first [apply hexRun_consumes|apply dash_consumes]|]).
  apply hexRun_consumes.
Qed.

End UuidFacts.

(** X9: the id check accepts only strings of exactly 36 characters, and it
    is blind to letter case: an id and its lower-cased form are accepted or
    rejected alike. *)
Theorem uuidRegex_test_length_and_case (id : string) :
  (ResourceRoute.uuidRegex_test id = true -> String.length id = 36%nat)
  ∧ ResourceRoute.uuidRegex_test (toLowerCase id)
    = ResourceRoute.uuidRegex_test id.
Proof.
  rewrite !uuidRegex_test_body. split.
  - destruct (UuidPattern.uuidBody id) as [[|c rest]|] eqn:Hbody; try done.
    intros _. by apply uuidBody_consumes in Hbody.
  - rewrite uuidBody_caseBlind.
    destruct (UuidPattern.uuidBody id) as [[|c rest]|]; reflexivity.
Qed.

Lemma uuidRegex_test_length_and_case_witness :
  String.length "123E4567-E89B-12D3-A456-426614174000" = 36%nat.
Proof.
  apply (uuidRegex_test_length_and_case
           "123E4567-E89B-12D3-A456-426614174000").
  reflexivity.
Defined.

(** X10: an id that fails the check is answered 400 with the message
    [Invalid resource ID format (expected UUID)], and no request is sent to
    the backend, whatever the backend would have answered. *)
Theorem GET_resource_rejects_malformed_id
    (FASTAPI_URL FASTAPI_API_KEY : string)
    (backend : BackendClient.Backend) (id : string) :
  ResourceRoute.uuidRegex_test id = false ->
  let '(response, trace) :=
    ResourceRoute.GET FASTAPI_URL FASTAPI_API_KEY backend id in
  ResourceRoute.code response = 400
  ∧ ResourceRoute.body response
    = JObj [("error", JStr "Invalid resource ID format (expected UUID)")]
  ∧ trace = [].
Proof.
  intros H. unfold ResourceRoute.GET. rewrite H. repeat split; reflexivity.
Qed.

Lemma GET_resource_rejects_malformed_id_witness :
  let '(response, trace) :=
    ResourceRoute.GET "https://api" "secret"
      (BackendClient.always 200 "OK") "../../etc/passwd" in
  ResourceRoute.code response = 400
  ∧ ResourceRoute.body response
    = JObj [("error", JStr "Invalid resource ID format (expected UUID)")]
  ∧ trace = [].
Proof.
  apply (GET_resource_rejects_malformed_id "https://api" "secret"
           (BackendClient.always 200 "OK") "../../etc/passwd").
  reflexivity.
Defined.

(** X11: for a well-formed id, when the backend answers with a success
    carrying a JSON body other than [null], at once or after up to three
    failed attempts, the endpoint answers 200 with that body unchanged,
    having sent one request more than there were failures. *)
Theorem GET_resource_success
    (FASTAPI_URL FASTAPI_API_KEY : string)
    (backend : BackendClient.Backend) (id : string)
    (i : nat) (r : BackendClient.Response) (resource : JsValue) :
  ResourceRoute.uuidRegex_test id = true ->
  (i <= 3)%nat ->
  (∀ j, (j < i)%nat ->
        is_Some (ClientTrace.failsWith BackendClient.DEFAULT_RETRY_OPTIONS
                   (backend j))) ->
  backend i = BackendClient.Resolves r ->
  BackendClient.ok r = true ->
  BackendClient.json r = Some resource ->
  resource ≠ JNull ->
  let '(response, trace) :=
    ResourceRoute.GET FASTAPI_URL FASTAPI_API_KEY backend id in
  response = {| ResourceRoute.code := 200; ResourceRoute.body := resource |}
  ∧ BackendClient.attempts trace = S i.
Proof.
  intros Hid Hi Hfail Hres Hok Hjson Hnull.
  unfold ResourceRoute.GET. rewrite Hid. cbn [negb].
  unfold BackendClient.getResourceById, BackendClient.clientCall.
  unfold BackendClient.fetchWithRetry.
  assert (BackendClient.tryBlock BackendClient.DEFAULT_RETRY_OPTIONS
            (backend (0 + i)%nat) = BackendClient.Returned r) as Hret.
  { cbn. unfold BackendClient.tryBlock. by rewrite Hres, Hok. }
  pose proof (retryLoop_first_success FASTAPI_API_KEY backend
                BackendClient.DEFAULT_RETRY_OPTIONS
                (FASTAPI_URL ++ "/v2/resources/" ++ id) "GET" i r
                4 0 None eq_refl Hi Hfail Hret) as H.
  cbn [BackendClient.maxRetries BackendClient.DEFAULT_RETRY_OPTIONS].
  destruct (BackendClient.retryLoop _ _ _ _ _ _ _ _) as [res trace].
  destruct H as (-> & Hatt & _). rewrite Hjson.
  destruct resource; try done; (split; [reflexivity|exact Hatt]).
Qed.

Lemma GET_resource_success_witness :
  let '(response, trace) :=
    ResourceRoute.GET "https://api" ""
      (Servers.recovering 1 502
         (Servers.okJson (JObj [("name", JStr "Crisis Center")])))
      "123e4567-e89b-12d3-a456-426614174000" in
  response
  = {| ResourceRoute.code := 200;
       ResourceRoute.body := JObj [("name", JStr "Crisis Center")] |}
  ∧ BackendClient.attempts trace = 2%nat.
Proof.
  apply (GET_resource_success "https://api" ""
           (Servers.recovering 1 502
              (Servers.okJson (JObj [("name", JStr "Crisis Center")])))
           "123e4567-e89b-12d3-a456-426614174000" 1
           (Servers.okJson (JObj [("name", JStr "Crisis Center")]))
           (JObj [("name", JStr "Crisis Center")])).
  - reflexivity.
  - lia.
  - intros [|j] Hj; [vm_compute; eauto|lia].
  - reflexivity.
  - reflexivity.
  - reflexivity.
  - discriminate.
Defined.

(** ** Validator: what reaches the backend *)

(** X12: when no extracted service type names a property of
    [Object.prototype], the validated list has no duplicates, holds only
    codes of the canonical vocabulary, and holds exactly the codes that some
    extracted value is or is an alias of. *)
Theorem validate_yields_canonical_codes
    (r : LLMFilterExtractionResponse) (q : string) (codes : list string) :
  service_types (filters r) = Some (Code <$> codes) ->
  Forall (fun s => s ∉ Validator.Object_prototype_names) codes ->
  ∃ out,
    service_types (filters (Validator.validateExtractedFilters r q)) = Some out
    ∧ NoDup out
    ∧ (∀ t, t ∈ out ->
            ∃ c, t = Code c ∧ c ∈ Validator.VALID_SERVICE_TYPES)
    ∧ (∀ c, Code c ∈ out
            ↔ ∃ s, s ∈ codes ∧ Validator.correctedBySpec s = Some c).
Proof.
  intros Hr Hcodes.
  destruct (validate_as_specified r q codes Hr Hcodes) as [Hout Hnd].
  eexists. split; [exact Hout|]. split; [exact Hnd|].
  assert (Hmem : ∀ c,
    Code c ∈ Validator.distinct (Code <$> omap Validator.correctedBySpec codes)
    ↔ ∃ s, s ∈ codes ∧ Validator.correctedBySpec s = Some c).
  { intros c. rewrite elem_of_distinct, list_elem_of_fmap. split.
    - intros (c' & [= <-] & Hc). by apply list_elem_of_omap in Hc.
    - intros Hs. exists c. split; [done|]. by apply list_elem_of_omap. }
  split; [|exact Hmem].
  intros t Ht. pose proof Ht as Ht'.
  apply elem_of_distinct, list_elem_of_fmap in Ht' as (c & -> & Hc).
  exists c. split; [done|].
  apply list_elem_of_omap in Hc as (s & Hs & Hcs).
  unfold Validator.correctedBySpec in Hcs. case_bool_decide as Hv.
  - by injection Hcs as <-.
  - destruct (alias_is_canonical _ _ Hcs) as [Hvalid _].
    by apply bool_decide_eq_true in Hvalid.
Qed.

Lemma validate_yields_canonical_codes_witness :
  ∃ out,
    service_types
      (filters
         (Validator.validateExtractedFilters
            (Validator.responseWith "help"
               (Validator.withServiceTypes
                  ["therapy"; "counseling"; "bogus"; "detox"])) "help"))
    = Some out
    ∧ NoDup out
    ∧ (∀ t, t ∈ out ->
            ∃ c, t = Code c ∧ c ∈ Validator.VALID_SERVICE_TYPES)
    ∧ (∀ c, Code c ∈ out
            ↔ ∃ s, s ∈ ["therapy"; "counseling"; "bogus"; "detox"]
                   ∧ Validator.correctedBySpec s = Some c).
Proof.
  apply (validate_yields_canonical_codes
           (Validator.responseWith "help"
              (Validator.withServiceTypes
                 ["therapy"; "counseling"; "bogus"; "detox"])) "help"
           ["therapy"; "counseling"; "bogus"; "detox"]).
  - reflexivity.
  - repeat constructor;
      intros H%list_elem_of_In; simpl in H; intuition discriminate.
Defined.

(** X13: on every extraction in which no service type names a property of
    [Object.prototype], validating twice gives what validating once gives. *)
Theorem validate_idempotent_on_plain_codes
    (r : LLMFilterExtractionResponse) (q : string) (codes : list string) :
  service_types (filters r) = Some (Code <$> codes) ->
  Forall (fun s => s ∉ Validator.Object_prototype_names) codes ->
  Validator.validateExtractedFilters
    (Validator.validateExtractedFilters r q) q
  = Validator.validateExtractedFilters r q.
Proof.
  intros Hr Hcodes. apply validate_idempotent_without_leak.
  intros types Htypes. rewrite Hr in Htypes. injection Htypes as <-.
  by apply no_leak_without_inherited_names.
Qed.

Lemma validate_idempotent_on_plain_codes_witness :
  let r := Validator.responseWith "help"
             (Validator.withServiceTypes ["hotline"; "crisis_line"; "bogus"]) in
  Validator.validateExtractedFilters
    (Validator.validateExtractedFilters r "help") "help"
  = Validator.validateExtractedFilters r "help".
Proof.
  cbv zeta.
  apply (validate_idempotent_on_plain_codes _ "help"
           ["hotline"; "crisis_line"; "bogus"]).
  - reflexivity.
  - repeat constructor;
      intros H%list_elem_of_In; simpl in H; intuition discriminate.
Defined.

(** X14: validation touches nothing but [service_types] and [keywords]: the
    original query, explanation, confidence, metadata and every other filter
    pass through; and the keywords themselves are left as extracted unless
    service types were extracted, the corrected list is empty and the query
    non-empty: without extracted service types the result is the input. *)
Theorem validate_passes_other_fields_through
    (r : LLMFilterExtractionResponse) (q : string) :
  let r' := Validator.validateExtractedFilters r q in
  originalQuery r' = originalQuery r
  ∧ explanation r' = explanation r
  ∧ confidence r' = confidence r
  ∧ metadata r' = metadata r
  ∧ set_keywords None (set_service_types None (filters r'))
    = set_keywords None (set_service_types None (filters r))
  ∧ (∀ types t, service_types (filters r) = Some types ->
                t ∈ Validator.distinct (omap Validator.correct types) ->
                keywords (filters r') = keywords (filters r))
  ∧ (q = EmptyString -> keywords (filters r') = keywords (filters r))
  ∧ (service_types (filters r) = None -> r' = r).
Proof.
  cbv zeta. unfold Validator.validateExtractedFilters.
  destruct (service_types (filters r)) as [types|] eqn:Hst.
  - set (kept := Validator.distinct (omap Validator.correct types)).
    split; [reflexivity|]. split; [reflexivity|]. split; [reflexivity|].
    split; [reflexivity|]. split; [by destruct (_ && _)|].
    split; [|split; [|discriminate]].
    + intros types' t [= <-] Ht. fold kept in Ht.
      destruct kept as [|t0 kept']; [inversion Ht|].
      reflexivity.
    + intros ->. by rewrite andb_false_r.
  - repeat split; reflexivity.
Qed.

(** X15: an extraction whose service types are already distinct codes of the
    canonical vocabulary, at least one of them, is returned exactly as it
    came. *)
Theorem validate_fixes_canonical_extraction
    (r : LLMFilterExtractionResponse) (q : string) (codes : list string) :
  service_types (filters r) = Some (Code <$> codes) ->
  codes ≠ [] ->
  NoDup codes ->
  Forall (fun c => c ∈ Validator.VALID_SERVICE_TYPES) codes ->
  Validator.validateExtractedFilters r q = r.
Proof.
  intros Hr Hne Hnd Hvalid.
  rewrite (validate_present r q _ Hr). cbv zeta.
  assert (omap Validator.correct (Code <$> codes) = Code <$> codes) as Hc.
  { apply omap_correct_valid. apply Forall_fmap.
    eapply Forall_impl; [exact Hvalid|].
    intros c Hcv. cbn. by apply bool_decide_eq_true. }
  rewrite Hc, distinct_of_NoDup.
  - destruct codes as [|c codes]; [done|]. cbn [length fmap list_fmap].
    rewrite bool_decide_eq_false_2 by done. cbn [andb].
    destruct r as [oq f ex cf md]. cbn in Hr |- *.
    destruct f. cbn in Hr |- *. by rewrite Hr.
  - apply NoDup_fmap; [|exact Hnd]. by intros c1 c2 [= ->].
Qed.

Lemma validate_fixes_canonical_extraction_witness :
  let r := Validator.responseWith "rehab near me"
             (Validator.withServiceTypes ["detox"; "sud_inpatient"]) in
  Validator.validateExtractedFilters r "rehab near me" = r.
Proof.
  cbv zeta.
  apply (validate_fixes_canonical_extraction _ _ ["detox"; "sud_inpatient"]).
  - reflexivity.
  - discriminate.
  - apply NoDup_cons. split; [|apply NoDup_singleton].
    intros H%list_elem_of_singleton. discriminate.
  - repeat constructor; apply bool_decide_eq_true; vm_compute; reflexivity.
Defined.

(** ** Provider orchestration and the extraction endpoint *)

Section OrchestrationFacts.
Import LlmFallback Validator KeywordFallback ExtractRoute QueryShape.

Variable OPENAI_API_KEY : option string.
Variable ANTHROPIC_API_KEY : option string.
Variable openai_create : string -> Result ChatCompletion.
Variable anthropic_create : string -> Result Message.
Variable JSON_parse : string -> Result ParsedOutput.

Local Abbreviation OpenAI :=
  (OpenAIProvider OPENAI_API_KEY openai_create JSON_parse).
Local Abbreviation Anthropic :=
  (AnthropicProvider ANTHROPIC_API_KEY anthropic_create JSON_parse).

Lemma defaultExplanation_truthy (q : string) :
  stringTruthy (defaultExplanation q) = true.
Proof. reflexivity. Qed.

Lemma orDefault_truthy {A : Type} (isTruthy : A -> bool) (v : option A)
    (d : A) :
  isTruthy d = true -> isTruthy (orDefault isTruthy v d) = true.
Proof.
  intros Hd. unfold orDefault. destruct v as [a|]; [|exact Hd].
  by destruct (isTruthy a) eqn:Ha.
Qed.

(** What an adapter returns carries the query, a non-empty explanation and
    a confidence that is neither zero nor [NaN]. *)
Lemma OpenAI_extract_shape (q : string) (c : option Context)
    (r : LLMFilterExtractionResponse) :
  extract OpenAI q c = Ok r ->
  originalQuery r = q ∧ stringTruthy (explanation r) = true
  ∧ numberTruthy (confidence r) = true
  ∧ model (metadata r) = "gpt-4-turbo-preview".
Proof.
  cbn. destruct (configured OPENAI_API_KEY); [|done]. cbn.
  repeat case_match; try done. intros [= <-]. cbn.
  split; [done|]. split; [|split; [|done]].
  - by apply orDefault_truthy.
  - by apply orDefault_truthy.
Qed.

Lemma Anthropic_extract_shape (q : string) (c : option Context)
    (r : LLMFilterExtractionResponse) :
  extract Anthropic q c = Ok r ->
  originalQuery r = q ∧ stringTruthy (explanation r) = true
  ∧ numberTruthy (confidence r) = true
  ∧ model (metadata r) = "claude-3-5-sonnet-20241022".
Proof.
  cbn. destruct (configured ANTHROPIC_API_KEY); [|done]. cbn.
  repeat case_match; try done. intros [= <-]. cbn.
  split; [done|]. split; [|split; [|done]].
  - by apply orDefault_truthy.
  - by apply orDefault_truthy.
Qed.

(** A result of the orchestrator is the result of one of the two adapters. *)
Lemma extractFiltersWithFallback_Ok_from (q : string) (c : option Context)
    (r : LLMFilterExtractionResponse) :
  extractFiltersWithFallback OPENAI_API_KEY ANTHROPIC_API_KEY
    openai_create anthropic_create JSON_parse q c = Ok r ->
  extract OpenAI q c = Ok r ∨ extract Anthropic q c = Ok r.
Proof.
  unfold extractFiltersWithFallback. intros H.
  assert (∃ p, p ∈ configuredProviders OPENAI_API_KEY ANTHROPIC_API_KEY
                     openai_create anthropic_create JSON_parse
               ∧ extract p q c = Ok r) as (p & Hin & Hp).
  { destruct (configuredProviders _ _ _ _ _) eqn:Hps; [done|].
    by apply tryProviders_Ok in H. }
  rewrite configuredProviders_cases in Hin.
  apply elem_of_app in Hin as [Hin|Hin].
  - destruct (configured OPENAI_API_KEY); [|by apply elem_of_nil in Hin].
    apply list_elem_of_singleton in Hin as ->. by left.
  - destruct (configured ANTHROPIC_API_KEY); [|by apply elem_of_nil in Hin].
    apply list_elem_of_singleton in Hin as ->. by right.
Qed.

Lemma validate_originalQuery (r : LLMFilterExtractionResponse) (q : string) :
  originalQuery (validateExtractedFilters r q) = originalQuery r.
Proof.
  unfold validateExtractedFilters. by destruct (service_types (filters r)).
Qed.

(** *** What [trim] leaves of a query *)

Lemma isBlank_trimStart (s : string) : isBlank (trimStart s) = isBlank s.
Proof.
  induction s as [|ch s IH]; [done|]. cbn [trimStart].
  destruct (isWhiteSpace ch) eqn:Hch; [|done].
  rewrite IH. unfold isBlank. cbn. by rewrite Hch.
Qed.

Lemma trimStart_empty (s : string) :
  trimStart s = EmptyString ↔ isBlank s = true.
Proof.
  induction s as [|ch s IH]; [done|]. cbn [trimStart]. unfold isBlank. cbn.
  destruct (isWhiteSpace ch); [exact IH|]. split; discriminate.
Qed.

Lemma isBlank_reverse (s : string) : isBlank (reverse s) = isBlank s.
Proof.
  unfold isBlank, reverse. rewrite list_ascii_of_string_of_list_ascii.
  induction (list_ascii_of_string s) as [|ch l IH]; [done|].
  cbn [rev forallb]. rewrite forallb_app, IH. cbn.
  rewrite andb_true_r. apply andb_comm.
Qed.

Lemma reverse_empty (s : string) :
  reverse s = EmptyString ↔ s = EmptyString.
Proof.
  split; [|by intros ->]. unfold reverse. intros H.
  apply (f_equal list_ascii_of_string) in H.
  rewrite list_ascii_of_string_of_list_ascii in H. cbn in H.
  destruct s as [|ch s]; [done|]. cbn in H.
  by apply app_eq_nil in H as [_ ?].
Qed.

Lemma trim_empty (s : string) : trim s = EmptyString ↔ isBlank s = true.
Proof.
  unfold trim.
  rewrite reverse_empty, trimStart_empty, isBlank_reverse.
  by rewrite isBlank_trimStart.
Qed.

Lemma query_required (q : string) :
  negb (stringTruthy q) || (String.length (trim q) =? 0)%nat = isBlank q.
Proof.
  destruct (isBlank q) eqn:Hblank.
  - apply trim_empty in Hblank. rewrite Hblank. apply orb_true_r.
  - destruct q as [|ch q]; [done|]. cbn [stringTruthy negb orb].
    destruct (trim (String ch q)) eqn:Htrim; [|done].
    apply trim_empty in Htrim. congruence.
Qed.

End OrchestrationFacts.

(** X16: the outcome of the orchestrator, by cases on which keys are set.
    Without a key it throws [No LLM providers configured (missing API
    keys)]; with one key it does what that provider does; with both it
    returns what OpenAI returns, and when OpenAI throws it does what
    Anthropic does: a thrown error is always that of the last provider
    tried, and the error of OpenAI is lost when Anthropic is tried. *)
Theorem extractFiltersWithFallback_outcome
    (OPENAI_API_KEY ANTHROPIC_API_KEY : option string)
    (openai_create : string -> Result LlmFallback.ChatCompletion)
    (anthropic_create : string -> Result LlmFallback.Message)
    (JSON_parse : string -> Result LlmFallback.ParsedOutput)
    (query : string) (context : option LlmFallback.Context) :
  let openai :=
    LlmFallback.extract
      (LlmFallback.OpenAIProvider OPENAI_API_KEY openai_create JSON_parse)
      query context in
  let anthropic :=
    LlmFallback.extract
      (LlmFallback.AnthropicProvider ANTHROPIC_API_KEY anthropic_create
         JSON_parse)
      query context in
  LlmFallback.extractFiltersWithFallback OPENAI_API_KEY ANTHROPIC_API_KEY
    openai_create anthropic_create JSON_parse query context
  = match LlmFallback.configured OPENAI_API_KEY,
          LlmFallback.configured ANTHROPIC_API_KEY with
    | false, false =>
        Throw (Error "No LLM providers configured (missing API keys)")
    | true, false => openai
    | false, true => anthropic
    | true, true =>
        match openai with
        | Ok r => Ok r
        | Throw _ => anthropic
        end
    end.
Proof.
  cbv zeta. unfold LlmFallback.extractFiltersWithFallback.
  rewrite configuredProviders_cases.
  destruct (LlmFallback.configured OPENAI_API_KEY),
    (LlmFallback.configured ANTHROPIC_API_KEY);
    cbn [app LlmFallback.tryProviders]; try reflexivity.
  - destruct (LlmFallback.extract (LlmFallback.OpenAIProvider _ _ _) _ _);
      [reflexivity|].
    by destruct (LlmFallback.extract (LlmFallback.AnthropicProvider _ _ _) _ _).
  - by destruct (LlmFallback.extract (LlmFallback.OpenAIProvider _ _ _) _ _).
  - by destruct (LlmFallback.extract (LlmFallback.AnthropicProvider _ _ _) _ _).
Qed.

(** X17: whatever the services answer and however their output parses, a
    result of the orchestrator carries the query it was asked, an
    explanation that is not empty and a confidence that is neither zero nor
    [NaN] (a missing, empty or zero value is replaced by the default), and
    names the provider together with its own model. *)
Theorem provider_result_is_normalised
    (OPENAI_API_KEY ANTHROPIC_API_KEY : option string)
    (openai_create : string -> Result LlmFallback.ChatCompletion)
    (anthropic_create : string -> Result LlmFallback.Message)
    (JSON_parse : string -> Result LlmFallback.ParsedOutput)
    (query : string) (context : option LlmFallback.Context)
    (r : LLMFilterExtractionResponse) :
  LlmFallback.extractFiltersWithFallback OPENAI_API_KEY ANTHROPIC_API_KEY
    openai_create anthropic_create JSON_parse query context = Ok r ->
  originalQuery r = query
  ∧ stringTruthy (explanation r) = true
  ∧ numberTruthy (confidence r) = true
  ∧ ((provider (metadata r) = "openai"
      ∧ model (metadata r) = "gpt-4-turbo-preview")
     ∨ (provider (metadata r) = "anthropic"
        ∧ model (metadata r) = "claude-3-5-sonnet-20241022")).
Proof.
  intros [H|H]%extractFiltersWithFallback_Ok_from.
  - destruct (OpenAI_extract_shape _ _ _ _ _ _ H) as (Hq & He & Hc & Hm).
    destruct (OpenAI_extract_provider _ _ _ _ _ _ H) as [Hp _].
    repeat split; try done. by left.
  - destruct (Anthropic_extract_shape _ _ _ _ _ _ H) as (Hq & He & Hc & Hm).
    destruct (Anthropic_extract_provider _ _ _ _ _ _ H) as [Hp _].
    repeat split; try done. by right.
Qed.

Lemma provider_result_is_normalised_witness :
  ∃ r,
    LlmFallback.extractFiltersWithFallback (Some "sk-test") None
      (Services.openaiAnswers "{}") (Services.down (Error "unused"))
      (Services.parsesTo noFilters) "therapy near me" None = Ok r
    ∧ originalQuery r = "therapy near me"
    ∧ explanation r
      = LlmFallback.defaultExplanation "therapy near me"
    ∧ confidence r = JDec 7 (-1).
Proof.
  eexists. split; [reflexivity|].
  pose proof (provider_result_is_normalised (Some "sk-test") None
                (Services.openaiAnswers "{}") (Services.down (Error "unused"))
                (Services.parsesTo noFilters) "therapy near me" None _
                eq_refl) as (Hq & _).
  split; [exact Hq|]. split; reflexivity.
Defined.

(** X18: the extraction endpoint answers 400 [Query is required] exactly to
    the queries that consist of white space only, the empty one included;
    every other query is answered 200, with a result whose original query
    is the query as sent, untrimmed. *)
Theorem POST_rejects_exactly_blank_queries
    (OPENAI_API_KEY ANTHROPIC_API_KEY : option string)
    (openai_create : string -> Result LlmFallback.ChatCompletion)
    (anthropic_create : string -> Result LlmFallback.Message)
    (JSON_parse : string -> Result LlmFallback.ParsedOutput)
    (query : string) (context : option LlmFallback.Context) :
  ExtractRoute.POST OPENAI_API_KEY ANTHROPIC_API_KEY
    openai_create anthropic_create JSON_parse query context
  = (if QueryShape.isBlank query
     then {| ExtractRoute.code := 400;
             ExtractRoute.body := ExtractRoute.ErrorBody "Query is required" |}
     else {| ExtractRoute.code := 200;
             ExtractRoute.body :=
               ExtractRoute.ResultBody
                 (ExtractRoute.extractOrFallback OPENAI_API_KEY
                    ANTHROPIC_API_KEY openai_create anthropic_create
                    JSON_parse query context) |})
  ∧ originalQuery
      (ExtractRoute.extractOrFallback OPENAI_API_KEY ANTHROPIC_API_KEY
         openai_create anthropic_create JSON_parse query context)
    = query.
Proof.
  split.
  - unfold ExtractRoute.POST. by rewrite query_required.
  - unfold ExtractRoute.extractOrFallback.
    destruct (LlmFallback.extractFiltersWithFallback _ _ _ _ _ _ _)
      as [r|e] eqn:Hr.
    + rewrite validate_originalQuery.
      apply extractFiltersWithFallback_Ok_from in Hr as [H|H].
      * exact (proj1 (OpenAI_extract_shape _ _ _ _ _ _ H)).
      * exact (proj1 (Anthropic_extract_shape _ _ _ _ _ _ H)).
    + by rewrite validate_originalQuery.
Qed.

(** ** Keyword fallback *)

Section KeywordFacts.
Import KeywordFallback.

Lemma startsWith_spec (s t : string) :
  startsWith s t = true ↔ ∃ b, s = t ++ b.
Proof.
  revert s. induction t as [|p t IH]; intros [|ch s]; cbn.
  - split; [intros _; by eexists|done].
  - split; [intros _; by eexists|done].
  - split; [done|]. by intros [b Hb].
  - rewrite andb_true_iff, IH. split.
    + intros [Hp [b ->]]. apply Ascii.eqb_eq in Hp as ->. by exists b.
    + intros [b [= -> ->]]. split; [apply Ascii.eqb_refl|by exists b].
Qed.

Lemma includes_spec (s t : string) :
  includes s t = true ↔ ∃ a b, s = a ++ t ++ b.
Proof.
  induction s as [|ch s IH]; cbn [includes]; rewrite orb_true_iff.
  - rewrite startsWith_spec. split.
    + intros [[b Hb]|?]; [|done]. by exists EmptyString, b.
    + intros (a & b & Hab). left. destruct a; [by exists b|done].
  - rewrite startsWith_spec, IH. split.
    + intros [[b Hb]|(a & b & ->)]; [by exists EmptyString, b|].
      by exists (String ch a), b.
    + intros ([|ch' a] & b & Hab); [left; by exists b|].
      right. injection Hab as -> ->. by exists a, b.
Qed.

Lemma append_assoc (a b c : string) : (a ++ b) ++ c = a ++ b ++ c.
Proof.
  induction a as [|ch a IH]; [done|].
  change (String ch ((a ++ b) ++ c) = String ch (a ++ b ++ c)).
  by rewrite IH.
Qed.

(** A string that occurs in a substring occurs in the whole. *)
Lemma includes_trans (s t u : string) :
  includes s t = true -> includes t u = true -> includes s u = true.
Proof.
  rewrite !includes_spec. intros (a & b & ->) (a' & b' & ->).
  exists (a ++ a'), (b' ++ b). by rewrite !append_assoc.
Qed.

Lemma anyIncluded_inside (s word : string) (terms : list string) :
  includes s word = true ->
  anyIncluded word terms = true -> anyIncluded s terms = true.
Proof.
  intros Hword. unfold anyIncluded. rewrite !existsb_exists.
  intros (t & Hin & Ht). exists t. split; [done|].
  by apply (includes_trans s word t).
Qed.

Lemma lowerUnit_idemp (c : ascii) : lowerUnit (lowerUnit c) = lowerUnit c.
Proof. destruct c as [[] [] [] [] [] [] [] []]; reflexivity. Qed.

Lemma toLowerCase_idemp (s : string) :
  toLowerCase (toLowerCase s) = toLowerCase s.
Proof.
  induction s as [|ch s IH]; [done|]. cbn. by rewrite lowerUnit_idemp, IH.
Qed.

End KeywordFacts.

(** X19: the keyword fallback matches inside words.  As soon as the query,
    lower-cased, contains a word in which [men], [male] or [boys] occurs
    (such as [treatment] or [recommendation]), the extracted filters are
    gender-specific: female when [women], [female] or [girls] occurs in the
    query, male otherwise. *)
Theorem createBasicFilters_matches_inside_words (query word : string) :
  includes (toLowerCase query) word = true ->
  KeywordFallback.anyIncluded word ["men"; "male"; "boys"] = true ->
  gender_specific (filters (KeywordFallback.createBasicFilters query))
  = Some (if KeywordFallback.anyIncluded (toLowerCase query)
               ["women"; "female"; "girls"]
          then female else male).
Proof.
  intros Hword Hmale.
  pose proof (anyIncluded_inside _ _ _ Hword Hmale) as H.
  unfold KeywordFallback.createBasicFilters. cbv zeta.
  cbn [filters gender_specific]. rewrite H.
  by destruct (KeywordFallback.anyIncluded _ ["women"; "female"; "girls"]).
Qed.

Lemma createBasicFilters_matches_inside_words_witness :
  gender_specific
    (filters (KeywordFallback.createBasicFilters "Addiction Treatment"))
  = Some male.
Proof.
  apply (createBasicFilters_matches_inside_words
           "Addiction Treatment" "treatment"); reflexivity.
Defined.

(** X20: a query that mentions [crisis] or [emergency], in any letter case,
    gets all three urgency markers from the keyword fallback: the care phase
    [immediate_crisis], [has_crisis_services] and [urgentAccessOnly]. *)
Theorem createBasicFilters_crisis_terms (query : string) :
  KeywordFallback.anyIncluded (toLowerCase query) ["crisis"; "emergency"]
  = true ->
  let f := filters (KeywordFallback.createBasicFilters query) in
  care_phase f = Some immediate_crisis
  ∧ has_crisis_services f = Some true
  ∧ urgentAccessOnly f = Some true.
Proof.
  intros H. cbv zeta. unfold KeywordFallback.createBasicFilters. cbv zeta.
  cbn [filters care_phase has_crisis_services urgentAccessOnly].
  unfold KeywordFallback.anyIncluded in *. cbn [existsb] in *.
  rewrite orb_false_r in H.
  destruct (includes (toLowerCase query) "crisis") eqn:Hc,
    (includes (toLowerCase query) "emergency") eqn:He;
    try discriminate; cbn; rewrite ?orb_true_r; done.
Qed.

Lemma createBasicFilters_crisis_terms_witness :
  let f := filters (KeywordFallback.createBasicFilters "EMERGENCY shelter") in
  care_phase f = Some immediate_crisis
  ∧ has_crisis_services f = Some true
  ∧ urgentAccessOnly f = Some true.
Proof.
  apply (createBasicFilters_crisis_terms "EMERGENCY shelter"). reflexivity.
Defined.

(** X21: for every query, the filters of the keyword fallback carry an
    opt-in flag only as [true] ([has_crisis_services], [walk_ins_accepted]
    and [referral_required] are never [false]) while [urgentAccessOnly] is
    always present; no service type, location, insurance, language or age
    group is ever extracted; and, the keywords apart, the filters depend on
    the query only up to letter case. *)
Theorem createBasicFilters_shape (query : string) :
  let f := filters (KeywordFallback.createBasicFilters query) in
  has_crisis_services f ≠ Some false
  ∧ walk_ins_accepted f ≠ Some false
  ∧ referral_required f ≠ Some false
  ∧ is_Some (urgentAccessOnly f)
  ∧ service_types f = None ∧ location f = None ∧ insurance f = None
  ∧ languages f = None ∧ age_groups f = None
  ∧ set_keywords None f
    = set_keywords None
        (filters (KeywordFallback.createBasicFilters (toLowerCase query))).
Proof.
  cbv zeta. unfold KeywordFallback.createBasicFilters. cbv zeta.
  rewrite toLowerCase_idemp.
  cbn [filters has_crisis_services walk_ins_accepted referral_required
       urgentAccessOnly service_types location insurance languages
       age_groups].
  unfold KeywordFallback.orUndefined.
  split; [by destruct (KeywordFallback.anyIncluded _ _)|].
  split; [by destruct (KeywordFallback.anyIncluded _ _)|].
  split; [by destruct (KeywordFallback.anyIncluded _ _)|].
  split; [by eexists|].
  repeat (split; [reflexivity|]). reflexivity.
Qed.

(** ** URL serialization: scalar fields *)

Section ScalarRoundTrip.
Import FilterUtils UrlFields.

Variable JSON_stringify : JsValue -> string.
Variable JSON_parse : string -> option JsValue.

Lemma getAll_without_own (key : string) (ps : URLSearchParams) :
  getAll key (List.filter (fun kv => negb (String.eqb (fst kv) key)) ps) = [].
Proof.
  induction ps as [|[k v] ps IH]; [done|]. cbn [List.filter fst].
  destruct (String.eqb_spec k key) as [->|Hne]; cbn [negb]; [exact IH|].
  by rewrite (getAll_cons_ne _ _ _ _ Hne).
Qed.

(** After [set], the key has the one value. *)
Lemma getAll_set_eq (key value : string) (ps : URLSearchParams) :
  getAll key (set key value ps) = [value].
Proof.
  induction ps as [|[k v] ps IH]; cbn [set].
  - by rewrite getAll_cons_eq.
  - destruct (String.eqb_spec k key) as [->|Hne].
    + by rewrite getAll_cons_eq, getAll_without_own.
    + by rewrite (getAll_cons_ne _ _ _ _ Hne).
Qed.

Lemma serializeEntry_written (key : string) (v : JsValue) (s : string)
    (ps : URLSearchParams) :
  written JSON_stringify v = Some s ->
  ∃ ps', serializeEntry JSON_stringify (key, v) ps = Ok ps'
         ∧ getAll key ps' = [s].
Proof.
  destruct v; cbn; try done; intros [= <-]; eexists;
    (split; [reflexivity|apply getAll_set_eq]).
Qed.

Lemma serializeEntry_skipped (key : string) (v : JsValue)
    (ps : URLSearchParams) :
  v = JUndefined ∨ v = JNull ∨ v = JArr [] ->
  serializeEntry JSON_stringify (key, v) ps = Ok ps.
Proof. by intros [->|[->| ->]]. Qed.

Lemma serializeEntries_field (key : string) (v : JsValue)
    (entries : list (string * JsValue)) (ps ps' : URLSearchParams) :
  NoDup entries.*1 ->
  (key, v) ∈ entries ->
  serializeEntries JSON_stringify entries ps = Ok ps' ->
  (∀ s, written JSON_stringify v = Some s -> getAll key ps' = [s])
  ∧ (v = JUndefined ∨ v = JNull ∨ v = JArr [] ->
     getAll key ps' = getAll key ps).
Proof.
  revert ps. induction entries as [|[k w] entries IH];
    intros ps Hnd Hin; cbn [serializeEntries].
  - by apply elem_of_nil in Hin.
  - cbn in Hnd. apply NoDup_cons in Hnd as [Hk Hnd].
    apply elem_of_cons in Hin as [[= <- <-]|Hin].
    + intros H. split.
      * intros s Hs.
        destruct (serializeEntry_written key v s ps Hs) as (ps1 & H0 & H1).
        rewrite H0 in H.
        apply (serializeEntries_other _ key) in H; [|done].
        by rewrite H.
      * intros Hv. rewrite (serializeEntry_skipped key v ps Hv) in H.
        by apply (serializeEntries_other _ key) in H.
    + assert (k ≠ key) as Hne.
      { intros ->. apply Hk.
        apply (list_elem_of_fmap_2 fst) in Hin. exact Hin. }
      destruct (serializeEntry JSON_stringify (k, w) ps) as [ps1|e] eqn:H1;
        [|done].
      intros H. destruct (IH ps1 Hnd Hin H) as [Hw Hs].
      split; [exact Hw|].
      intros Hv. rewrite (Hs Hv).
      by apply (serializeEntry_other JSON_stringify key k w).
Qed.

Lemma parseScalar_boolean (b : bool) :
  parseScalar JSON_parse (Boolean_toString b) = JBool b.
Proof. by destruct b. Qed.

End ScalarRoundTrip.

(** X22: the URL round trip of the fields that are not arrays, for every
    filter object.  A field that is [undefined], [null] or an empty array
    is absent afterwards.  A primitive comes back as what its string parses
    to: a boolean as itself, a string as itself when it is plain (it looks
    like neither JSON text, a boolean nor a number), and the number [NaN]
    as the string [NaN].  An object comes back as itself when its JSON text
    parses back to it. *)
Theorem url_roundtrip_of_scalar_fields
    (JSON_stringify : JsValue -> string)
    (JSON_parse : string -> option JsValue)
    (filters : list (string * JsValue))
    (params : FilterUtils.URLSearchParams) :
  NoDup filters.*1 ->
  FilterUtils.toURLParams JSON_stringify filters = Ok params ->
  (∀ key v, (key, v) ∈ filters ->
            v = JUndefined ∨ v = JNull ∨ v = JArr [] ->
            FilterUtils.fromURLParams JSON_parse params !! key = None)
  ∧ (∀ key b, (key, JBool b) ∈ filters ->
              FilterUtils.fromURLParams JSON_parse params !! key
              = Some (JBool b))
  ∧ (∀ key s, (key, JStr s) ∈ filters ->
              FilterUtils.fromURLParams JSON_parse params !! key
              = Some (FilterUtils.parseScalar JSON_parse s)
              ∧ (FilterUtils.isPlainString s = true ->
                 FilterUtils.fromURLParams JSON_parse params !! key
                 = Some (JStr s)))
  ∧ (∀ key, (key, JNum JNaN) ∈ filters ->
            FilterUtils.fromURLParams JSON_parse params !! key
            = Some (JStr "NaN"))
  ∧ (∀ key props, (key, JObj props) ∈ filters ->
                  startsWith (JSON_stringify (JObj props)) "{" = true ->
                  JSON_parse (JSON_stringify (JObj props))
                  = Some (JObj props) ->
                  FilterUtils.fromURLParams JSON_parse params !! key
                  = Some (JObj props)).
Proof.
  intros Hnd Hser. unfold FilterUtils.toURLParams in Hser.
  assert (Hone : ∀ key v s, (key, v) ∈ filters ->
            UrlFields.written JSON_stringify v = Some s ->
            FilterUtils.fromURLParams JSON_parse params !! key
            = Some (FilterUtils.parseScalar JSON_parse s)).
  { intros key v s Hin Hs. rewrite fromURLParams_lookup.
    destruct (serializeEntries_field JSON_stringify key v filters [] params
                Hnd Hin Hser) as [Hw _].
    by rewrite (Hw s Hs). }
  split; [|split; [|split; [|split]]].
  - intros key v Hin Hv. rewrite fromURLParams_lookup.
    destruct (serializeEntries_field JSON_stringify key v filters [] params
                Hnd Hin Hser) as [_ Hs].
    by rewrite (Hs Hv).
  - intros key b Hin. rewrite (Hone key (JBool b) _ Hin eq_refl).
    by rewrite parseScalar_boolean.
  - intros key s Hin. rewrite (Hone key (JStr s) _ Hin eq_refl).
    split; [done|]. intros Hplain. by rewrite parseScalar_plain.
  - intros key Hin. by rewrite (Hone key (JNum JNaN) _ Hin eq_refl).
  - intros key props Hin Hbrace Hparse.
    rewrite (Hone key (JObj props) _ Hin eq_refl).
    unfold FilterUtils.parseScalar. by rewrite Hbrace, Hparse.
Qed.

Lemma url_roundtrip_of_scalar_fields_witness :
  let parse : string -> option JsValue := fun _ => None in
  let params := [("keywords", "food bank"); ("verified_only", "false")] in
  FilterUtils.fromURLParams parse params !! "care_phase" = None
  ∧ FilterUtils.fromURLParams parse params !! "verified_only"
    = Some (JBool false)
  ∧ FilterUtils.fromURLParams parse params !! "keywords"
    = Some (JStr "food bank").
Proof.
  cbv zeta.
  pose proof (url_roundtrip_of_scalar_fields
                (fun _ => EmptyString) (fun _ => None)
                [("keywords", JStr "food bank"); ("care_phase", JUndefined);
                 ("verified_only", JBool false)]
                [("keywords", "food bank"); ("verified_only", "false")]) as H.
  destruct H as (Hnone & Hbool & Hstr & _).
  - cbn. repeat (apply NoDup_cons; split;
                 [intros Hin%list_elem_of_In; simpl in Hin;
                  intuition discriminate|]).
    apply NoDup_nil_2.
  - reflexivity.
  - split; [|split].
    + apply (Hnone "care_phase" JUndefined); [right; left|by left].
    + apply (Hbool "verified_only" false). right; right; left.
    + apply (Hstr "keywords" "food bank"); [left|reflexivity].
Defined.

(** ** Search endpoint *)

Section SearchFacts.
Import BackendClient FilterUtils SearchRoute.

(** *** The object [params] *)

Lemma param_assign_eq (k : string) (v : JsValue) (ps : Params) :
  param (assign k v ps) k = v.
Proof.
  unfold param, ownProp. induction ps as [|[k' v'] ps IH]; cbn.
  - by rewrite String.eqb_refl.
  - destruct (String.eqb_spec k' k) as [->|Hne]; cbn.
    + by rewrite String.eqb_refl.
    + by rewrite (proj2 (String.eqb_neq k' k) Hne).
Qed.

Lemma param_assign_ne (k k' : string) (v : JsValue) (ps : Params) :
  k' ≠ k -> param (assign k' v ps) k = param ps k.
Proof.
  intros Hne. unfold param, ownProp.
  induction ps as [|[k0 v0] ps IH]; cbn.
  - by rewrite (proj2 (String.eqb_neq k' k) Hne).
  - destruct (String.eqb_spec k0 k') as [->|Hne0]; cbn.
    + by rewrite (proj2 (String.eqb_neq k' k) Hne).
    + destruct (String.eqb k0 k); [done|exact IH].
Qed.

(** *** The statements of the transformer *)

Lemma fold_run_Throw (filters : string -> JsValue) (e : JsError)
    (l : list (string * ((string -> JsValue) -> Result (option JsValue)))) :
  fold_left (run filters) l (Throw e) = Throw e.
Proof. induction l as [|st l IH]; [done|exact IH]. Qed.

(** A statement that throws makes the transformer throw. *)
Lemma fold_run_throws (filters : string -> JsValue)
    (l : list (string * ((string -> JsValue) -> Result (option JsValue))))
    (st : string * ((string -> JsValue) -> Result (option JsValue)))
    (e : JsError) (acc : Result Params) :
  st ∈ l -> st.2 filters = Throw e ->
  isThrow (fold_left (run filters) l acc) = true.
Proof.
  intros Hin Hst. revert acc.
  induction l as [|st' l IH]; intros acc; [by apply elem_of_nil in Hin|].
  cbn [fold_left]. apply elem_of_cons in Hin as [<-|Hin]; [|by apply IH].
  destruct acc as [ps|e']; cbn.
  - rewrite Hst. cbn. by rewrite fold_run_Throw.
  - by rewrite fold_run_Throw.
Qed.

(** When the transformer returns, each parameter holds what its statement
    computed, and is absent when the statement assigned nothing. *)
Lemma fold_run_Ok (filters : string -> JsValue)
    (l : list (string * ((string -> JsValue) -> Result (option JsValue))))
    (ps0 ps : Params) :
  NoDup l.*1 ->
  fold_left (run filters) l (Ok ps0) = Ok ps ->
  (∀ st, st ∈ l ->
         ∃ v, st.2 filters = Ok v
              ∧ param ps st.1 = default (param ps0 st.1) v)
  ∧ (∀ k, k ∉ l.*1 -> param ps k = param ps0 k).
Proof.
  revert ps0. induction l as [|[k0 stmt] l IH]; intros ps0 Hnd Hrun.
  - cbn in Hrun. injection Hrun as <-. split; [|done].
    intros st Hin. by apply elem_of_nil in Hin.
  - cbn in Hnd. apply NoDup_cons in Hnd as [Hk0 Hnd].
    cbn [fold_left] in Hrun. unfold run at 2 in Hrun. cbn in Hrun.
    destruct (stmt filters) as [v|e] eqn:Hstmt; cbn in Hrun;
      [|by rewrite fold_run_Throw in Hrun].
    destruct (IH _ Hnd Hrun) as [Hin Hout]. split.
    + intros st [->|Hst]%elem_of_cons.
      * exists v. split; [done|]. cbn. rewrite (Hout k0 Hk0).
        destruct v as [x|]; [apply param_assign_eq|done].
      * destruct (Hin st Hst) as (w & Hw & Hp). exists w. split; [done|].
        rewrite Hp. destruct w as [y|]; [done|]. cbn.
        destruct v as [x|]; [|done]. apply param_assign_ne.
        intros ->. apply Hk0. by apply (list_elem_of_fmap_2 fst) in Hst.
    + intros k Hk. cbn in Hk. apply not_elem_of_cons in Hk as [Hne Hk].
      rewrite (Hout k Hk). destruct v as [x|]; [|done].
      by apply param_assign_ne.
Qed.

Lemma statements_NoDup : NoDup statements.*1.
Proof.
  cbn. repeat (apply NoDup_cons; split;
               [intros Hin%list_elem_of_In; simpl in Hin;
                intuition discriminate|]).
  apply NoDup_nil_2.
Qed.

(** *** Values of the query string *)

Lemma ToString_strings (values : list string) :
  ToString (JArr (JStr <$> values)) = Some (join "," values).
Proof.
  cbn [ToString].
  match goal with
  | |- ?go (JStr <$> values) ≫= _ = _ =>
      assert (∀ vs, go (JStr <$> vs) = Some vs) as H
  end.
  { induction vs as [|v vs IH]; [done|].
    cbn [fmap list_fmap]. cbn [fmap list_fmap] in IH. by rewrite IH. }
  by rewrite H.
Qed.

Lemma isPlainString_truthy (value : string) :
  isPlainString value = true -> stringTruthy value = true.
Proof. by destruct value. Qed.

Lemma join_two_truthy (sep v1 v2 : string) (vs : list string) :
  stringTruthy sep = true ->
  stringTruthy (join sep (v1 :: v2 :: vs)) = true.
Proof.
  intros Hsep. cbn [join]. destruct v1; [|done].
  destruct sep; [done|]. reflexivity.
Qed.

End SearchFacts.

Section SearchRouteFacts.
Import BackendClient FilterUtils SearchRoute.

Variable FASTAPI_URL : string.
Variable FASTAPI_API_KEY : string.
Variable backend : Backend.
Variable JSON_parse : string -> option JsValue.
Variable toQueryString : list (string * string) -> string.
Variable transformBackendSearchResponse : JsValue -> Result JsValue.

Lemma readFilter_own (filters : gmap string JsValue) (name : string)
    (v : JsValue) :
  filters !! name = Some v -> readFilter filters name = v.
Proof. intros H. unfold readFilter. by rewrite H. Qed.

(** A parameter given once with a plain value is a string in [filters]. *)
Lemma readFilter_single (searchParams : URLSearchParams)
    (name value : string) :
  getAll name searchParams = [value] ->
  readFilter (fromURLParams JSON_parse searchParams) name
  = parseScalar JSON_parse value.
Proof.
  intros Hall. apply readFilter_own.
  by rewrite fromURLParams_lookup, Hall.
Qed.

(** A parameter given several times is the array of its values. *)
Lemma readFilter_repeated (searchParams : URLSearchParams)
    (name : string) (values : list string) :
  getAll name searchParams = values -> (2 <= length values)%nat ->
  readFilter (fromURLParams JSON_parse searchParams) name
  = JArr (JStr <$> values).
Proof.
  intros Hall Hlen. apply readFilter_own.
  rewrite fromURLParams_lookup, Hall.
  destruct values as [|v1 [|v2 vs]]; [simpl in Hlen; lia..|done].
Qed.

(** A parameter that is not given, in a query string without [__proto__],
    is [undefined] in [filters]. *)
Lemma readFilter_absent (searchParams : URLSearchParams) (name : string) :
  getAll name searchParams = [] ->
  getAll "__proto__" searchParams = [] ->
  readFilter (fromURLParams JSON_parse searchParams) name = JUndefined.
Proof.
  intros Hall Hproto. unfold readFilter.
  by rewrite !fromURLParams_lookup, Hall, Hproto.
Qed.

(** [join] is not a method of a string. *)
Lemma joined_string_throws (what value : string) :
  stringTruthy value = true ->
  ∃ e, joined what (JStr value) = Throw e.
Proof.
  intros Hv. unfold joined. destruct value as [|ch value]; [done|].
  cbn. eauto.
Qed.

Lemma joined_repeated (what : string) (values : list string) :
  values ≠ [] ->
  joined what (JArr (JStr <$> values)) = Ok (Some (JStr (join "," values))).
Proof.
  intros Hne. unfold joined.
  assert (truthy (lengthOf (JArr (JStr <$> values))) = true) as ->.
  { destruct values; [done|]. reflexivity. }
  unfold joinCall. by rewrite ToString_strings.
Qed.

(** The statement of each list-valued filter. *)
Lemma list_statement (name pname : string) :
  (name, pname) ∈ [("service_types", "service_types");
                   ("insurance", "insurance_types");
                   ("languages", "languages");
                   ("age_groups", "age_groups")] ->
  ∃ st, st ∈ statements ∧ st.1 = pname
        ∧ ∀ filters, st.2 filters = joined name (filters name).
Proof.
  intros Hin%list_elem_of_In. simpl in Hin.
  exists (pname, fun filters => joined name (filters name)).
  split; [|split; [reflexivity|intros filters; reflexivity]].
  destruct Hin as [[= <- <-]|[[= <- <-]|[[= <- <-]|[[= <- <-]|[]]]]];
    apply list_elem_of_In; simpl;
    repeat first [left; reflexivity | right].
Qed.

Lemma withDefault_other (ps : Params) (k : string) :
  k ≠ "query" -> k ≠ "service_types" ->
  param (withDefault ps) k = param ps k.
Proof.
  intros Hq Hs. unfold withDefault.
  destruct (_ && _); [|done].
  destruct (isString _ _); by rewrite param_assign_ne.
Qed.

(** An error of the client carries the message of [searchResources] and no
    status code. *)
Lemma searchResources_error (ps : Params) (e : JsError) :
  (searchResources FASTAPI_URL FASTAPI_API_KEY backend toQueryString ps).1
  = Throw e ->
  ∃ cause, e = BackendAPIError "Failed to search resources" None cause.
Proof.
  unfold searchResources. destruct (stringEntries ps) as [entries|].
  - unfold BackendClient.searchResources.
    apply clientCall_error_has_no_status.
  - cbn. intros [= <-]. eauto.
Qed.

(** What the [catch] clauses answer. *)
Lemma failed_other (e : JsError) :
  (∀ message statusCode cause,
     e ≠ BackendAPIError message statusCode cause) ->
  code (failed e) ∈ [200; 400; 500]
  ∧ ∀ details statusCode,
      body (failed e) = BackendFailed details statusCode ->
      details = "Failed to search resources" ∧ statusCode = None
      ∧ code (failed e) = 500.
Proof.
  intros He. destruct e as [m|m|m|m s c]; cbn.
  - split; [right; right; left|done].
  - split; [right; right; left|done].
  - split; [right; right; left|done].
  - by destruct (He m s c).
Qed.

Lemma failed_client (cause : JsError) :
  let e := BackendAPIError "Failed to search resources" None cause in
  code (failed e) ∈ [200; 400; 500]
  ∧ ∀ details statusCode,
      body (failed e) = BackendFailed details statusCode ->
      details = "Failed to search resources" ∧ statusCode = None
      ∧ code (failed e) = 500.
Proof.
  cbn. split; [right; right; left|]. by intros details statusCode [= <- <-].
Qed.

End SearchRouteFacts.

(** X23: a list-valued filter given once in the query string makes the
    search fail.  For each of [service_types], [insurance], [languages] and
    [age_groups]: when the parameter occurs exactly once, with a plain
    value, in a request that passes the check for location or keywords, the
    value reaches the transformer as a string, on which [join] is not a
    function; the endpoint answers 500 [Failed to transform filters] and
    sends nothing to the backend. *)
Theorem GET_search_single_list_value_fails
    (FASTAPI_URL FASTAPI_API_KEY : string) (backend : BackendClient.Backend)
    (JSON_parse : string -> option JsValue)
    (toQueryString : list (string * string) -> string)
    (transformBackendSearchResponse : JsValue -> Result JsValue)
    (searchParams : FilterUtils.URLSearchParams) (name value : string) :
  let filters := FilterUtils.fromURLParams JSON_parse searchParams in
  name ∈ ["service_types"; "insurance"; "languages"; "age_groups"] ->
  FilterUtils.getAll name searchParams = [value] ->
  FilterUtils.isPlainString value = true ->
  truthy (SearchRoute.readFilter filters "location")
  || truthy (SearchRoute.readFilter filters "keywords") = true ->
  ∃ details,
    SearchRoute.GET FASTAPI_URL FASTAPI_API_KEY backend JSON_parse
      toQueryString transformBackendSearchResponse searchParams
    = ({| SearchRoute.code := 500;
          SearchRoute.body := SearchRoute.TransformFailed details filters |},
       []).
Proof.
  cbv zeta. intros Hname Hall Hplain Hguard.
  assert (∃ pname,
    (name, pname) ∈ [("service_types", "service_types");
                     ("insurance", "insurance_types");
                     ("languages", "languages");
                     ("age_groups", "age_groups")]) as [pname Hpair].
  { apply list_elem_of_In in Hname. simpl in Hname.
    destruct Hname as [<-|[<-|[<-|[<-|[]]]]]; eexists;
      apply list_elem_of_In; simpl; eauto 6. }
  destruct (list_statement name pname Hpair) as (st & Hst & _ & Hrun).
  set (filters := FilterUtils.fromURLParams JSON_parse searchParams) in *.
  assert (∃ e, st.2 (SearchRoute.readFilter filters) = Throw e) as [e He].
  { rewrite Hrun. unfold filters.
    rewrite (readFilter_single JSON_parse searchParams name value Hall).
    rewrite parseScalar_plain by done.
    apply joined_string_throws. by apply isPlainString_truthy. }
  pose proof (fold_run_throws (SearchRoute.readFilter filters)
                SearchRoute.statements st e (Ok []) Hst He) as Hthrow.
  unfold SearchRoute.GET. fold filters.
  rewrite <- negb_orb, Hguard. cbn [negb].
  unfold SearchRoute.backendParamsOf.
  unfold SearchRoute.transformFiltersToBackendParams.
  destruct (fold_left _ _ _) as [ps|e']; [done|]. cbn. eauto.
Qed.

Lemma GET_search_single_list_value_fails_witness :
  ∃ details,
    SearchRoute.GET "https://api" "secret"
      (BackendClient.always 200 "OK") (fun _ => None)
      SearchRoute.plainQueryString SearchRoute.passOn
      [("keywords", "counseling"); ("service_types", "crisis_line")]
    = ({| SearchRoute.code := 500;
          SearchRoute.body :=
            SearchRoute.TransformFailed details
              (FilterUtils.fromURLParams (fun _ => None)
                 [("keywords", "counseling");
                  ("service_types", "crisis_line")]) |},
       []).
Proof.
  apply (GET_search_single_list_value_fails "https://api" "secret"
           (BackendClient.always 200 "OK") (fun _ => None)
           SearchRoute.plainQueryString SearchRoute.passOn
           [("keywords", "counseling"); ("service_types", "crisis_line")]
           "service_types" "crisis_line").
  - left.
  - reflexivity.
  - reflexivity.
  - vm_compute. reflexivity.
Defined.

(** X24: a list-valued filter given two or more times in the query string
    reaches the backend parameters as its values joined by commas, in the
    order of the query string ([insurance] under the name
    [insurance_types]), whenever the transformer returns. *)
Theorem search_repeated_list_values_are_joined
    (JSON_parse : string -> option JsValue)
    (searchParams : FilterUtils.URLSearchParams)
    (name pname : string) (values : list string) (ps : SearchRoute.Params) :
  (name, pname) ∈ [("service_types", "service_types");
                   ("insurance", "insurance_types");
                   ("languages", "languages");
                   ("age_groups", "age_groups")] ->
  FilterUtils.getAll name searchParams = values ->
  (2 <= length values)%nat ->
  SearchRoute.backendParamsOf
    (SearchRoute.readFilter (FilterUtils.fromURLParams JSON_parse searchParams))
  = Ok ps ->
  SearchRoute.param ps pname = JStr (join "," values).
Proof.
  intros Hpair Hall Hlen Hps.
  destruct (list_statement name pname Hpair) as (st & Hst & Hname & Hrun).
  unfold SearchRoute.backendParamsOf in Hps.
  destruct (SearchRoute.transformFiltersToBackendParams _) as [ps0|e] eqn:Htr;
    [|done].
  cbn in Hps. injection Hps as <-.
  destruct (fold_run_Ok _ _ _ _ statements_NoDup Htr) as [Hin _].
  destruct (Hin st Hst) as (v & Hv & Hparam).
  rewrite Hrun, (readFilter_repeated JSON_parse _ _ _ Hall Hlen) in Hv.
  rewrite joined_repeated in Hv by (destruct values; simpl in *; [lia|done]).
  injection Hv as <-. rewrite Hname in Hparam. cbn in Hparam.
  destruct values as [|v1 [|v2 vs]]; [simpl in Hlen; lia..|].
  apply list_elem_of_In in Hpair. simpl in Hpair.
  destruct Hpair as [[= <- <-]|[[= <- <-]|[[= <- <-]|[[= <- <-]|[]]]]].
  - unfold SearchRoute.withDefault. rewrite Hparam.
    cbn [truthy]. rewrite join_two_truthy by done.
    by rewrite andb_false_r.
  - by rewrite withDefault_other.
  - by rewrite withDefault_other.
  - by rewrite withDefault_other.
Qed.

Lemma search_repeated_list_values_are_joined_witness :
  ∃ ps,
    SearchRoute.backendParamsOf
      (SearchRoute.readFilter
         (FilterUtils.fromURLParams (fun _ => None)
            [("keywords", "housing"); ("insurance", "medicaid");
             ("verified_only", "true"); ("insurance", "medicare")]))
    = Ok ps
    ∧ SearchRoute.param ps "insurance_types" = JStr "medicaid,medicare".
Proof.
  eexists. split; [vm_compute; reflexivity|].
  apply (search_repeated_list_values_are_joined (fun _ => None)
           [("keywords", "housing"); ("insurance", "medicaid");
            ("verified_only", "true"); ("insurance", "medicare")]
           "insurance" "insurance_types" ["medicaid"; "medicare"]).
  - right; left.
  - reflexivity.
  - simpl; lia.
  - vm_compute. reflexivity.
Defined.

(** X25: the parameters the handler passes to the backend client always
    carry a [query] or a [service_types] that is not falsy.  When the
    transformer set one of the two, the handler passes its parameters on
    as they are, and keywords that are not falsy are the query.  When it set
    neither, the handler adds one default and changes nothing else: for the
    care phase [immediate_crisis] the service types
    [crisis_line,crisis_text,crisis_chat,crisis_mobile,crisis_walk_in,suicide_prevention],
    and for any other care phase, or none, the query
    [mental health support]. *)
Theorem search_backend_params_have_query_or_service_types
    (filters : string -> JsValue) (ps : SearchRoute.Params) :
  SearchRoute.backendParamsOf filters = Ok ps ->
  truthy (SearchRoute.param ps "query")
  || truthy (SearchRoute.param ps "service_types") = true
  ∧ (truthy (filters "keywords") = true ->
     SearchRoute.param ps "query" = filters "keywords")
  ∧ ∃ ps0,
      SearchRoute.transformFiltersToBackendParams filters = Ok ps0
      ∧ (∀ k, k ≠ "query" -> k ≠ "service_types" ->
              SearchRoute.param ps k = SearchRoute.param ps0 k)
      ∧ (truthy (SearchRoute.param ps0 "query")
         || truthy (SearchRoute.param ps0 "service_types") = true ->
         ps = ps0)
      ∧ (truthy (SearchRoute.param ps0 "query")
         || truthy (SearchRoute.param ps0 "service_types") = false ->
         if SearchRoute.isString (SearchRoute.param ps0 "care_phase")
              "immediate_crisis"
         then SearchRoute.param ps "service_types"
              = JStr "crisis_line,crisis_text,crisis_chat,crisis_mobile,crisis_walk_in,suicide_prevention"
              ∧ SearchRoute.param ps "query" = SearchRoute.param ps0 "query"
         else SearchRoute.param ps "query" = JStr "mental health support"
              ∧ SearchRoute.param ps "service_types"
                = SearchRoute.param ps0 "service_types")
      ∧ (SearchRoute.isString (SearchRoute.param ps0 "care_phase")
           "immediate_crisis" = true
         ↔ SearchRoute.param ps0 "care_phase" = JStr "immediate_crisis").
Proof.
  unfold SearchRoute.backendParamsOf.
  destruct (SearchRoute.transformFiltersToBackendParams filters)
    as [ps0|e] eqn:Htr; [|done].
  cbn. intros [= <-].
  destruct (fold_run_Ok _ _ _ _ statements_NoDup Htr) as [Hin _].
  destruct (Hin ("query", fun f => SearchRoute.asIs (f "keywords")))
    as (v & Hv & Hquery); [left|].
  cbn in Hv, Hquery. injection Hv as <-.
  split; [|split].
  - unfold SearchRoute.withDefault.
    destruct (negb (truthy (SearchRoute.param ps0 "query"))
              && negb (truthy (SearchRoute.param ps0 "service_types")))
      eqn:Hnone.
    + destruct (SearchRoute.isString _ _).
      * rewrite param_assign_eq. apply orb_true_r.
      * by rewrite param_assign_eq.
    + by rewrite <- negb_orb, negb_false_iff in Hnone.
  - intros Hkw. rewrite Hkw in Hquery. cbn in Hquery.
    unfold SearchRoute.withDefault. by rewrite Hquery, Hkw.
  - exists ps0. split; [done|]. split; [|split; [|split]].
    + intros k. apply withDefault_other.
    + intros Hset. unfold SearchRoute.withDefault.
      by rewrite <- negb_orb, Hset.
    + intros Hnone. unfold SearchRoute.withDefault.
      rewrite <- negb_orb, Hnone. cbn [negb].
      destruct (SearchRoute.isString _ _).
      * split; [apply param_assign_eq|by apply param_assign_ne].
      * split; [apply param_assign_eq|by apply param_assign_ne].
    + unfold SearchRoute.isString.
      destruct (SearchRoute.param ps0 "care_phase") as [| | | |t| |];
        try (split; discriminate).
      rewrite String.eqb_eq. split; [by intros ->|by intros [= ->]].
Qed.

Lemma search_backend_params_have_query_or_service_types_witness :
  ∃ ps,
    SearchRoute.backendParamsOf
      (SearchRoute.readFilter
         (FilterUtils.fromURLParams (fun _ => None)
            [("location", "Denver"); ("care_phase", "immediate_crisis")]))
    = Ok ps
    ∧ truthy (SearchRoute.param ps "query")
      || truthy (SearchRoute.param ps "service_types") = true.
Proof.
  eexists. split; [vm_compute; reflexivity|].
  apply (search_backend_params_have_query_or_service_types
           (SearchRoute.readFilter
              (FilterUtils.fromURLParams (fun _ => None)
                 [("location", "Denver");
                  ("care_phase", "immediate_crisis")]))).
  vm_compute. reflexivity.
Defined.

(** X26: the check for location or keywords.  A request without a
    [location] parameter (and without [__proto__]) whose [keywords]
    parameter is missing, or is given once with a value that parses to
    something falsy (the empty string, [false], [0] or any numeral that
    rounds to zero as a double), is answered 400
    [Either location or keywords is required for search], and nothing is
    sent to the backend. *)
Theorem GET_search_requires_location_or_keywords
    (FASTAPI_URL FASTAPI_API_KEY : string) (backend : BackendClient.Backend)
    (JSON_parse : string -> option JsValue)
    (toQueryString : list (string * string) -> string)
    (transformBackendSearchResponse : JsValue -> Result JsValue)
    (searchParams : FilterUtils.URLSearchParams) :
  FilterUtils.getAll "location" searchParams = [] ->
  FilterUtils.getAll "__proto__" searchParams = [] ->
  (length (FilterUtils.getAll "keywords" searchParams) <= 1)%nat ->
  (∀ v, v ∈ FilterUtils.getAll "keywords" searchParams ->
        truthy (FilterUtils.parseScalar JSON_parse v) = false) ->
  SearchRoute.GET FASTAPI_URL FASTAPI_API_KEY backend JSON_parse
    toQueryString transformBackendSearchResponse searchParams
  = ({| SearchRoute.code := 400;
        SearchRoute.body := SearchRoute.LocationOrKeywordsRequired |}, []).
Proof.
  intros Hloc Hproto Hlen Hfalsy. unfold SearchRoute.GET.
  rewrite (readFilter_absent JSON_parse searchParams "location" Hloc Hproto).
  assert (truthy (SearchRoute.readFilter
                    (FilterUtils.fromURLParams JSON_parse searchParams)
                    "keywords") = false) as ->; [|done].
  destruct (FilterUtils.getAll "keywords" searchParams) as [|v [|v' vs]]
    eqn:Hkw.
  - by rewrite (readFilter_absent JSON_parse searchParams "keywords").
  - rewrite (readFilter_single JSON_parse searchParams "keywords" v Hkw).
    apply Hfalsy. left.
  - simpl in Hlen. lia.
Qed.

Lemma GET_search_requires_location_or_keywords_witness :
  SearchRoute.GET "https://api" "secret" (BackendClient.always 200 "OK")
    (fun _ => None) SearchRoute.plainQueryString SearchRoute.passOn
    [("keywords", "0"); ("care_phase", "immediate_crisis")]
  = ({| SearchRoute.code := 400;
        SearchRoute.body := SearchRoute.LocationOrKeywordsRequired |}, []).
Proof.
  apply GET_search_requires_location_or_keywords.
  - reflexivity.
  - reflexivity.
  - simpl. lia.
  - intros v Hv. apply list_elem_of_singleton in Hv as ->.
    vm_compute. reflexivity.
Defined.

(** X27: whatever the request and whatever the backend does, the search
    endpoint answers 200, 400 or 500, provided the response transformer
    throws no [BackendAPIError] (it constructs none); and the body
    [Backend search failed] always carries the message of the client and an
    undefined status code: no status of the backend reaches the caller. *)
Theorem GET_search_status_codes
    (FASTAPI_URL FASTAPI_API_KEY : string) (backend : BackendClient.Backend)
    (JSON_parse : string -> option JsValue)
    (toQueryString : list (string * string) -> string)
    (transformBackendSearchResponse : JsValue -> Result JsValue)
    (searchParams : FilterUtils.URLSearchParams) :
  (∀ v message statusCode cause,
     transformBackendSearchResponse v
     ≠ Throw (BackendAPIError message statusCode cause)) ->
  let response :=
    (SearchRoute.GET FASTAPI_URL FASTAPI_API_KEY backend JSON_parse
       toQueryString transformBackendSearchResponse searchParams).1 in
  SearchRoute.code response ∈ [200; 400; 500]
  ∧ ∀ details statusCode,
      SearchRoute.body response = SearchRoute.BackendFailed details statusCode ->
      details = "Failed to search resources" ∧ statusCode = None
      ∧ SearchRoute.code response = 500.
Proof.
  intros Htr. cbv zeta. unfold SearchRoute.GET.
  destruct (_ && _).
  { cbn. split; [right; left|done]. }
  destruct (SearchRoute.backendParamsOf _) as [ps|e].
  2:{ cbn. split; [right; right; left|done]. }
  pose proof (searchResources_error FASTAPI_URL FASTAPI_API_KEY backend
                toQueryString ps) as Herr.
  destruct (SearchRoute.searchResources _ _ _ _ _) as [[v|e] trace];
    cbn [fst] in Herr.
  - clear Herr.
    destruct v; cbn [fst];
      try (apply failed_other; intros message statusCode cause;
           discriminate);
      (destruct (transformBackendSearchResponse _) as [w|e] eqn:Hv;
       cbn [fst];
       [cbn; split; [left|done]
       |apply failed_other; intros message statusCode cause ->;
        exact (Htr _ _ _ _ Hv)]).
  - destruct (Herr e eq_refl) as [cause ->]. cbn [fst].
    apply failed_client.
Qed.

Lemma GET_search_status_codes_witness :
  SearchRoute.code
    (SearchRoute.GET "https://api" "secret"
       (BackendClient.always 404 "Not Found") (fun _ => None)
       SearchRoute.plainQueryString SearchRoute.passOn
       [("keywords", "shelter")]).1
  ∈ [200; 400; 500].
Proof.
  apply (GET_search_status_codes "https://api" "secret"
           (BackendClient.always 404 "Not Found") (fun _ => None)
           SearchRoute.plainQueryString SearchRoute.passOn
           [("keywords", "shelter")]).
  intros v message statusCode cause. discriminate.
Defined.

(** X28: the path of a search that succeeds.  When the request passes the
    check, the transformer returns, every parameter converts to a string,
    the backend answers attempt [i] (within the retry budget, after [i]
    failures) with a success carrying a JSON body other than [null], and the
    response transformer returns, the endpoint answers 200 with the
    transformed body; it has sent [i + 1] requests, each a [GET] of
    [/v2/resources/search?] followed by the parameters, defaults included,
    with the bearer token when a key is configured. *)
Theorem GET_search_success
    (FASTAPI_URL FASTAPI_API_KEY : string) (backend : BackendClient.Backend)
    (JSON_parse : string -> option JsValue)
    (toQueryString : list (string * string) -> string)
    (transformBackendSearchResponse : JsValue -> Result JsValue)
    (searchParams : FilterUtils.URLSearchParams)
    (ps : SearchRoute.Params) (entries : list (string * string))
    (i : nat) (r : BackendClient.Response) (found shown : JsValue) :
  let filters := FilterUtils.fromURLParams JSON_parse searchParams in
  truthy (SearchRoute.readFilter filters "location")
  || truthy (SearchRoute.readFilter filters "keywords") = true ->
  SearchRoute.backendParamsOf (SearchRoute.readFilter filters) = Ok ps ->
  SearchRoute.stringEntries ps = Some entries ->
  (i <= 3)%nat ->
  (∀ j, (j < i)%nat ->
        is_Some (ClientTrace.failsWith BackendClient.DEFAULT_RETRY_OPTIONS
                   (backend j))) ->
  backend i = BackendClient.Resolves r ->
  BackendClient.ok r = true ->
  BackendClient.json r = Some found ->
  found ≠ JNull -> found ≠ JUndefined ->
  transformBackendSearchResponse found = Ok shown ->
  let '(response, trace) :=
    SearchRoute.GET FASTAPI_URL FASTAPI_API_KEY backend JSON_parse
      toQueryString transformBackendSearchResponse searchParams in
  response = {| SearchRoute.code := 200;
                SearchRoute.body := SearchRoute.Found shown |}
  ∧ BackendClient.attempts trace = S i
  ∧ Forall (ClientTrace.wellAddressed FASTAPI_API_KEY
              (FASTAPI_URL ++ "/v2/resources/search?" ++ toQueryString entries)
              "GET") trace.
Proof.
  cbv zeta.
  intros Hguard Hps Hentries Hi Hfail Hres Hok Hjson Hnull Hundef Hshown.
  unfold SearchRoute.GET. rewrite <- negb_orb, Hguard. cbn [negb].
  rewrite Hps. unfold SearchRoute.searchResources. rewrite Hentries.
  unfold BackendClient.searchResources, BackendClient.clientCall.
  unfold BackendClient.fetchWithRetry.
  assert (BackendClient.tryBlock BackendClient.DEFAULT_RETRY_OPTIONS
            (backend (0 + i)%nat) = BackendClient.Returned r) as Hret.
  { cbn. unfold BackendClient.tryBlock. by rewrite Hres, Hok. }
  pose proof (retryLoop_first_success FASTAPI_API_KEY backend
                BackendClient.DEFAULT_RETRY_OPTIONS
                (FASTAPI_URL ++ "/v2/resources/search?"
                 ++ toQueryString entries) "GET" i r
                4 0 None eq_refl Hi Hfail Hret) as H.
  pose proof (retryLoop_wellAddressed FASTAPI_API_KEY backend
                BackendClient.DEFAULT_RETRY_OPTIONS
                (FASTAPI_URL ++ "/v2/resources/search?"
                 ++ toQueryString entries) "GET" 4 0 None) as Hreq.
  cbn [BackendClient.maxRetries BackendClient.DEFAULT_RETRY_OPTIONS].
  destruct (BackendClient.retryLoop _ _ _ _ _ _ _ _) as [res trace].
  destruct H as (-> & Hatt & _). cbn [snd] in Hreq. rewrite Hjson.
  destruct found; try done;
    rewrite Hshown; (split; [reflexivity|split; [exact Hatt|exact Hreq]]).
Qed.

Lemma GET_search_success_witness :
  let '(response, trace) :=
    SearchRoute.GET "https://api" "secret"
      (Servers.recovering 1 503
         (Servers.okJson (JObj [("total", JNum (JDec 0 0))])))
      (fun _ => None) SearchRoute.plainQueryString SearchRoute.passOn
      [("keywords", "shelter")] in
  response = {| SearchRoute.code := 200;
                SearchRoute.body :=
                  SearchRoute.Found (JObj [("total", JNum (JDec 0 0))]) |}
  ∧ BackendClient.attempts trace = 2%nat
  ∧ Forall (ClientTrace.wellAddressed "secret"
              "https://api/v2/resources/search?query=shelter" "GET") trace.
Proof.
  apply (GET_search_success "https://api" "secret"
           (Servers.recovering 1 503
              (Servers.okJson (JObj [("total", JNum (JDec 0 0))])))
           (fun _ => None) SearchRoute.plainQueryString SearchRoute.passOn
           [("keywords", "shelter")]
           [("query", JStr "shelter")] [("query", "shelter")] 1
           (Servers.okJson (JObj [("total", JNum (JDec 0 0))]))
           (JObj [("total", JNum (JDec 0 0))])
           (JObj [("total", JNum (JDec 0 0))])).
  - vm_compute. reflexivity.
  - vm_compute. reflexivity.
  - reflexivity.
  - lia.
  - intros [|j] Hj; [vm_compute; eauto|lia].
  - reflexivity.
  - reflexivity.
  - reflexivity.
  - discriminate.
  - discriminate.
  - reflexivity.
Defined.

(** ** The transformer on filters of the declared types *)

Section DeclaredTypes.
Import Transform SearchRoute TypedFilters.

(** *** Each statement, on a value of the declared type *)

Lemma asIs_string (v : option string) :
  asIs (optional JStr v) = Ok (JStr <$> whenTruthyString v).
Proof. by destruct v as [[|ch s]|]. Qed.

Lemma asIs_code {A : Type} (code : A -> string) (v : option A) :
  (∀ a, stringTruthy (code a) = true) ->
  asIs (optional (fun a => JStr (code a)) v) = Ok (JStr <$> (code <$> v)).
Proof.
  intros Hcode. destruct v as [a|]; [|done].
  unfold asIs. cbn. by rewrite Hcode.
Qed.

Lemma truthyToString_number (what : string) (v : option JsNumber) :
  truthyToString what (optional JNum v) = Ok (JStr <$> whenTruthyNumber v).
Proof.
  destruct v as [x|]; [|done]. unfold truthyToString. cbn.
  by destruct (numberTruthy x).
Qed.

Lemma definedToString_boolean (what : string) (v : option bool) :
  definedToString what (optional JBool v)
  = Ok (JStr <$> (Boolean_toString <$> v)).
Proof. by destruct v. Qed.

Lemma definedToString_number (what : string) (v : option JsNumber) :
  definedToString what (optional JNum v)
  = Ok (JStr <$> (Number_toString <$> v)).
Proof. by destruct v. Qed.

Lemma joined_list {A : Type} (what : string) (show : A -> string)
    (v : option (list A)) :
  joined what (optional (fun l => JArr ((fun a => JStr (show a)) <$> l)) v)
  = Ok (JStr <$> whenNonEmpty show v).
Proof.
  destruct v as [l|]; [|done]. destruct l as [|a l]; [done|].
  cbn [optional from_option whenNonEmpty mbind option_bind].
  transitivity (joined what (JArr (JStr <$> (show <$> (a :: l))))).
  { by rewrite <- list_fmap_compose. }
  by rewrite joined_repeated.
Qed.

Lemma locationParam_declared (f : CanonicalSearchFilters) :
  SearchRoute.locationParam (optional ofLocation (location f))
  = match Transform.locationParam f with
    | Ok loc => Ok (JStr <$> loc)
    | Throw e => Throw e
    end.
Proof.
  unfold SearchRoute.locationParam, Transform.locationParam.
  destruct (location f) as [l|]; [|done].
  destruct l as [addr [c|]]; [|done]. destruct c as [vlat vlon]. reflexivity.
Qed.

(** *** The two tables, row by row *)

Lemma statements_rows (f : CanonicalSearchFilters) (loc : option string) :
  Transform.locationParam f = Ok loc ->
  Forall2 (fun st row =>
             st.1 = row.1
             ∧ st.2 (field (object f)) = Ok (JStr <$> row.2))
          statements (rows f loc).
Proof.
  intros Hloc. unfold statements, rows.
  repeat (constructor; [split; [reflexivity|cbn [snd]]|]);
    [..|constructor].
  - exact (asIs_string (keywords f)).
  - change (SearchRoute.locationParam (optional ofLocation (location f))
            = Ok (JStr <$> loc)).
    by rewrite locationParam_declared, Hloc.
  - exact (truthyToString_number _ (max_distance_km f)).
  - exact (joined_list _ ServiceType_toString (service_types f)).
  - exact (joined_list _ id (insurance f)).
  - exact (joined_list _ id (languages f)).
  - exact (joined_list _ id (age_groups f)).
  - exact (definedToString_boolean _ (has_crisis_services f)).
  - exact (definedToString_boolean _ (walk_ins_accepted f)).
  - exact (definedToString_boolean _ (referral_required f)).
  - exact (asIs_code Gender_code (gender_specific f)
             ltac:(by intros [])).
  - exact (definedToString_boolean _ (lgbtq_affirming f)).
  - exact (definedToString_boolean _ (wheelchair_accessible f)).
  - exact (definedToString_boolean _ (telehealth_available f)).
  - exact (definedToString_boolean _ (urgentAccessOnly f)).
  - exact (definedToString_boolean _ (acceptingNewPatients f)).
  - exact (asIs_code CarePhase_code (care_phase f) ltac:(by intros [])).
  - exact (definedToString_boolean _ (verified_only f)).
  - exact (definedToString_number _ (min_rcs f)).
  - exact (truthyToString_number _ (limit f)).
  - exact (truthyToString_number _ (offset f)).
Qed.

Lemma rowValue_cons_eq (k : string) (v : option string)
    (table : list (string * option string)) :
  rowValue ((k, v) :: table) k = v.
Proof. unfold rowValue. cbn. by rewrite String.eqb_refl. Qed.

Lemma rowValue_cons_ne (k k0 : string) (v : option string)
    (table : list (string * option string)) :
  k0 ≠ k -> rowValue ((k0, v) :: table) k = rowValue table k.
Proof.
  intros Hne. unfold rowValue. cbn.
  by rewrite (proj2 (String.eqb_neq k0 k) Hne).
Qed.

Lemma rowValue_absent (k : string) (table : list (string * option string)) :
  k ∉ table.*1 -> rowValue table k = None.
Proof.
  induction table as [|[k0 v] table IH]; [done|]. rewrite fmap_cons.
  intros [Hne Hk]%not_elem_of_cons. cbn [fst] in Hne.
  rewrite rowValue_cons_ne by done. by apply IH.
Qed.

(** Statements that compute the rows of a table leave the parameters of the
    table. *)
Lemma fold_run_rows (filters : string -> JsValue)
    (l : list (string * ((string -> JsValue) -> Result (option JsValue))))
    (table : list (string * option string)) (ps0 : Params) :
  NoDup table.*1 ->
  Forall2 (fun st row =>
             st.1 = row.1 ∧ st.2 filters = Ok (JStr <$> row.2)) l table ->
  ∃ ps, fold_left (run filters) l (Ok ps0) = Ok ps
        ∧ ∀ k, param ps k
               = from_option JStr (param ps0 k) (rowValue table k).
Proof.
  intros Hnd Hrows. revert ps0 Hnd.
  induction Hrows as [|[k0 stmt] [k0' v] l table [Hk Hst] Hrows IH];
    intros ps0 Hnd.
  - exists ps0. by split.
  - cbn in Hk, Hst. subst k0'. cbn in Hnd.
    apply NoDup_cons in Hnd as [Hk0 Hnd].
    cbn [fold_left]. unfold run at 2.
    cbn [fst snd mbind Result_bind]. rewrite Hst.
    cbn [mbind Result_bind].
    destruct (IH (match JStr <$> v with
                  | Some x => assign k0 x ps0
                  | None => ps0
                  end) Hnd) as (ps & Hps & Hparam).
    exists ps. split; [exact Hps|]. intros k. rewrite Hparam.
    destruct (decide (k0 = k)) as [<-|Hne].
    + rewrite rowValue_cons_eq, (rowValue_absent k0 table Hk0). cbn.
      destruct v as [s|]; [apply param_assign_eq|done].
    + rewrite (rowValue_cons_ne k k0 v table Hne).
      destruct v as [s|]; [|done].
      change (JStr <$> Some s) with (Some (JStr s)). cbv iota.
      by rewrite (param_assign_ne k k0 (JStr s) ps0 Hne).
Qed.

Lemma rows_NoDup (f : CanonicalSearchFilters) (loc : option string) :
  NoDup (rows f loc).*1.
Proof. exact statements_NoDup. Qed.

(** *** The typed transformer as a table *)

Lemma fold_setOpt_lookup (table : list (string * option string))
    (params : gmap string string) (k : string) :
  NoDup table.*1 ->
  fold_left (fun m row => setOpt row.1 row.2 m) table params !! k
  = from_option Some (params !! k) (rowValue table k).
Proof.
  revert params. induction table as [|[k0 v] table IH]; intros params Hnd.
  - reflexivity.
  - rewrite fmap_cons in Hnd. apply NoDup_cons in Hnd as [Hk0 Hnd].
    cbn [fold_left fst snd]. rewrite (IH _ Hnd).
    destruct (decide (k0 = k)) as [<-|Hne].
    + rewrite rowValue_cons_eq, (rowValue_absent k0 table Hk0).
      cbn [from_option]. destruct v as [s|]; [apply lookup_insert_eq|done].
    + rewrite (rowValue_cons_ne k k0 v table Hne).
      by rewrite lookup_setOpt_ne.
Qed.

(** What the typed transformer returns holds, under each name, the string
    of the row of that name. *)
Lemma transform_rows (f : CanonicalSearchFilters)
    (params : gmap string string) :
  Transform.transformFiltersToBackendParams f = Ok params ->
  ∃ loc, Transform.locationParam f = Ok loc
         ∧ ∀ k, params !! k = rowValue (rows f loc) k.
Proof.
  unfold Transform.transformFiltersToBackendParams.
  destruct (Transform.locationParam f) as [loc|e]; [|done].
  intros [= <-]. exists loc. split; [done|]. intros k.
  change (restParams f (setOpt "location" loc
            (setOpt "query" (whenTruthyString (keywords f)) ∅)))
    with (fold_left (fun m row => setOpt row.1 row.2 m) (rows f loc)
            (∅ : gmap string string)).
  rewrite fold_setOpt_lookup by apply rows_NoDup.
  rewrite lookup_empty. by destruct (rowValue _ _).
Qed.

End DeclaredTypes.

(** X29: on filters of the declared types the transformer that the search
    endpoint runs on untyped values does what the typed transformer does.
    When the typed one returns, so does the other, with the same string
    under every name and nothing else; when the typed one throws (the
    coordinates are present and not both numbers), the other throws the
    same error. *)
Theorem transformer_agrees_on_declared_types (f : CanonicalSearchFilters) :
  let untyped :=
    SearchRoute.transformFiltersToBackendParams
      (SearchRoute.field (TypedFilters.object f)) in
  match Transform.transformFiltersToBackendParams f with
  | Ok params =>
      ∃ ps, untyped = Ok ps
            ∧ ∀ k, SearchRoute.param ps k
                   = from_option JStr JUndefined (params !! k)
  | Throw e => untyped = Throw e
  end.
Proof.
  cbv zeta.
  destruct (Transform.transformFiltersToBackendParams f) as [params|e] eqn:Ht.
  - destruct (transform_rows f params Ht) as (loc & Hloc & Hparams).
    destruct (fold_run_rows (SearchRoute.field (TypedFilters.object f))
                SearchRoute.statements (TypedFilters.rows f loc) []
                (rows_NoDup f loc) (statements_rows f loc Hloc))
      as (ps & Hps & Hparam).
    exists ps. split; [exact Hps|]. intros k.
    by rewrite Hparam, Hparams.
  - unfold Transform.transformFiltersToBackendParams in Ht.
    destruct (Transform.locationParam f) as [loc|e'] eqn:Hloc; [done|].
    injection Ht as ->.
    unfold SearchRoute.transformFiltersToBackendParams, SearchRoute.statements.
    match goal with
    | |- fold_left ?r (?s1 :: ?s2 :: ?rest) ?a = _ =>
        set (tail := rest);
        change (fold_left r tail (r (r a s1) s2) = Throw e)
    end.
    unfold SearchRoute.run at 2 3. cbn [fst snd mbind Result_bind].
    change (SearchRoute.field (TypedFilters.object f) "keywords")
      with (TypedFilters.optional JStr (keywords f)).
    rewrite asIs_string. cbn [mbind Result_bind].
    change (SearchRoute.field (TypedFilters.object f) "location")
      with (TypedFilters.optional TypedFilters.ofLocation (location f)).
    rewrite locationParam_declared, Hloc. cbn [mbind Result_bind].
    apply fold_run_Throw.
Qed.

(** ** Reading a location back *)

Section ParseLocationFacts.
Import ResponseTransform.

Lemma includes_comma_cons (c : ascii) (s : string) :
  includes (String c s) "," = Ascii.eqb c ","%char || includes s ",".
Proof.
  cbn [includes startsWith]. rewrite Ascii.eqb_sym.
  destruct s; by rewrite andb_true_r.
Qed.

Lemma split_nonempty (sep : ascii) (s : string) : split sep s ≠ [].
Proof.
  induction s as [|c s IH]; [done|]. cbn [split].
  destruct (Ascii.eqb c sep); [done|]. by destruct (split sep s).
Qed.

(** A string that splits in two or more pieces has a comma. *)
Lemma split_two_includes (s : string) :
  (2 <= length (split ","%char s))%nat -> includes s "," = true.
Proof.
  induction s as [|c s IH]; [cbn; lia|].
  rewrite includes_comma_cons. cbn [split].
  destruct (Ascii.eqb c ","%char); [done|]. cbn [orb].
  intros Hlen. apply IH.
  destruct (split ","%char s) as [|piece pieces]; [simpl in Hlen; lia|].
  exact Hlen.
Qed.

(** The first piece of a string is what stands before its first comma. *)
Lemma split_first (a rest : string) :
  commaFree a = true ->
  split ","%char (a ++ String ","%char rest) = a :: split ","%char rest.
Proof.
  unfold commaFree. induction a as [|c a IH]; intros Ha.
  - reflexivity.
  - rewrite includes_comma_cons in Ha.
    destruct (Ascii.eqb c ","%char) eqn:Hc; [done|].
    change (String c a ++ String ","%char rest)
      with (String c (a ++ String ","%char rest)).
    cbn [split]. rewrite Hc, IH; done.
Qed.

Lemma split_last (a : string) :
  commaFree a = true -> split ","%char a = [a].
Proof.
  unfold commaFree. induction a as [|c a IH]; intros Ha; [done|].
  rewrite includes_comma_cons in Ha.
  destruct (Ascii.eqb c ","%char) eqn:Hc; [done|].
  cbn [split]. rewrite Hc, IH; done.
Qed.

End ParseLocationFacts.

(** X30: what [parseLocation] returns.  A result is a pair of numbers that
    are neither zero nor [NaN], read from a string that has a comma: a
    string without a comma, and a latitude or longitude of 0, give
    [undefined].  Only the first two pieces count: for [a] and [b] without
    commas, [a,b] followed by nothing or by a comma and anything parses to
    the numbers [a] and [b] convert to, when both are neither zero nor
    [NaN], and to [undefined] otherwise. *)
Theorem parseLocation_result :
  (∀ locationString c,
     ResponseTransform.parseLocation locationString = Some c ->
     includes locationString "," = true
     ∧ ∃ x y, lat c = JNum x ∧ lon c = JNum y
              ∧ numberTruthy x = true ∧ numberTruthy y = true)
  ∧ (∀ a b tail,
       ResponseTransform.commaFree a = true ->
       ResponseTransform.commaFree b = true ->
       tail = EmptyString ∨ (∃ rest, tail = String ","%char rest) ->
       ResponseTransform.parseLocation (a ++ String ","%char (b ++ tail))
       = if numberTruthy (FilterUtils.Number a)
            && numberTruthy (FilterUtils.Number b)
         then Some {| lat := JNum (FilterUtils.Number a);
                      lon := JNum (FilterUtils.Number b) |}
         else None).
Proof.
  split.
  - intros s c. unfold ResponseTransform.parseLocation.
    destruct (stringTruthy s); [|done]. cbn [negb].
    destruct (ResponseTransform.split ","%char s) as [|p1 [|p2 ps]] eqn:Hs;
      try done.
    cbn [fmap list_fmap].
    destruct (numberTruthy (FilterUtils.Number p1)) eqn:H1; [|done].
    destruct (numberTruthy (FilterUtils.Number p2)) eqn:H2; [|done].
    intros [= <-]. split.
    + apply split_two_includes. rewrite Hs. simpl. lia.
    + eexists _, _. by repeat split.
  - intros a b tail Ha Hb Htail. unfold ResponseTransform.parseLocation.
    assert (stringTruthy (a ++ String ","%char (b ++ tail)) = true) as ->.
    { by destruct a. }
    cbn [negb]. rewrite (split_first a _ Ha).
    assert (∃ pieces,
      ResponseTransform.split ","%char (b ++ tail) = b :: pieces)
      as [pieces ->].
    { destruct Htail as [->|[rest ->]].
      - exists [].
        assert (b ++ EmptyString = b) as ->; [|by apply split_last].
        clear. induction b as [|ch b IH]; [done|].
        change (String ch b ++ EmptyString) with (String ch (b ++ EmptyString)).
        by rewrite IH.
      - eexists. by apply split_first. }
    reflexivity.
Qed.

Lemma parseLocation_result_witness :
  ResponseTransform.parseLocation "39.7,-104.99,Denver"
  = Some {| lat := JNum (JDec 397 (-1)); lon := JNum (JDec (-10499) (-2)) |}.
Proof.
  destruct parseLocation_result as [_ H].
  exact (H "39.7" "-104.99" ",Denver" eq_refl eq_refl
           (or_intror (ex_intro _ "Denver" eq_refl))).
Defined.

(** ** Numerals of the query string

    A value that reads as a number is rounded to a double before anything
    looks at it: it can underflow to zero, overflow to [Infinity], or lose
    digits. *)

Example Number_rounds_to_double :
  FilterUtils.Number "0.1" = JDec 1 (-1)
  ∧ FilterUtils.Number "0.30000000000000004" = JDec 30000000000000004 (-17)
  ∧ FilterUtils.Number "9007199254740993" = JDec 9007199254740992 0
  ∧ FilterUtils.Number "5e-324" = JDec 5 (-324)
  ∧ FilterUtils.Number "1e-400" = JDec 0 0
  ∧ FilterUtils.Number "1.7976931348623157e308"
    = JDec 17976931348623157 292
  ∧ FilterUtils.Number "1.7976931348623159e308" = JInfinity false
  ∧ FilterUtils.Number "1e1000" = JInfinity false
  ∧ FilterUtils.Number "0x20000000000001" = JDec 9007199254740992 0.
Proof. vm_compute. repeat split; reflexivity. Qed.

(** Keywords that underflow to zero do not pass the check for location or
    keywords, whatever else the request carries. *)
Example GET_search_underflowing_keywords :
  SearchRoute.GET "https://api" "secret" (BackendClient.always 200 "OK")
    (fun _ => None) SearchRoute.plainQueryString SearchRoute.passOn
    [("keywords", "1e-400"); ("service_types", "crisis_line")]
  = ({| SearchRoute.code := 400;
        SearchRoute.body := SearchRoute.LocationOrKeywordsRequired |}, []).
Proof. vm_compute. reflexivity. Qed.

(** A limit beyond [2^53] reaches the backend as the double it rounds to. *)
Example search_limit_is_rounded :
  match
    SearchRoute.backendParamsOf
      (SearchRoute.readFilter
         (FilterUtils.fromURLParams (fun _ => None)
            [("keywords", "shelter"); ("limit", "9007199254740993")]))
  with
  | Ok ps => SearchRoute.param ps "limit"
  | Throw _ => JUndefined
  end
  = JStr "9007199254740992".
Proof. vm_compute. reflexivity. Qed.

(** A numeral that overflows parses to [Infinity], not to [NaN]: it comes
    back from the URL as a number. *)
Example overflowing_numeral_parses_as_Infinity
    (parse : string -> option JsValue) :
  FilterUtils.parseScalar parse "1e1000" = JNum (JInfinity false).
Proof. vm_compute. reflexivity. Qed.

(** A latitude that underflows to zero gives no location. *)
Example parseLocation_underflow :
  ResponseTransform.parseLocation "1e-400,5" = None.
Proof. vm_compute. reflexivity. Qed.
